(** * Backtests of three accumulate-only Bitcoin strategies

    A shallow embedding of [dollar_cost_averaging.py], [ath_dip_strategy.py]
    and [moving_average_strategy.py].

    Numbers.  The Python code computes on [float].  Two embeddings follow.
    In the first a float is an exact rational ([Q]), so rounding, infinities
    and NaN are out of the model; what is kept of Python's arithmetic is its
    control flow: [/] raises [ZeroDivisionError] on a zero divisor,
    [data[-1]] raises [IndexError] on an empty list, and comparisons are the
    boolean tests of the source.  It serves for what does not depend on
    rounding: which exception a run raises, what the loops append and in
    which order, how the totals are folded from the events.  In the second
    ([B64]) a float is a binary64 float and every operation rounds as in
    Python; it serves for the two trigger rules, where rounding decides
    whether a day buys.

    Effects.  Each backtest is a [for] loop that updates a handful of local
    variables and appends to two lists; the locals become a record that the
    loop body threads through an error monad. *)

From Stdlib Require Import QArith ZArith Lia Lqa.
From Stdlib Require Import PrimFloat SpecFloat FloatOps FloatAxioms.
From stdpp Require Import base list.

Local Open Scope Q_scope.
#[local] Set Warnings "-inexact-float".

(** ** Exceptions *)

Inductive exn : Type :=
  | ZeroDivisionError
  | IndexError.

Inductive result (A : Type) : Type :=
  | Ok (a : A)
  | Raise (e : exn).
Arguments Ok {A} a.
Arguments Raise {A} e.

#[global] Instance result_ret : MRet result := fun _ a => Ok a.
#[global] Instance result_bind : MBind result := fun _ _ f m =>
  match m with
  | Ok a => f a
  | Raise e => Raise e
  end.

Definition is_ok {A} (m : result A) : bool :=
  match m with Ok _ => true | Raise _ => false end.

(** ** Python arithmetic on idealised floats *)

(** [a / b] *)
Definition truediv (a b : Q) : result Q :=
  if Qeq_bool b 0 then Raise ZeroDivisionError else Ok (a / b).

(** [a < b] and [a <= b] as the tests the source branches on. *)
Definition ltb (a b : Q) : bool := negb (Qle_bool b a).
Definition leb (a b : Q) : bool := Qle_bool a b.

(** [max(a, b)]: the first argument wins unless the second is greater. *)
Definition pymax (a b : Q) : Q := if ltb a b then b else a.

(** [sum(xs)]: a left fold from 0. *)
Definition pysum (xs : list Q) : Q := foldl Qplus 0 xs.

(** [xs[i]]: a negative index counts from the end, an index outside the
    list raises. *)
Definition getitem {A} (xs : list A) (i : Z) : result A :=
  let j := if (i <? 0)%Z then (Z.of_nat (length xs) + i)%Z else i in
  if (j <? 0)%Z then Raise IndexError
  else match xs !! Z.to_nat j with
       | Some x => Ok x
       | None => Raise IndexError
       end.

(** [range(lo, hi)] *)
Definition range (lo hi : Z) : list Z :=
  map (fun k => (lo + Z.of_nat k)%Z) (seq 0 (Z.to_nat (hi - lo))).

(** [[f(x) for x in xs]], stopping at the first exception. *)
Fixpoint for_list {A B} (f : A → result B) (xs : list A) : result (list B) :=
  match xs with
  | [] => Ok []
  | x :: rest => y ← f x; ys ← for_list f rest; Ok (y :: ys)
  end.

(** [for x in xs: s = body(s, x)], stopping at the first exception. *)
Fixpoint for_each {S A} (body : S → A → result S) (xs : list A) (s : S)
  : result S :=
  match xs with
  | [] => Ok s
  | x :: rest => s' ← body s x; for_each body rest s'
  end.

(** [enumerate(xs)] *)
Definition enumerate {A} (xs : list A) : list (nat * A) :=
  zip (seq 0 (length xs)) xs.

(** ** Price bars: one row of [load_bitcoin_data] *)

Record bar : Type := Bar {
  date : Z;
  open : Q;
  high : Q;
  low : Q;
  close : Q;
  volume : Q
}.

(** ** [dollar_cost_averaging.py] *)

Module DCA.

(** One entry of [purchases]. *)
Record purchase : Type := Purchase {
  p_date : Z;
  p_price : Q;
  p_amount_invested : Q;
  p_bitcoin_purchased : Q;
  p_total_bitcoin : Q;
  p_total_invested : Q
}.

(** The locals of [backtest_dca_strategy]. *)
Record state : Type := State {
  total_invested : Q;
  total_bitcoin : Q;
  purchases : list purchase;
  portfolio_values : list Q
}.

(** The returned dict. *)
Record summary : Type := Summary {
  r_total_invested : Q;
  r_final_value : Q;
  r_total_return : Q;
  r_return_percentage : Q;
  r_total_bitcoin : Q;
  r_average_purchase_price : Q;
  r_final_bitcoin_price : Q;
  r_daily_investment : Q;
  r_number_of_days : nat;
  r_purchases : list purchase;
  r_portfolio_values : list Q
}.

Definition init : state :=
  {| total_invested := 0; total_bitcoin := 0;
     purchases := []; portfolio_values := [] |}.

(** The body of [for day_data in data]. *)
Definition body (daily_investment : Q) (st : state) (day_data : bar)
  : result state :=
  let current_price := close day_data in
  bitcoin_purchased ← truediv daily_investment current_price;
  let total_bitcoin' := total_bitcoin st + bitcoin_purchased in
  let total_invested' := total_invested st + daily_investment in
  let purchases' := purchases st ++
    [ {| p_date := date day_data;
         p_price := current_price;
         p_amount_invested := daily_investment;
         p_bitcoin_purchased := bitcoin_purchased;
         p_total_bitcoin := total_bitcoin';
         p_total_invested := total_invested' |} ] in
  let portfolio_value := total_bitcoin' * current_price in
  Ok {| total_invested := total_invested';
        total_bitcoin := total_bitcoin';
        purchases := purchases';
        portfolio_values := portfolio_values st ++ [portfolio_value] |}.

(** The state after the first [k] bars. *)
Definition state_after (data : list bar) (daily_investment : Q) (k : nat)
  : result state :=
  for_each (body daily_investment) (take k data) init.

(** The code after the loop. *)
Definition finish (data : list bar) (daily_investment : Q) (st : state)
  : result summary :=
  final_bar ← getitem data (-1);
  let final_price := close final_bar in
  let final_value := total_bitcoin st * final_price in
  let total_return := final_value - total_invested st in
  return_percentage ←
    (if ltb 0 (total_invested st)
     then q ← truediv total_return (total_invested st); Ok (q * 100)
     else Ok 0);
  avg_purchase_price ←
    (if ltb 0 (total_bitcoin st)
     then truediv (total_invested st) (total_bitcoin st)
     else Ok 0);
  Ok {| r_total_invested := total_invested st;
        r_final_value := final_value;
        r_total_return := total_return;
        r_return_percentage := return_percentage;
        r_total_bitcoin := total_bitcoin st;
        r_average_purchase_price := avg_purchase_price;
        r_final_bitcoin_price := final_price;
        r_daily_investment := daily_investment;
        r_number_of_days := length data;
        r_purchases := purchases st;
        r_portfolio_values := portfolio_values st |}.

Definition backtest_dca_strategy (data : list bar) (daily_investment : Q)
  : result summary :=
  st ← for_each (body daily_investment) data init;
  finish data daily_investment st.

End DCA.

(** ** [ath_dip_strategy.py] *)

Module ATH.

(** One entry of [purchases]. *)
Record purchase : Type := Purchase {
  p_date : Z;
  p_price : Q;
  p_amount_invested : Q;
  p_bitcoin_purchased : Q;
  p_all_time_high : Q;
  p_dip_percentage : Q;
  p_total_bitcoin : Q;
  p_total_invested : Q;
  p_purchase_number : nat
}.

(** One entry of [portfolio_values]. *)
Record valuation : Type := Valuation {
  v_date : Z;
  v_price : Q;
  v_ath : Q;
  v_portfolio_value : Q;
  v_total_invested : Q;
  v_accumulated_cash : Q;
  v_unrealized_return : Q
}.

(** The locals of [backtest_ath_dip_strategy]. *)
Record state : Type := State {
  all_time_high : Q;
  accumulated_cash : Q;
  total_invested : Q;
  total_bitcoin : Q;
  purchases : list purchase;
  portfolio_values : list valuation;
  purchase_count : nat
}.

(** The returned dict. *)
Record summary : Type := Summary {
  r_dip_percentage : Q;
  r_daily_budget : Q;
  r_total_invested : Q;
  r_final_value : Q;
  r_total_return : Q;
  r_return_percentage : Q;
  r_total_bitcoin : Q;
  r_average_purchase_price : Q;
  r_final_bitcoin_price : Q;
  r_final_ath : Q;
  r_accumulated_cash : Q;
  r_number_of_purchases : nat;
  r_number_of_days : nat;
  r_purchases : list purchase;
  r_portfolio_values : list valuation
}.

Definition init : state :=
  {| all_time_high := 0; accumulated_cash := 0; total_invested := 0;
     total_bitcoin := 0; purchases := []; portfolio_values := [];
     purchase_count := 0%nat |}.

(** The [if buy_signal and all_time_high > 0] block, entered with the
    cash already accrued and the all-time high already updated. *)
Definition buy (st : state) (day_data : bar) : result state :=
  let current_price := close day_data in
  bitcoin_purchased ← truediv (accumulated_cash st) current_price;
  let total_bitcoin' := total_bitcoin st + bitcoin_purchased in
  let total_invested' := total_invested st + accumulated_cash st in
  let purchase_count' := (purchase_count st + 1)%nat in
  q ← truediv (all_time_high st - current_price) (all_time_high st);
  let dip_from_ath := q * 100 in
  Ok {| all_time_high := all_time_high st;
        accumulated_cash := 0;
        total_invested := total_invested';
        total_bitcoin := total_bitcoin';
        purchases := purchases st ++
          [ {| p_date := date day_data;
               p_price := current_price;
               p_amount_invested := accumulated_cash st;
               p_bitcoin_purchased := bitcoin_purchased;
               p_all_time_high := all_time_high st;
               p_dip_percentage := dip_from_ath;
               p_total_bitcoin := total_bitcoin';
               p_total_invested := total_invested';
               p_purchase_number := purchase_count' |} ];
        portfolio_values := portfolio_values st;
        purchase_count := purchase_count' |}.

(** The end of the loop body: the day's entry of [portfolio_values]. *)
Definition record_value (st : state) (day_data : bar) : state :=
  let current_price := close day_data in
  let portfolio_value :=
    accumulated_cash st + total_bitcoin st * current_price in
  {| all_time_high := all_time_high st;
     accumulated_cash := accumulated_cash st;
     total_invested := total_invested st;
     total_bitcoin := total_bitcoin st;
     purchases := purchases st;
     portfolio_values := portfolio_values st ++
       [ {| v_date := date day_data;
            v_price := current_price;
            v_ath := all_time_high st;
            v_portfolio_value := portfolio_value;
            v_total_invested := total_invested st;
            v_accumulated_cash := accumulated_cash st;
            v_unrealized_return :=
              if ltb 0 (total_invested st)
              then portfolio_value - total_invested st - accumulated_cash st
              else 0 |} ];
     purchase_count := purchase_count st |}.

(** The body of [for day_data in data]. *)
Definition body (dip_percentage daily_budget : Q) (st : state)
  (day_data : bar) : result state :=
  let current_price := close day_data in
  let current_high := high day_data in
  let accumulated_cash' := accumulated_cash st + daily_budget in
  let all_time_high' := pymax (all_time_high st) current_high in
  let dip_threshold := all_time_high' * (1 - dip_percentage / 100) in
  let buy_signal :=
    leb current_price dip_threshold && ltb 0 accumulated_cash' in
  let st1 :=
    {| all_time_high := all_time_high';
       accumulated_cash := accumulated_cash';
       total_invested := total_invested st;
       total_bitcoin := total_bitcoin st;
       purchases := purchases st;
       portfolio_values := portfolio_values st;
       purchase_count := purchase_count st |} in
  st2 ← (if buy_signal && ltb 0 all_time_high'
         then buy st1 day_data
         else Ok st1);
  Ok (record_value st2 day_data).

(** The state after the first [k] bars. *)
Definition state_after (data : list bar) (dip_percentage daily_budget : Q)
  (k : nat) : result state :=
  for_each (body dip_percentage daily_budget) (take k data) init.

(** The code after the loop. *)
Definition finish (data : list bar) (dip_percentage daily_budget : Q)
  (st : state) : result summary :=
  final_bar ← getitem data (-1);
  let final_price := close final_bar in
  let final_value := accumulated_cash st + total_bitcoin st * final_price in
  let total_return :=
    final_value - total_invested st - accumulated_cash st in
  return_percentage ←
    (if ltb 0 (total_invested st)
     then q ← truediv total_return (total_invested st); Ok (q * 100)
     else Ok 0);
  avg_purchase_price ←
    (if ltb 0 (total_bitcoin st)
     then truediv (total_invested st) (total_bitcoin st)
     else Ok 0);
  Ok {| r_dip_percentage := dip_percentage;
        r_daily_budget := daily_budget;
        r_total_invested := total_invested st;
        r_final_value := final_value;
        r_total_return := total_return;
        r_return_percentage := return_percentage;
        r_total_bitcoin := total_bitcoin st;
        r_average_purchase_price := avg_purchase_price;
        r_final_bitcoin_price := final_price;
        r_final_ath := all_time_high st;
        r_accumulated_cash := accumulated_cash st;
        r_number_of_purchases := length (purchases st);
        r_number_of_days := length data;
        r_purchases := purchases st;
        r_portfolio_values := portfolio_values st |}.

Definition backtest_ath_dip_strategy (data : list bar)
  (dip_percentage daily_budget : Q) : result summary :=
  st ← for_each (body dip_percentage daily_budget) data init;
  finish data dip_percentage daily_budget st.

End ATH.

(** ** [moving_average_strategy.py] *)

Module MA.

Inductive action : Type := BUY.

(** One entry of [trades]. *)
Record trade : Type := Trade {
  t_date : Z;
  t_action : action;
  t_price : Q;
  t_amount : Q;
  t_cash_used : Q
}.

(** The locals of [backtest_moving_average_strategy]. *)
Record state : Type := State {
  accumulated_cash : Q;
  bitcoin_held : Q;
  trades : list trade;
  portfolio_values : list Q;
  total_invested : Q
}.

(** The returned dict. *)
Record summary : Type := Summary {
  r_total_invested : Q;
  r_final_value : Q;
  r_total_return : Q;
  r_return_percentage : Q;
  r_trades : list trade;
  r_portfolio_values : list Q;
  r_moving_average_window : Z;
  r_bitcoin_held : Q;
  r_accumulated_cash : Q;
  r_daily_budget : Q;
  r_number_of_days : nat
}.

(** One entry of the list [calculate_moving_average] builds: [None]
    while [i < window - 1], else the sum of [data[j]["close"]] over
    [range(i - window + 1, i + 1)] divided by [window]. *)
Definition moving_average_at (data : list bar) (window : Z) (i : nat)
  : result (option Q) :=
  if (Z.of_nat i <? window - 1)%Z then Ok None
  else
    closes ← for_list (fun j => d ← getitem data j; Ok (close d))
               (range (Z.of_nat i - window + 1) (Z.of_nat i + 1));
    avg ← truediv (pysum closes) (inject_Z window);
    Ok (Some avg).

Definition calculate_moving_average (data : list bar) (window : Z)
  : result (list (option Q)) :=
  for_each
    (fun moving_averages i =>
       x ← moving_average_at data window i; Ok (moving_averages ++ [x]))
    (seq 0 (length data)) [].

Definition init : state :=
  {| accumulated_cash := 0; bitcoin_held := 0; trades := [];
     portfolio_values := []; total_invested := 0 |}.

(** The body of [for i, day_data in enumerate(data)]. *)
Definition body (moving_averages : list (option Q)) (daily_budget : Q)
  (st : state) (item : nat * bar) : result state :=
  let '(i, day_data) := item in
  let current_price := close day_data in
  ma ← getitem moving_averages (Z.of_nat i);
  let accumulated_cash' := accumulated_cash st + daily_budget in
  match ma with
  | None =>
      let portfolio_value :=
        accumulated_cash' + bitcoin_held st * current_price in
      Ok {| accumulated_cash := accumulated_cash';
            bitcoin_held := bitcoin_held st;
            trades := trades st;
            portfolio_values := portfolio_values st ++ [portfolio_value];
            total_invested := total_invested st |}
  | Some ma =>
      st2 ←
        (if ltb current_price ma && ltb 0 accumulated_cash'
         then
           bitcoin_bought ← truediv accumulated_cash' current_price;
           Ok {| accumulated_cash := 0;
                 bitcoin_held := bitcoin_held st + bitcoin_bought;
                 trades := trades st ++
                   [ {| t_date := date day_data;
                        t_action := BUY;
                        t_price := current_price;
                        t_amount := bitcoin_bought;
                        t_cash_used := accumulated_cash' |} ];
                 portfolio_values := portfolio_values st;
                 total_invested := total_invested st + accumulated_cash' |}
         else
           Ok {| accumulated_cash := accumulated_cash';
                 bitcoin_held := bitcoin_held st;
                 trades := trades st;
                 portfolio_values := portfolio_values st;
                 total_invested := total_invested st |});
      let portfolio_value :=
        accumulated_cash st2 + bitcoin_held st2 * current_price in
      Ok {| accumulated_cash := accumulated_cash st2;
            bitcoin_held := bitcoin_held st2;
            trades := trades st2;
            portfolio_values := portfolio_values st2 ++ [portfolio_value];
            total_invested := total_invested st2 |}
  end.

(** The state after the first [k] bars. *)
Definition state_after (data : list bar) (ma_window : Z) (daily_budget : Q)
  (k : nat) : result state :=
  moving_averages ← calculate_moving_average data ma_window;
  for_each (body moving_averages daily_budget) (take k (enumerate data))
    init.

(** The code after the loop. *)
Definition finish (data : list bar) (ma_window : Z) (daily_budget : Q)
  (st : state) : result summary :=
  final_bar ← getitem data (-1);
  let final_value :=
    accumulated_cash st + bitcoin_held st * close final_bar in
  return_percentage ←
    (if ltb 0 (total_invested st)
     then q ← truediv (final_value - total_invested st) (total_invested st);
          Ok (q * 100)
     else Ok 0);
  Ok {| r_total_invested := total_invested st;
        r_final_value := final_value;
        r_total_return := final_value - total_invested st;
        r_return_percentage := return_percentage;
        r_trades := trades st;
        r_portfolio_values := portfolio_values st;
        r_moving_average_window := ma_window;
        r_bitcoin_held := bitcoin_held st;
        r_accumulated_cash := accumulated_cash st;
        r_daily_budget := daily_budget;
        r_number_of_days := length data |}.

Definition backtest_moving_average_strategy (data : list bar)
  (ma_window : Z) (daily_budget : Q) : result summary :=
  moving_averages ← calculate_moving_average data ma_window;
  st ← for_each (body moving_averages daily_budget) (enumerate data) init;
  finish data ma_window daily_budget st.

End MA.

(** ** The three backtests side by side

    The claims below speak of "every strategy" in one vocabulary: idle cash,
    capital invested, units held, allocation events, daily valuations.  The
    records here are that vocabulary, and the functions read it off the
    locals and off the returned dict of each backtest; nothing is
    recomputed. *)

Inductive strategy : Type :=
  | Fixed_Amount (daily_investment : Q)
  | Dip_Below_Extreme (dip_percentage daily_budget : Q)
  | Below_Moving_Average (ma_window : Z) (daily_budget : Q).

Record allocation : Type := Allocation {
  a_date : Z;
  a_price : Q;
  a_amount : Q;
  a_units : Q
}.

Record position : Type := Position {
  accumulated_cash : Q;
  total_invested : Q;
  total_holding : Q;
  events : list allocation;
  valuations : list Q
}.

Record report : Type := Report {
  final_position : position;
  final_value : Q;
  total_return : Q;
  return_percentage : Q;
  (** [average_purchase_price]; the moving-average backtest reports none *)
  average_cost_basis : option Q;
  number_of_days : nat
}.

Definition dca_allocation (p : DCA.purchase) : allocation :=
  {| a_date := DCA.p_date p; a_price := DCA.p_price p;
     a_amount := DCA.p_amount_invested p;
     a_units := DCA.p_bitcoin_purchased p |}.

Definition ath_allocation (p : ATH.purchase) : allocation :=
  {| a_date := ATH.p_date p; a_price := ATH.p_price p;
     a_amount := ATH.p_amount_invested p;
     a_units := ATH.p_bitcoin_purchased p |}.

Definition ma_allocation (t : MA.trade) : allocation :=
  {| a_date := MA.t_date t; a_price := MA.t_price t;
     a_amount := MA.t_cash_used t;
     a_units := MA.t_amount t |}.

(** The fixed-amount backtest has no idle cash variable: every day's amount
    is spent at once. *)
Definition dca_position (st : DCA.state) : position :=
  {| accumulated_cash := 0;
     total_invested := DCA.total_invested st;
     total_holding := DCA.total_bitcoin st;
     events := map dca_allocation (DCA.purchases st);
     valuations := DCA.portfolio_values st |}.

Definition ath_position (st : ATH.state) : position :=
  {| accumulated_cash := ATH.accumulated_cash st;
     total_invested := ATH.total_invested st;
     total_holding := ATH.total_bitcoin st;
     events := map ath_allocation (ATH.purchases st);
     valuations := map ATH.v_portfolio_value (ATH.portfolio_values st) |}.

Definition ma_position (st : MA.state) : position :=
  {| accumulated_cash := MA.accumulated_cash st;
     total_invested := MA.total_invested st;
     total_holding := MA.bitcoin_held st;
     events := map ma_allocation (MA.trades st);
     valuations := MA.portfolio_values st |}.

Definition dca_report (r : DCA.summary) : report :=
  {| final_position :=
       {| accumulated_cash := 0;
          total_invested := DCA.r_total_invested r;
          total_holding := DCA.r_total_bitcoin r;
          events := map dca_allocation (DCA.r_purchases r);
          valuations := DCA.r_portfolio_values r |};
     final_value := DCA.r_final_value r;
     total_return := DCA.r_total_return r;
     return_percentage := DCA.r_return_percentage r;
     average_cost_basis := Some (DCA.r_average_purchase_price r);
     number_of_days := DCA.r_number_of_days r |}.

Definition ath_report (r : ATH.summary) : report :=
  {| final_position :=
       {| accumulated_cash := ATH.r_accumulated_cash r;
          total_invested := ATH.r_total_invested r;
          total_holding := ATH.r_total_bitcoin r;
          events := map ath_allocation (ATH.r_purchases r);
          valuations := map ATH.v_portfolio_value (ATH.r_portfolio_values r) |};
     final_value := ATH.r_final_value r;
     total_return := ATH.r_total_return r;
     return_percentage := ATH.r_return_percentage r;
     average_cost_basis := Some (ATH.r_average_purchase_price r);
     number_of_days := ATH.r_number_of_days r |}.

Definition ma_report (r : MA.summary) : report :=
  {| final_position :=
       {| accumulated_cash := MA.r_accumulated_cash r;
          total_invested := MA.r_total_invested r;
          total_holding := MA.r_bitcoin_held r;
          events := map ma_allocation (MA.r_trades r);
          valuations := MA.r_portfolio_values r |};
     final_value := MA.r_final_value r;
     total_return := MA.r_total_return r;
     return_percentage := MA.r_return_percentage r;
     average_cost_basis := None;
     number_of_days := MA.r_number_of_days r |}.

(** One run of a strategy over a series. *)
Definition run (s : strategy) (data : list bar) : result report :=
  match s with
  | Fixed_Amount daily_investment =>
      r ← DCA.backtest_dca_strategy data daily_investment; Ok (dca_report r)
  | Dip_Below_Extreme dip_percentage daily_budget =>
      r ← ATH.backtest_ath_dip_strategy data dip_percentage daily_budget;
      Ok (ath_report r)
  | Below_Moving_Average ma_window daily_budget =>
      r ← MA.backtest_moving_average_strategy data ma_window daily_budget;
      Ok (ma_report r)
  end.

(** The position a run holds once it has processed its first [k] bars. *)
Definition position_after (s : strategy) (data : list bar) (k : nat)
  : result position :=
  match s with
  | Fixed_Amount daily_investment =>
      st ← DCA.state_after data daily_investment k; Ok (dca_position st)
  | Dip_Below_Extreme dip_percentage daily_budget =>
      st ← ATH.state_after data dip_percentage daily_budget k;
      Ok (ath_position st)
  | Below_Moving_Average ma_window daily_budget =>
      st ← MA.state_after data ma_window daily_budget k; Ok (ma_position st)
  end.

(** Whether the loop body, entered in state [st] on bar [d], takes the
    buying branch: the test of the [if] in each source loop.  The
    fixed-amount loop has no test. *)
Definition ath_buys (dip_percentage daily_budget : Q) (st : ATH.state)
  (d : bar) : bool :=
  let all_time_high' := pymax (ATH.all_time_high st) (high d) in
  leb (close d) (all_time_high' * (1 - dip_percentage / 100))
  && ltb 0 (ATH.accumulated_cash st + daily_budget)
  && ltb 0 all_time_high'.

Definition ma_buys (ma : Q) (daily_budget : Q) (st : MA.state) (d : bar)
  : bool :=
  ltb (close d) ma && ltb 0 (MA.accumulated_cash st + daily_budget).

(** The same test on an entry of [moving_averages]: [None] skips it. *)
Definition ma_signal (x : option Q) (daily_budget : Q) (st : MA.state)
  (d : bar) : bool :=
  match x with
  | Some ma => ma_buys ma daily_budget st d
  | None => false
  end.

(** Whether the run reaches bar [k] and divides by its close there. *)
Definition deploys_at (s : strategy) (data : list bar) (k : nat) : bool :=
  match data !! k with
  | None => false
  | Some d =>
      match s with
      | Fixed_Amount daily_investment =>
          is_ok (DCA.state_after data daily_investment k)
      | Dip_Below_Extreme dip_percentage daily_budget =>
          match ATH.state_after data dip_percentage daily_budget k with
          | Ok st => ath_buys dip_percentage daily_budget st d
          | Raise _ => false
          end
      | Below_Moving_Average ma_window daily_budget =>
          match MA.state_after data ma_window daily_budget k,
                MA.moving_average_at data ma_window k with
          | Ok st, Ok x => ma_signal x daily_budget st d
          | _, _ => false
          end
      end
  end.

(** The [W] most recent bars at index [k], today's included. *)
Definition recent (W : nat) (data : list bar) (k : nat) : list bar :=
  take W (drop (S k - W) data).

(** What the data model asks of the inputs: positive closes, and amounts
    and windows a backtest can be run with. *)
Definition positive_closes (data : list bar) : Prop :=
  Forall (fun d => 0 < close d) data.

Definition well_formed (s : strategy) : Prop :=
  match s with
  | Fixed_Amount daily_investment => 0 <= daily_investment
  | Dip_Below_Extreme _ _ => True
  | Below_Moving_Average ma_window _ => ma_window ≠ 0%Z
  end.

(** ** The ledger invariant

    What every loop maintains between its totals, its events and the bars
    it has seen. *)

Definition event_key (e : allocation) : Z * Q := (a_date e, a_price e).
Definition bar_key (d : bar) : Z * Q := (date d, close d).

Record ledger_ok (pre : list bar) (p : position) : Prop := LedgerOk {
  ledger_invested : total_invested p = pysum (map a_amount (events p));
  ledger_holding : total_holding p = pysum (map a_units (events p));
  ledger_events : map event_key (events p) `sublist_of` map bar_key pre;
  ledger_valuations : length (valuations p) = length pre
}.

(** ** Sample series *)

(** A bar whose four prices agree. *)
Definition flat_bar (day : Z) (price : Q) : bar :=
  Bar day price price price price 0.

Definition three_days : list bar :=
  [flat_bar 1 100; flat_bar 2 50; flat_bar 3 200].

Definition falling_week : list bar :=
  [flat_bar 1 100; flat_bar 2 90; flat_bar 3 80; flat_bar 4 70; flat_bar 5 60].

Definition zero_close_day : bar := Bar 2 50 50 0 0 0.

Definition with_zero_close : list bar :=
  [flat_bar 1 100; zero_close_day; flat_bar 3 80].

Definition with_negative_close : list bar := [flat_bar 1 (-100)].

(** ** The reporting code

    The functions that print a backtest.  What they compute is modelled,
    the text they format is not: a function returns the values it hands to
    [print], in the order it prints them, and an exception stands for the
    whole outcome. *)

(** The daily amount a strategy is run with. *)
Definition daily_amount (s : strategy) : Q :=
  match s with
  | Fixed_Amount daily_investment => daily_investment
  | Dip_Below_Extreme _ daily_budget => daily_budget
  | Below_Moving_Average _ daily_budget => daily_budget
  end.

(** [analyze_dca_performance]: the price appreciation and the difference
    printed on its last two lines. *)
Definition analyze_dca_performance (results : DCA.summary) : result (Q * Q) :=
  first_purchase ← getitem (DCA.r_purchases results) 0;
  let first_price := DCA.p_price first_purchase in
  let final_price := DCA.r_final_bitcoin_price results in
  q ← truediv (final_price - first_price) first_price;
  let bitcoin_appreciation := q * 100 in
  Ok (bitcoin_appreciation,
      DCA.r_return_percentage results - bitcoin_appreciation).

(** One line of the table of [compare_investment_amounts]. *)
Record investment_row : Type := InvestmentRow {
  ir_amount : Q;
  ir_total_return : Q;
  ir_return_percentage : Q;
  ir_final_value : Q
}.

Definition compare_investment_amounts (data : list bar) (amounts : list Q)
  : result (list investment_row) :=
  for_list
    (fun amount =>
       results ← DCA.backtest_dca_strategy data amount;
       Ok {| ir_amount := amount;
             ir_total_return := DCA.r_total_return results;
             ir_return_percentage := DCA.r_return_percentage results;
             ir_final_value := DCA.r_final_value results |})
    amounts.

(** One line of the table of [compare_dip_thresholds]. *)
Record threshold_row : Type := ThresholdRow {
  tr_threshold : Q;
  tr_number_of_purchases : nat;
  tr_total_return : Q;
  tr_return_percentage : Q;
  tr_final_value : Q
}.

Definition compare_dip_thresholds (data : list bar) (thresholds : list Q)
  : result (list threshold_row) :=
  for_list
    (fun threshold =>
       results ← ATH.backtest_ath_dip_strategy data threshold 1;
       Ok {| tr_threshold := threshold;
             tr_number_of_purchases := ATH.r_number_of_purchases results;
             tr_total_return := ATH.r_total_return results;
             tr_return_percentage := ATH.r_return_percentage results;
             tr_final_value := ATH.r_final_value results |})
    thresholds.





(** [min(xs, key=key)] and [max(xs, key=key)] on the non-empty list
    [x :: rest]: a later item replaces the best so far only when its key
    is strictly smaller, respectively strictly greater. *)
Definition min_by {A} (key : A → Q) (x : A) (rest : list A) : A :=
  foldl (fun best y => if ltb (key y) (key best) then y else best) x rest.

Definition max_by {A} (key : A → Q) (x : A) (rest : list A) : A :=
  foldl (fun best y => if ltb (key best) (key y) then y else best) x rest.

(** The best and the worst purchase of [main] in [ath_dip_strategy.py],
    computed under [if results["purchases"]]. *)
Definition best_and_worst (purchases : list ATH.purchase)
  : option (ATH.purchase * ATH.purchase) :=
  match purchases with
  | [] => None
  | x :: rest =>
      Some (min_by ATH.p_price x rest, max_by ATH.p_price x rest)
  end.

(** ** One day of a run

    What a loop body does to the position, whichever the strategy: it
    either spends the cash accrued so far together with the day's amount
    on one event at the day's close, or it keeps the day's amount as
    cash; and it appends one valuation. *)

Definition buys_on (s : strategy) (d : bar) (p p' : position) : Prop :=
  ∃ e, events p' = events p ++ [e] ∧
       event_key e = bar_key d ∧
       a_amount e == accumulated_cash p + daily_amount s ∧
       a_units e = a_amount e / close d ∧
       total_invested p' = total_invested p + a_amount e ∧
       total_holding p' = total_holding p + a_units e ∧
       accumulated_cash p' = 0 ∧
       ¬ close d == 0.

Definition holds_on (s : strategy) (p p' : position) : Prop :=
  events p' = events p ∧
  total_invested p' = total_invested p ∧
  total_holding p' = total_holding p ∧
  accumulated_cash p' = accumulated_cash p + daily_amount s.

Definition is_fixed_amount (s : strategy) : Prop :=
  match s with Fixed_Amount _ => True | _ => False end.

Definition day_step (s : strategy) (d : bar) (p p' : position) : Prop :=
  (∃ v, valuations p' = valuations p ++ [v] ∧
        v == accumulated_cash p' + total_holding p' * close d) ∧
  ((buys_on s d p p' ∧
    (is_fixed_amount s ∧ accumulated_cash p = 0 ∨
     0 < accumulated_cash p + daily_amount s)) ∨
   (holds_on s p p' ∧ ¬ is_fixed_amount s)).

(** ** What the loops record *)

(** What the fixed-amount loop keeps of the bars it has seen. *)
Record dca_records (daily_investment : Q) (pre : list bar) (st : DCA.state)
  : Prop := DcaRecords {
  dca_rec_dates : map DCA.p_date (DCA.purchases st) = map date pre;
  dca_rec_prices : map DCA.p_price (DCA.purchases st) = map close pre;
  dca_rec_amounts :
    Forall (fun p => DCA.p_amount_invested p = daily_investment ∧
                     DCA.p_bitcoin_purchased p
                     = daily_investment / DCA.p_price p)
      (DCA.purchases st);
  dca_rec_invested :
    ∀ i p, DCA.purchases st !! i = Some p →
      DCA.p_total_invested p =
      pysum (map DCA.p_amount_invested (take (S i) (DCA.purchases st)));
  dca_rec_bitcoin :
    ∀ i p, DCA.purchases st !! i = Some p →
      DCA.p_total_bitcoin p =
      pysum (map DCA.p_bitcoin_purchased (take (S i) (DCA.purchases st)));
  dca_rec_values :
    DCA.portfolio_values st =
    map (fun p => DCA.p_total_bitcoin p * DCA.p_price p) (DCA.purchases st)
}.

(** What the dip loop keeps of the bars it has seen. *)
Record ath_records (pre : list bar) (st : ATH.state) : Prop := AthRecords {
  ath_rec_high : ATH.all_time_high st = foldl pymax 0 (map high pre);
  ath_rec_dates :
    map ATH.v_date (ATH.portfolio_values st) = map date pre;
  ath_rec_prices :
    map ATH.v_price (ATH.portfolio_values st) = map close pre;
  ath_rec_ath :
    ∀ i v, ATH.portfolio_values st !! i = Some v →
      ATH.v_ath v = foldl pymax 0 (map high (take (S i) pre));
  ath_rec_count : ATH.purchase_count st = length (ATH.purchases st);
  ath_rec_number :
    ∀ i e, ATH.purchases st !! i = Some e →
      ATH.p_purchase_number e = S i ∧
      0 < ATH.p_amount_invested e ∧
      ATH.p_bitcoin_purchased e = ATH.p_amount_invested e / ATH.p_price e;
  ath_rec_invested :
    ∀ i e, ATH.purchases st !! i = Some e →
      ATH.p_total_invested e =
      pysum (map ATH.p_amount_invested (take (S i) (ATH.purchases st)));
  ath_rec_bitcoin :
    ∀ i e, ATH.purchases st !! i = Some e →
      ATH.p_total_bitcoin e =
      pysum (map ATH.p_bitcoin_purchased (take (S i) (ATH.purchases st)))
}.

(** The relation two dip runs over the same bars keep, the second on a
    dip at least as deep as the first. *)
Definition dips_deeper (s1 s2 : ATH.state) : Prop :=
  ATH.all_time_high s2 = ATH.all_time_high s1 ∧
  0 <= ATH.accumulated_cash s1 ∧
  ATH.accumulated_cash s1 <= ATH.accumulated_cash s2 ∧
  map ATH.p_date (ATH.purchases s2)
    `sublist_of` map ATH.p_date (ATH.purchases s1).

(** What [min] and [max] with a key pick: an item at some position whose
    key bounds every key, and is strictly better than every key before
    that position. *)
Definition first_best {A} (better : Q → Q → Prop) (no_worse : Q → Q → Prop)
    (key : A → Q) (l : list A) (best : A) : Prop :=
  ∃ i, l !! i = Some best ∧
       (∀ j y, l !! j = Some y → no_worse (key best) (key y)) ∧
       (∀ j y, (j < i)%nat → l !! j = Some y → better (key best) (key y)).

(** [n] daily amounts added up from zero, one at a time, as
    [accumulated_cash += daily_budget] does over [n] days. *)
Definition accrued (n : nat) (daily : Q) : Q := pysum (replicate n daily).

(** [k] days shared out among events and idle cash: each event's amount
    is what a run of at least one day accrues, the cash is what the last
    run accrues, and the runs add up to [k] days. *)
Definition days_accounted (daily : Q) (amounts : list Q) (cash : Q)
    (k : nat) : Prop :=
  ∃ (days : list nat) (idle : nat),
    amounts = map (fun n => accrued n daily) days ∧
    Forall (fun n => (0 < n)%nat) days ∧
    cash = accrued idle daily ∧
    (sum_list days + idle = k)%nat.

(** ** The trigger rules on binary64

    Whether a day buys is decided by comparing floats: the close against
    a threshold or an average, the cash against zero.  Those comparisons
    follow the rounding of every operation before them, so the dip and the
    moving-average backtests are embedded a second time, on binary64
    floats, each Python operation as the one IEEE operation it is.  The
    records and the control flow are those of [ATH] and [MA] above. *)

Module B64.

Local Open Scope float_scope.

(** [a / b]: a zero divisor, of either sign, raises. *)
Definition truediv (a b : float) : result float :=
  if b =? 0 then Raise ZeroDivisionError else Ok (a / b).

(** [max(a, b)]: the first argument wins unless the second is greater. *)
Definition pymax (a b : float) : float := if a <? b then b else a.

(** The float an [int] operand is converted to: the nearest one, ties to
    even.  (Beyond the range of a float Python raises [OverflowError]
    instead; the windows considered below are well within it.) *)
Definition of_int (n : Z) : float :=
  SF2Prim (binary_normalize prec emax n 0%Z false).

(** One row of [load_bitcoin_data]. *)
Record bar : Type := Bar {
  date : Z;
  open : float;
  high : float;
  low : float;
  close : float;
  volume : float
}.

(** The [W] most recent bars at index [k], today's included. *)
Definition recent (W : nat) (data : list bar) (k : nat) : list bar :=
  take W (drop (S k - W) data).

(** *** [ath_dip_strategy.py] *)

Module ATH.

(** One entry of [purchases]. *)
Record purchase : Type := Purchase {
  p_date : Z;
  p_price : float;
  p_amount_invested : float;
  p_bitcoin_purchased : float;
  p_all_time_high : float;
  p_dip_percentage : float;
  p_total_bitcoin : float;
  p_total_invested : float;
  p_purchase_number : nat
}.

(** One entry of [portfolio_values]. *)
Record valuation : Type := Valuation {
  v_date : Z;
  v_price : float;
  v_ath : float;
  v_portfolio_value : float;
  v_total_invested : float;
  v_accumulated_cash : float;
  v_unrealized_return : float
}.

(** The locals of [backtest_ath_dip_strategy]. *)
Record state : Type := State {
  all_time_high : float;
  accumulated_cash : float;
  total_invested : float;
  total_bitcoin : float;
  purchases : list purchase;
  portfolio_values : list valuation;
  purchase_count : nat
}.

(** The returned dict. *)
Record summary : Type := Summary {
  r_dip_percentage : float;
  r_daily_budget : float;
  r_total_invested : float;
  r_final_value : float;
  r_total_return : float;
  r_return_percentage : float;
  r_total_bitcoin : float;
  r_average_purchase_price : float;
  r_final_bitcoin_price : float;
  r_final_ath : float;
  r_accumulated_cash : float;
  r_number_of_purchases : nat;
  r_number_of_days : nat;
  r_purchases : list purchase;
  r_portfolio_values : list valuation
}.

Definition init : state :=
  {| all_time_high := 0; accumulated_cash := 0; total_invested := 0;
     total_bitcoin := 0; purchases := []; portfolio_values := [];
     purchase_count := 0%nat |}.

(** The [if buy_signal and all_time_high > 0] block, entered with the
    cash already accrued and the all-time high already updated. *)
Definition buy (st : state) (day_data : bar) : result state :=
  let current_price := close day_data in
  bitcoin_purchased ← truediv (accumulated_cash st) current_price;
  let total_bitcoin' := total_bitcoin st + bitcoin_purchased in
  let total_invested' := total_invested st + accumulated_cash st in
  let purchase_count' := (purchase_count st + 1)%nat in
  q ← truediv (all_time_high st - current_price) (all_time_high st);
  let dip_from_ath := q * 100 in
  Ok {| all_time_high := all_time_high st;
        accumulated_cash := 0;
        total_invested := total_invested';
        total_bitcoin := total_bitcoin';
        purchases := purchases st ++
          [ {| p_date := date day_data;
               p_price := current_price;
               p_amount_invested := accumulated_cash st;
               p_bitcoin_purchased := bitcoin_purchased;
               p_all_time_high := all_time_high st;
               p_dip_percentage := dip_from_ath;
               p_total_bitcoin := total_bitcoin';
               p_total_invested := total_invested';
               p_purchase_number := purchase_count' |} ];
        portfolio_values := portfolio_values st;
        purchase_count := purchase_count' |}.

(** The end of the loop body: the day's entry of [portfolio_values]. *)
Definition record_value (st : state) (day_data : bar) : state :=
  let current_price := close day_data in
  let portfolio_value :=
    accumulated_cash st + total_bitcoin st * current_price in
  {| all_time_high := all_time_high st;
     accumulated_cash := accumulated_cash st;
     total_invested := total_invested st;
     total_bitcoin := total_bitcoin st;
     purchases := purchases st;
     portfolio_values := portfolio_values st ++
       [ {| v_date := date day_data;
            v_price := current_price;
            v_ath := all_time_high st;
            v_portfolio_value := portfolio_value;
            v_total_invested := total_invested st;
            v_accumulated_cash := accumulated_cash st;
            v_unrealized_return :=
              if 0 <? total_invested st
              then portfolio_value - total_invested st - accumulated_cash st
              else 0 |} ];
     purchase_count := purchase_count st |}.

(** The body of [for day_data in data]. *)
Definition body (dip_percentage daily_budget : float) (st : state)
  (day_data : bar) : result state :=
  let current_price := close day_data in
  let current_high := high day_data in
  let accumulated_cash' := accumulated_cash st + daily_budget in
  let all_time_high' := pymax (all_time_high st) current_high in
  let dip_threshold := all_time_high' * (1 - dip_percentage / 100) in
  let buy_signal :=
    (current_price <=? dip_threshold) && (0 <? accumulated_cash') in
  let st1 :=
    {| all_time_high := all_time_high';
       accumulated_cash := accumulated_cash';
       total_invested := total_invested st;
       total_bitcoin := total_bitcoin st;
       purchases := purchases st;
       portfolio_values := portfolio_values st;
       purchase_count := purchase_count st |} in
  st2 ← (if buy_signal && (0 <? all_time_high')
         then buy st1 day_data
         else Ok st1);
  Ok (record_value st2 day_data).

(** The state after the first [k] bars. *)
Definition state_after (data : list bar) (dip_percentage daily_budget : float)
  (k : nat) : result state :=
  for_each (body dip_percentage daily_budget) (take k data) init.

(** The code after the loop. *)
Definition finish (data : list bar) (dip_percentage daily_budget : float)
  (st : state) : result summary :=
  final_bar ← getitem data (-1);
  let final_price := close final_bar in
  let final_value := accumulated_cash st + total_bitcoin st * final_price in
  let total_return :=
    final_value - total_invested st - accumulated_cash st in
  return_percentage ←
    (if 0 <? total_invested st
     then q ← truediv total_return (total_invested st); Ok (q * 100)
     else Ok 0);
  avg_purchase_price ←
    (if 0 <? total_bitcoin st
     then truediv (total_invested st) (total_bitcoin st)
     else Ok 0);
  Ok {| r_dip_percentage := dip_percentage;
        r_daily_budget := daily_budget;
        r_total_invested := total_invested st;
        r_final_value := final_value;
        r_total_return := total_return;
        r_return_percentage := return_percentage;
        r_total_bitcoin := total_bitcoin st;
        r_average_purchase_price := avg_purchase_price;
        r_final_bitcoin_price := final_price;
        r_final_ath := all_time_high st;
        r_accumulated_cash := accumulated_cash st;
        r_number_of_purchases := length (purchases st);
        r_number_of_days := length data;
        r_purchases := purchases st;
        r_portfolio_values := portfolio_values st |}.

Definition backtest_ath_dip_strategy (data : list bar)
  (dip_percentage daily_budget : float) : result summary :=
  st ← for_each (body dip_percentage daily_budget) data init;
  finish data dip_percentage daily_budget st.

End ATH.

(** *** [moving_average_strategy.py] *)

Module MA.

Inductive action : Type := BUY.

(** One entry of [trades]. *)
Record trade : Type := Trade {
  t_date : Z;
  t_action : action;
  t_price : float;
  t_amount : float;
  t_cash_used : float
}.

(** The locals of [backtest_moving_average_strategy]. *)
Record state : Type := State {
  accumulated_cash : float;
  bitcoin_held : float;
  trades : list trade;
  portfolio_values : list float;
  total_invested : float
}.

(** The returned dict. *)
Record summary : Type := Summary {
  r_total_invested : float;
  r_final_value : float;
  r_total_return : float;
  r_return_percentage : float;
  r_trades : list trade;
  r_portfolio_values : list float;
  r_moving_average_window : Z;
  r_bitcoin_held : float;
  r_accumulated_cash : float;
  r_daily_budget : float;
  r_number_of_days : nat
}.

Definition init : state :=
  {| accumulated_cash := 0; bitcoin_held := 0; trades := [];
     portfolio_values := []; total_invested := 0 |}.

(** The body of [for i, day_data in enumerate(data)]. *)
Definition body (moving_averages : list (option float)) (daily_budget : float)
  (st : state) (item : nat * bar) : result state :=
  let '(i, day_data) := item in
  let current_price := close day_data in
  ma ← getitem moving_averages (Z.of_nat i);
  let accumulated_cash' := accumulated_cash st + daily_budget in
  match ma with
  | None =>
      let portfolio_value :=
        accumulated_cash' + bitcoin_held st * current_price in
      Ok {| accumulated_cash := accumulated_cash';
            bitcoin_held := bitcoin_held st;
            trades := trades st;
            portfolio_values := portfolio_values st ++ [portfolio_value];
            total_invested := total_invested st |}
  | Some ma =>
      st2 ←
        (if (current_price <? ma) && (0 <? accumulated_cash')
         then
           bitcoin_bought ← truediv accumulated_cash' current_price;
           Ok {| accumulated_cash := 0;
                 bitcoin_held := bitcoin_held st + bitcoin_bought;
                 trades := trades st ++
                   [ {| t_date := date day_data;
                        t_action := BUY;
                        t_price := current_price;
                        t_amount := bitcoin_bought;
                        t_cash_used := accumulated_cash' |} ];
                 portfolio_values := portfolio_values st;
                 total_invested := total_invested st + accumulated_cash' |}
         else
           Ok {| accumulated_cash := accumulated_cash';
                 bitcoin_held := bitcoin_held st;
                 trades := trades st;
                 portfolio_values := portfolio_values st;
                 total_invested := total_invested st |});
      let portfolio_value :=
        accumulated_cash st2 + bitcoin_held st2 * current_price in
      Ok {| accumulated_cash := accumulated_cash st2;
            bitcoin_held := bitcoin_held st2;
            trades := trades st2;
            portfolio_values := portfolio_values st2 ++ [portfolio_value];
            total_invested := total_invested st2 |}
  end.

Section builtin_sum.

(** Python's [sum] on a list of floats.  How it rounds is the
    interpreter's business: CPython adds the items one by one up to
    version 3.11 and carries a correction term from 3.12 on.  The
    backtest is therefore embedded for any summation. *)
Variable builtin_sum : list float → float.

(** One entry of the list [calculate_moving_average] builds: [None]
    while [i < window - 1], else the sum of [data[j]["close"]] over
    [range(i - window + 1, i + 1)] divided by [window]. *)
Definition moving_average_at (data : list bar) (window : Z) (i : nat)
  : result (option float) :=
  if (Z.of_nat i <? window - 1)%Z then Ok None
  else
    closes ← for_list (fun j => d ← getitem data j; Ok (close d))
               (range (Z.of_nat i - window + 1) (Z.of_nat i + 1));
    avg ← truediv (builtin_sum closes) (of_int window);
    Ok (Some avg).

Definition calculate_moving_average (data : list bar) (window : Z)
  : result (list (option float)) :=
  for_each
    (fun moving_averages i =>
       x ← moving_average_at data window i; Ok (moving_averages ++ [x]))
    (seq 0 (length data)) [].

(** The state after the first [k] bars. *)
Definition state_after (data : list bar) (ma_window : Z)
  (daily_budget : float) (k : nat) : result state :=
  moving_averages ← calculate_moving_average data ma_window;
  for_each (body moving_averages daily_budget) (take k (enumerate data))
    init.

(** The code after the loop. *)
Definition finish (data : list bar) (ma_window : Z) (daily_budget : float)
  (st : state) : result summary :=
  final_bar ← getitem data (-1);
  let final_value :=
    accumulated_cash st + bitcoin_held st * close final_bar in
  return_percentage ←
    (if 0 <? total_invested st
     then q ← truediv (final_value - total_invested st) (total_invested st);
          Ok (q * 100)
     else Ok 0);
  Ok {| r_total_invested := total_invested st;
        r_final_value := final_value;
        r_total_return := final_value - total_invested st;
        r_return_percentage := return_percentage;
        r_trades := trades st;
        r_portfolio_values := portfolio_values st;
        r_moving_average_window := ma_window;
        r_bitcoin_held := bitcoin_held st;
        r_accumulated_cash := accumulated_cash st;
        r_daily_budget := daily_budget;
        r_number_of_days := length data |}.

Definition backtest_moving_average_strategy (data : list bar)
  (ma_window : Z) (daily_budget : float) : result summary :=
  moving_averages ← calculate_moving_average data ma_window;
  st ← for_each (body moving_averages daily_budget) (enumerate data) init;
  finish data ma_window daily_budget st.

End builtin_sum.

End MA.

(** [sum] as a running total from [0], one addition per item. *)
Definition running_total (xs : list float) : float := foldl add 0 xs.

(** Whether the loop body of the dip backtest, entered in state [st] on
    bar [d], takes the buying branch. *)
Definition ath_buys (dip_percentage daily_budget : float) (st : ATH.state)
  (d : bar) : bool :=
  let all_time_high' := pymax (ATH.all_time_high st) (high d) in
  (close d <=? all_time_high' * (1 - dip_percentage / 100))
  && (0 <? ATH.accumulated_cash st + daily_budget)
  && (0 <? all_time_high').

(** The same for the moving-average backtest on an entry of
    [moving_averages]: [None] skips the test. *)
Definition ma_signal (x : option float) (daily_budget : float)
  (st : MA.state) (d : bar) : bool :=
  match x with
  | Some ma => (close d <? ma) && (0 <? MA.accumulated_cash st + daily_budget)
  | None => false
  end.

(** What the dip backtest records of a purchase: made under a positive
    all-time high, at a close at or under the threshold taken from it, with
    the dip computed from the two. *)
Definition dipped (dip_percentage : float) (e : ATH.purchase) : Prop :=
  (0 <? ATH.p_all_time_high e) = true ∧
  (ATH.p_price e <=? ATH.p_all_time_high e * (1 - dip_percentage / 100))
    = true ∧
  ATH.p_dip_percentage e =
    (ATH.p_all_time_high e - ATH.p_price e) / ATH.p_all_time_high e * 100.

(** What the moving-average backtest records of a trade: made on a bar
    [k] at which the window is full, with positive cash, at a close under
    the average of the window. *)
Definition traded_below_average (builtin_sum : list float → float)
    (data : list bar) (ma_window : Z) (t : MA.trade) : Prop :=
  ∃ k d, data !! k = Some d ∧
    (Z.to_nat ma_window - 1 ≤ k)%nat ∧
    MA.t_date t = date d ∧ MA.t_price t = close d ∧
    (0 <? MA.t_cash_used t) = true ∧
    MA.t_amount t = MA.t_cash_used t / MA.t_price t ∧
    (MA.t_price t
       <? builtin_sum (map close (recent (Z.to_nat ma_window) data k))
          / of_int ma_window) = true.

(** A bar whose four prices agree. *)
Definition flat_bar (day : Z) (price : float) : bar :=
  Bar day price price price price 0.

(** A close of 63 after a high of 90 is a dip of 30 percent exactly, but
    [90 * (1 - 30 / 100)] rounds to just under 63. *)
Definition tie_at_thirty : list bar := [flat_bar 1 90; flat_bar 2 63].

(** A close of 0.8 after a high of 1 is bought at a dip of 20 percent. *)
Definition one_then_point_eight : list bar := [flat_bar 1 1; flat_bar 2 0.8].

(** Three equal closes whose running total rounds up. *)
Definition flat_at_100_4 : list bar :=
  [flat_bar 1 100.4; flat_bar 2 100.4; flat_bar 3 100.4].

End B64.

(** * Properties *)

(** ** The error monad *)

Lemma bind_Ok {A B} (f : A → result B) (m : result A) (b : B) :
  m ≫= f = Ok b ↔ ∃ a, m = Ok a ∧ f a = Ok b.
Proof.
  destruct m as [a|e]; cbn.
  - split; [eauto | intros (a' & [= <-] & ?); done].
  - split; [done | intros (? & [=] & _)].
Qed.

Lemma bind_Raise {A B} (f : A → result B) (m : result A) (e : exn) :
  m = Raise e → m ≫= f = Raise e.
Proof. by intros ->. Qed.

(** ** Comparisons and arithmetic *)

Lemma ltb_lt (a b : Q) : ltb a b = true ↔ a < b.
Proof.
  unfold ltb. rewrite negb_true_iff, <- not_true_iff_false, Qle_bool_iff.
  split; [apply Qnot_le_lt | apply Qlt_not_le].
Qed.

Lemma ltb_ge (a b : Q) : ltb a b = false ↔ b <= a.
Proof. unfold ltb. by rewrite negb_false_iff, Qle_bool_iff. Qed.

Lemma leb_le (a b : Q) : leb a b = true ↔ a <= b.
Proof. apply Qle_bool_iff. Qed.

Lemma truediv_Ok (a b : Q) : ¬ b == 0 → truediv a b = Ok (a / b).
Proof.
  intros Hb. unfold truediv.
  destruct (Qeq_bool b 0) eqn:E; [|done].
  by apply Qeq_bool_iff in E.
Qed.

Lemma truediv_Ok_inv (a b q : Q) :
  truediv a b = Ok q → ¬ b == 0 ∧ q = a / b.
Proof.
  unfold truediv. destruct (Qeq_bool b 0) eqn:E; [done|].
  intros [= <-]. split; [|done]. by apply Qeq_bool_neq.
Qed.

Lemma truediv_zero (a b : Q) : b == 0 → truediv a b = Raise ZeroDivisionError.
Proof. intros Hb. unfold truediv. by rewrite (Qeq_eq_bool _ _ Hb). Qed.

Lemma pysum_snoc (xs : list Q) (x : Q) : pysum (xs ++ [x]) = pysum xs + x.
Proof. unfold pysum. by rewrite foldl_snoc. Qed.

(** ** Indexing *)

Lemma getitem_last {A} (xs : list A) :
  getitem xs (-1) =
  match last xs with Some x => Ok x | None => Raise IndexError end.
Proof.
  unfold getitem. change (-1 <? 0)%Z with true. cbn match.
  destruct xs as [|x xs _] using rev_ind; [done|].
  rewrite last_snoc, length_app, Nat.add_1_r. cbn [length].
  destruct (Z.ltb_spec (Z.of_nat (S (length xs)) + -1) 0) as [?|_]; [lia|].
  replace (Z.to_nat (Z.of_nat (S (length xs)) + -1)) with (length xs) by lia.
  by rewrite list_lookup_middle.
Qed.

Lemma getitem_nat {A} (xs : list A) (i : nat) :
  getitem xs (Z.of_nat i) =
  match xs !! i with Some x => Ok x | None => Raise IndexError end.
Proof.
  unfold getitem.
  destruct (Z.ltb_spec (Z.of_nat i) 0) as [?|_]; [lia|].
  destruct (Z.ltb_spec (Z.of_nat i) 0) as [?|_]; [lia|].
  by rewrite Nat2Z.id.
Qed.

(** ** Loops *)

Section loops.
Context {S A : Type} (body : S → A → result S).

Lemma for_each_app (xs ys : list A) (s : S) :
  for_each body (xs ++ ys) s = for_each body xs s ≫= for_each body ys.
Proof.
  revert s. induction xs as [|x xs IH]; intros s; [done|].
  cbn. destruct (body s x); cbn; [apply IH | done].
Qed.

Lemma for_each_snoc (xs : list A) (x : A) (s : S) :
  for_each body (xs ++ [x]) s = s' ← for_each body xs s; body s' x.
Proof.
  rewrite for_each_app. destruct (for_each body xs s) as [s'|]; [|done].
  cbn. by destruct (body s' x).
Qed.

(** A run that completes has completed on every prefix. *)
Lemma for_each_prefix_Ok (xs : list A) (s s' : S) (k : nat) :
  for_each body xs s = Ok s' → ∃ sk, for_each body (take k xs) s = Ok sk.
Proof.
  rewrite <- (take_drop k xs) at 1. rewrite for_each_app.
  intros H. apply bind_Ok in H as (sk & H & _). eauto.
Qed.

(** An exception on a prefix is the exception of the whole run. *)
Lemma for_each_prefix_Raise (xs : list A) (s : S) (k : nat) (e : exn) :
  for_each body (take k xs) s = Raise e → for_each body xs s = Raise e.
Proof.
  intros H. rewrite <- (take_drop k xs), for_each_app. by rewrite H.
Qed.

(** One more bar: the state after [k + 1] items is the body applied to
    the state after [k]. *)
Lemma for_each_take_S (xs : list A) (s : S) (k : nat) (x : A) :
  xs !! k = Some x →
  for_each body (take (Datatypes.S k) xs) s =
  sk ← for_each body (take k xs) s; body sk x.
Proof. intros H. by rewrite (take_S_r _ _ _ H), for_each_snoc. Qed.

(** A loop invariant, stated on the items processed so far. *)
Lemma for_each_invariant (P : list A → S → Prop) :
  (∀ pre x s s', P pre s → body s x = Ok s' → P (pre ++ [x]) s') →
  ∀ xs pre s s',
    P pre s → for_each body xs s = Ok s' → P (pre ++ xs) s'.
Proof.
  intros Hstep xs. induction xs as [|x xs IH]; intros pre s s' HP Hrun.
  - cbn in Hrun. injection Hrun as <-. by rewrite app_nil_r.
  - cbn in Hrun. apply bind_Ok in Hrun as (s1 & Hb & Hrun).
    rewrite (cons_middle x pre xs), app_assoc.
    eapply IH; [|done]. eauto.
Qed.

(** Progress: the loop completes when the body does on every item that
    satisfies [G], from every state that satisfies the invariant. *)
Lemma for_each_progress (P : list A → S → Prop) (G : A → Prop) :
  (∀ pre x s, P pre s → G x → ∃ s', body s x = Ok s' ∧ P (pre ++ [x]) s') →
  ∀ xs pre s,
    P pre s → Forall G xs →
    ∃ s', for_each body xs s = Ok s' ∧ P (pre ++ xs) s'.
Proof.
  intros Hstep xs. induction xs as [|x xs IH]; intros pre s HP HG.
  - exists s. by rewrite app_nil_r.
  - apply Forall_cons in HG as [Hx HG].
    destruct (Hstep pre x s HP Hx) as (s1 & Hb & HP1).
    destruct (IH (pre ++ [x]) s1 HP1 HG) as (s' & Hrun & HP').
    exists s'. cbn. rewrite Hb. cbn.
    by rewrite (cons_middle x pre xs), app_assoc.
Qed.

End loops.

(** A loop whose body appends one entry per item to a log: the [i]-th
    entry of the final log is the one appended on item [i], and it
    satisfies whatever the body guarantees of the entry it appends. *)
Lemma for_each_log {S A B} (body : S → A → result S) (log : S → list B)
    (g : S → A → B → Prop) :
  (∀ s x s', body s x = Ok s' → ∃ b, log s' = log s ++ [b] ∧ g s' x b) →
  ∀ xs s0 s',
    log s0 = [] → for_each body xs s0 = Ok s' →
    length (log s') = length xs ∧
    ∀ i x, xs !! i = Some x →
      ∃ si b, for_each body (take (Datatypes.S i) xs) s0 = Ok si ∧
              log s' !! i = Some b ∧ g si x b.
Proof.
  intros Hstep xs s0 s' H0 Hrun.
  pose (P := fun (pre : list A) (s : S) =>
    for_each body pre s0 = Ok s ∧ length (log s) = length pre ∧
    ∀ i x, pre !! i = Some x →
      ∃ si b, for_each body (take (Datatypes.S i) pre) s0 = Ok si ∧
              log s !! i = Some b ∧ g si x b).
  assert (HP : P ([] ++ xs) s').
  { apply (for_each_invariant body P) with (s := s0); [| |done].
    - intros pre x s s1 (Hpre & Hlen & Hlog) Hb.
      destruct (Hstep _ _ _ Hb) as (b & Hb1 & Hg).
      split; [by rewrite for_each_snoc, Hpre|].
      split; [rewrite Hb1, !length_app; cbn; lia|].
      intros i y Hi. destruct (decide (i < length pre)%nat) as [Hlt|Hge].
      + rewrite lookup_app_l in Hi by done.
        destruct (Hlog i y Hi) as (si & c & Hsi & Hc & Hgc).
        exists si, c. rewrite take_app_le by lia.
        rewrite Hb1, lookup_app_l by lia. done.
      + assert (i = length pre) as ->.
        { apply lookup_lt_Some in Hi. rewrite length_app in Hi.
          cbn in Hi. lia. }
        rewrite list_lookup_middle in Hi by done. injection Hi as <-.
        exists s1, b. rewrite take_ge by (rewrite length_app; cbn; lia).
        rewrite for_each_snoc, Hpre. cbn. split; [done|].
        rewrite Hb1. rewrite list_lookup_middle by done. done.
    - split; [done|]. rewrite H0. split; [done|]. intros i x [=]. }
  destruct HP as (_ & Hlen & Hlog). done.
Qed.

(** ** The ledger *)

Lemma ledger_ok_init : ledger_ok [] (Position 0 0 0 [] []).
Proof. by split. Qed.

(** A day on which nothing is bought. *)
Lemma ledger_ok_hold (pre : list bar) (d : bar) (p p' : position) (v : Q) :
  ledger_ok pre p →
  total_invested p' = total_invested p →
  total_holding p' = total_holding p →
  events p' = events p →
  valuations p' = valuations p ++ [v] →
  ledger_ok (pre ++ [d]) p'.
Proof.
  intros [Hi Hh He Hv] Ei Eh Ee Ev. split.
  - by rewrite Ei, Ee.
  - by rewrite Eh, Ee.
  - rewrite Ee, map_app. by apply sublist_inserts_r.
  - rewrite Ev, !length_app, Hv. done.
Qed.

(** A day on which event [e] is emitted. *)
Lemma ledger_ok_buy (pre : list bar) (d : bar) (p p' : position)
    (e : allocation) (v : Q) :
  ledger_ok pre p →
  events p' = events p ++ [e] →
  event_key e = bar_key d →
  total_invested p' = total_invested p + a_amount e →
  total_holding p' = total_holding p + a_units e →
  valuations p' = valuations p ++ [v] →
  ledger_ok (pre ++ [d]) p'.
Proof.
  intros [Hi Hh He Hv] Ee Ek Ei Eh Ev. split.
  - rewrite Ei, Ee, map_app. change (map a_amount [e]) with [a_amount e].
    by rewrite pysum_snoc, Hi.
  - rewrite Eh, Ee, map_app. change (map a_units [e]) with [a_units e].
    by rewrite pysum_snoc, Hh.
  - rewrite Ee, !map_app. cbn. rewrite Ek. by apply sublist_app.
  - rewrite Ev, !length_app, Hv. done.
Qed.

(** ** Fixed amount *)

Lemma dca_body_Ok (daily_investment : Q) (st st' : DCA.state) (d : bar) :
  DCA.body daily_investment st d = Ok st' →
  ¬ close d == 0 ∧
  DCA.total_invested st' = DCA.total_invested st + daily_investment ∧
  DCA.total_bitcoin st' = DCA.total_bitcoin st + daily_investment / close d ∧
  DCA.purchases st' = DCA.purchases st ++
    [ DCA.Purchase (date d) (close d) daily_investment
        (daily_investment / close d)
        (DCA.total_bitcoin st + daily_investment / close d)
        (DCA.total_invested st + daily_investment) ] ∧
  DCA.portfolio_values st' = DCA.portfolio_values st ++
    [ DCA.total_bitcoin st' * close d ].
Proof.
  unfold DCA.body. intros H. apply bind_Ok in H as (q & Hq & H).
  apply truediv_Ok_inv in Hq as [Hc ->]. injection H as <-. done.
Qed.

Lemma dca_body_ledger (daily_investment : Q) (pre : list bar) (d : bar)
    (st st' : DCA.state) :
  ledger_ok pre (dca_position st) →
  DCA.body daily_investment st d = Ok st' →
  ledger_ok (pre ++ [d]) (dca_position st').
Proof.
  intros Hl Hb. apply dca_body_Ok in Hb as (_ & Hi & Hh & Hp & Hv).
  eapply ledger_ok_buy with (p := dca_position st); [done|..]; cbn.
  - by rewrite Hp, map_app.
  - done.
  - done.
  - done.
  - apply Hv.
Qed.

Lemma dca_loop_ledger (daily_investment : Q) (data : list bar)
    (st : DCA.state) :
  for_each (DCA.body daily_investment) data DCA.init = Ok st →
  ledger_ok data (dca_position st).
Proof.
  intros H.
  apply (for_each_invariant (DCA.body daily_investment)
           (fun pre s => ledger_ok pre (dca_position s)))
    with (pre := []) in H; [done| |apply ledger_ok_init].
  intros pre x s s'. apply dca_body_ledger.
Qed.

(** ** Dip below the all-time high *)

Lemma ath_body_Ok (dip_percentage daily_budget : Q) (st st' : ATH.state)
    (d : bar) :
  ATH.body dip_percentage daily_budget st d = Ok st' →
  let cash := ATH.accumulated_cash st + daily_budget in
  let ath := pymax (ATH.all_time_high st) (high d) in
  ATH.all_time_high st' = ath ∧
  (∃ v, ATH.portfolio_values st' = ATH.portfolio_values st ++ [v] ∧
        ATH.v_date v = date d ∧ ATH.v_price v = close d ∧
        ATH.v_portfolio_value v =
          ATH.accumulated_cash st' + ATH.total_bitcoin st' * close d) ∧
  if ath_buys dip_percentage daily_budget st d
  then ¬ close d == 0 ∧
       ATH.accumulated_cash st' = 0 ∧
       ATH.total_invested st' = ATH.total_invested st + cash ∧
       ATH.total_bitcoin st' = ATH.total_bitcoin st + cash / close d ∧
       ∃ e, ATH.purchases st' = ATH.purchases st ++ [e] ∧
            ATH.p_date e = date d ∧ ATH.p_price e = close d ∧
            ATH.p_amount_invested e = cash ∧
            ATH.p_bitcoin_purchased e = cash / close d ∧
            ATH.p_all_time_high e = ath ∧
            ATH.p_dip_percentage e = (ath - close d) / ath * 100
  else ATH.accumulated_cash st' = cash ∧
       ATH.total_invested st' = ATH.total_invested st ∧
       ATH.total_bitcoin st' = ATH.total_bitcoin st ∧
       ATH.purchases st' = ATH.purchases st.
Proof.
  unfold ATH.body, ath_buys. cbn zeta.
  destruct (leb _ _ && ltb 0 _ && ltb 0 _) eqn:E; intros H.
  - unfold ATH.buy in H. cbn [ATH.accumulated_cash ATH.all_time_high] in H.
    apply bind_Ok in H as (st2 & H2 & H).
    apply bind_Ok in H2 as (q1 & Hq1 & H2).
    apply bind_Ok in H2 as (q2 & Hq2 & H2).
    apply truediv_Ok_inv in Hq1 as [Hc ->].
    apply truediv_Ok_inv in Hq2 as [_ ->].
    injection H2 as <-. injection H as <-. cbn.
    split; [done|]. split; [eexists; split; [done|]; done|].
    split; [done|]. split; [done|]. split; [done|]. split; [done|].
    eexists; split; [done|]. done.
  - cbn in H. injection H as <-. cbn.
    split; [done|]. split; [eexists; split; [done|]; done|]. done.
Qed.

(** The buying branch divides by the close, and raises when it is zero. *)
Lemma ath_body_zero_close (dip_percentage daily_budget : Q) (st : ATH.state)
    (d : bar) :
  ath_buys dip_percentage daily_budget st d = true → close d == 0 →
  ATH.body dip_percentage daily_budget st d = Raise ZeroDivisionError.
Proof.
  unfold ATH.body, ath_buys. cbn zeta. intros -> Hc.
  unfold ATH.buy. cbn [ATH.accumulated_cash].
  by rewrite (truediv_zero _ _ Hc).
Qed.

(** The body completes on a non-zero close. *)
Lemma ath_body_progress (dip_percentage daily_budget : Q) (st : ATH.state)
    (d : bar) :
  ¬ close d == 0 → ∃ st', ATH.body dip_percentage daily_budget st d = Ok st'.
Proof.
  intros Hc. unfold ATH.body. cbn zeta.
  destruct (leb _ _ && ltb 0 _ && ltb 0 _) eqn:E; [|cbn; eauto].
  apply andb_true_iff in E as [_ Hath]. apply ltb_lt in Hath.
  unfold ATH.buy. cbn [ATH.accumulated_cash ATH.all_time_high].
  rewrite (truediv_Ok _ _ Hc). cbn.
  rewrite truediv_Ok; [cbn; eauto|]. intros Hz. rewrite Hz in Hath.
  by apply Qlt_irrefl in Hath.
Qed.

Lemma ath_body_ledger (dip_percentage daily_budget : Q) (pre : list bar)
    (d : bar) (st st' : ATH.state) :
  ledger_ok pre (ath_position st) →
  ATH.body dip_percentage daily_budget st d = Ok st' →
  ledger_ok (pre ++ [d]) (ath_position st').
Proof.
  intros Hl Hb. apply ath_body_Ok in Hb as (_ & (v & Hv & _) & Hb).
  destruct (ath_buys _ _ _ _).
  - destruct Hb as (_ & _ & Hi & Hh & e & He & Hd & Hp & Ha & Hu & _).
    eapply ledger_ok_buy with (p := ath_position st) (e := ath_allocation e);
      [done|..]; cbn.
    + by rewrite He, map_app.
    + unfold event_key, bar_key. cbn. by rewrite Hd, Hp.
    + by rewrite Hi, Ha.
    + by rewrite Hh, Hu.
    + by rewrite Hv, map_app.
  - destruct Hb as (_ & Hi & Hh & He).
    eapply ledger_ok_hold with (p := ath_position st); [done|..]; cbn.
    + done.
    + done.
    + by rewrite He.
    + by rewrite Hv, map_app.
Qed.

Lemma ath_loop_ledger (dip_percentage daily_budget : Q) (data : list bar)
    (st : ATH.state) :
  for_each (ATH.body dip_percentage daily_budget) data ATH.init = Ok st →
  ledger_ok data (ath_position st).
Proof.
  intros H.
  apply (for_each_invariant (ATH.body dip_percentage daily_budget)
           (fun pre s => ledger_ok pre (ath_position s)))
    with (pre := []) in H; [done| |apply ledger_ok_init].
  intros pre x s s'. apply ath_body_ledger.
Qed.

(** ** Below the moving average *)

Lemma enumerate_lookup {A} (xs : list A) (k : nat) (x : A) :
  xs !! k = Some x → enumerate xs !! k = Some (k, x).
Proof.
  intros H. unfold enumerate. rewrite lookup_zip_with, H.
  rewrite lookup_seq_lt by (by eapply lookup_lt_Some). done.
Qed.

Lemma enumerate_lookup_inv {A} (xs : list A) (k i : nat) (x : A) :
  enumerate xs !! k = Some (i, x) → i = k ∧ xs !! k = Some x.
Proof.
  unfold enumerate. rewrite lookup_zip_with. intros H.
  destruct (seq 0 (length xs) !! k) as [j|] eqn:Hj; [|done].
  destruct (xs !! k) as [y|]; [|done]. cbn in H. injection H as <- <-.
  apply lookup_seq in Hj as [-> _]. done.
Qed.

Lemma enumerate_snd {A} (xs : list A) : (enumerate xs).*2 = xs.
Proof. unfold enumerate. apply snd_zip. by rewrite length_seq. Qed.

Lemma enumerate_length {A} (xs : list A) : length (enumerate xs) = length xs.
Proof. by rewrite <- (enumerate_snd xs) at 2; rewrite length_fmap. Qed.

(** The generator [data[j]["close"] for j in range(...)] on a range that
    lies inside the list. *)
Lemma for_list_closes (data : list bar) (lo : nat) (n a : nat) :
  (lo + a + n ≤ length data)%nat →
  for_list (fun j => d ← getitem data j; Ok (close d))
    (map (fun k => (Z.of_nat lo + Z.of_nat k)%Z) (seq a n)) =
  Ok (map close (take n (drop (lo + a) data))).
Proof.
  revert a. induction n as [|n IH]; intros a Hlen; [done|].
  cbn [seq map for_list].
  replace (Z.of_nat lo + Z.of_nat a)%Z with (Z.of_nat (lo + a)) by lia.
  rewrite getitem_nat.
  destruct (data !! (lo + a)%nat) as [d|] eqn:Hd.
  2:{ apply lookup_ge_None in Hd. lia. }
  cbn. rewrite IH by lia. cbn.
  rewrite (drop_S _ _ _ Hd). cbn.
  by replace (lo + S a)%nat with (S (lo + a)) by lia.
Qed.

Lemma moving_average_at_early (data : list bar) (window : Z) (i : nat) :
  (Z.of_nat i < window - 1)%Z → MA.moving_average_at data window i = Ok None.
Proof.
  intros H. unfold MA.moving_average_at.
  by destruct (Z.ltb_spec (Z.of_nat i) (window - 1)); [|lia].
Qed.

(** Once the window is full the entry is the mean of the [window] most
    recent closes, today's included. *)
Lemma moving_average_at_full (data : list bar) (window : Z) (i : nat) :
  (0 < window)%Z → (window - 1 ≤ Z.of_nat i)%Z → (i < length data)%nat →
  MA.moving_average_at data window i =
  Ok (Some (pysum (map close (recent (Z.to_nat window) data i))
            / inject_Z window)).
Proof.
  intros HW Hi Hlen. unfold MA.moving_average_at, recent.
  destruct (Z.ltb_spec (Z.of_nat i) (window - 1)); [lia|].
  unfold range.
  replace (Z.of_nat i + 1 - (Z.of_nat i - window + 1))%Z with window by lia.
  replace (Z.of_nat i - window + 1)%Z
    with (Z.of_nat (S i - Z.to_nat window)) by lia.
  rewrite for_list_closes by lia. cbn.
  rewrite Nat.add_0_r, truediv_Ok; [done|].
  unfold Qeq. cbn. lia.
Qed.

(** A non-positive window sums an empty range. *)
Lemma moving_average_at_nonpos (data : list bar) (window : Z) (i : nat) :
  (window ≤ 0)%Z →
  MA.moving_average_at data window i =
  q ← truediv 0 (inject_Z window); Ok (Some q).
Proof.
  intros HW. unfold MA.moving_average_at.
  destruct (Z.ltb_spec (Z.of_nat i) (window - 1)); [lia|].
  unfold range.
  replace (Z.to_nat (Z.of_nat i + 1 - (Z.of_nat i - window + 1))) with 0%nat
    by lia.
  done.
Qed.

Lemma moving_average_at_progress (data : list bar) (window : Z) (i : nat) :
  window ≠ 0%Z → (i < length data)%nat →
  ∃ x, MA.moving_average_at data window i = Ok x.
Proof.
  intros HW Hlen.
  destruct (Z.ltb_spec (Z.of_nat i) (window - 1)) as [Hlt|Hge].
  { rewrite moving_average_at_early by done. eauto. }
  destruct (Z.ltb_spec 0 window) as [Hpos|Hneg].
  { rewrite moving_average_at_full by done. eauto. }
  rewrite moving_average_at_nonpos by done.
  rewrite truediv_Ok; [cbn; eauto|]. unfold Qeq. cbn. lia.
Qed.

(** [calculate_moving_average] returns one entry per bar, the [i]-th being
    [moving_average_at] at [i]. *)
Lemma calculate_moving_average_Ok (data : list bar) (window : Z)
    (mas : list (option Q)) :
  MA.calculate_moving_average data window = Ok mas →
  Forall2 (fun i x => MA.moving_average_at data window i = Ok x)
    (seq 0 (length data)) mas.
Proof.
  unfold MA.calculate_moving_average. intros H.
  eapply (for_each_invariant _
    (fun pre acc =>
       Forall2 (fun i x => MA.moving_average_at data window i = Ok x) pre acc))
    with (pre := []) in H; [done| |done].
  intros pre i acc acc' HF Hb. apply bind_Ok in Hb as (x & Hx & [= <-]).
  apply Forall2_app; [done|]. by constructor.
Qed.

Lemma calculate_moving_average_lookup (data : list bar) (window : Z)
    (mas : list (option Q)) (i : nat) :
  MA.calculate_moving_average data window = Ok mas → (i < length data)%nat →
  ∃ x, mas !! i = Some x ∧ MA.moving_average_at data window i = Ok x.
Proof.
  intros H Hlen. apply calculate_moving_average_Ok in H.
  destruct (Forall2_lookup_l _ _ _ i i H) as (x & Hx & Hm); [|eauto].
  by apply lookup_seq_lt.
Qed.

Lemma ma_body_Ok (mas : list (option Q)) (daily_budget : Q)
    (st st' : MA.state) (i : nat) (d : bar) :
  MA.body mas daily_budget st (i, d) = Ok st' →
  ∃ x, mas !! i = Some x ∧
  let cash := MA.accumulated_cash st + daily_budget in
  MA.portfolio_values st' = MA.portfolio_values st ++
    [ MA.accumulated_cash st' + MA.bitcoin_held st' * close d ] ∧
  if ma_signal x daily_budget st d
  then ¬ close d == 0 ∧
       MA.accumulated_cash st' = 0 ∧
       MA.total_invested st' = MA.total_invested st + cash ∧
       MA.bitcoin_held st' = MA.bitcoin_held st + cash / close d ∧
       MA.trades st' = MA.trades st ++
         [ MA.Trade (date d) MA.BUY (close d) (cash / close d) cash ]
  else MA.accumulated_cash st' = cash ∧
       MA.total_invested st' = MA.total_invested st ∧
       MA.bitcoin_held st' = MA.bitcoin_held st ∧
       MA.trades st' = MA.trades st.
Proof.
  unfold MA.body. rewrite getitem_nat.
  destruct (mas !! i) as [x|]; [|done]. cbn [mbind result_bind].
  intros H. exists x. split; [done|]. cbn zeta.
  destruct x as [ma|]; cbn [ma_signal].
  - unfold ma_buys. destruct (ltb _ _ && ltb 0 _) eqn:E.
    + apply bind_Ok in H as (st2 & H2 & H).
      apply bind_Ok in H2 as (q & Hq & H2).
      apply truediv_Ok_inv in Hq as [Hc ->].
      injection H2 as <-. injection H as <-. done.
    + cbn in H. injection H as <-. done.
  - injection H as <-. done.
Qed.

(** The buying branch divides by the close, and raises when it is zero. *)
Lemma ma_body_zero_close (mas : list (option Q)) (daily_budget : Q)
    (st : MA.state) (i : nat) (d : bar) (x : option Q) :
  mas !! i = Some x → ma_signal x daily_budget st d = true → close d == 0 →
  MA.body mas daily_budget st (i, d) = Raise ZeroDivisionError.
Proof.
  intros Hx Hs Hc. unfold MA.body. rewrite getitem_nat, Hx.
  cbn [mbind result_bind]. destruct x as [ma|]; [|done].
  cbn [ma_signal] in Hs. unfold ma_buys in Hs. rewrite Hs.
  by rewrite (truediv_zero _ _ Hc).
Qed.

(** The body completes on a non-zero close. *)
Lemma ma_body_progress (mas : list (option Q)) (daily_budget : Q)
    (st : MA.state) (i : nat) (d : bar) :
  (i < length mas)%nat → ¬ close d == 0 →
  ∃ st', MA.body mas daily_budget st (i, d) = Ok st'.
Proof.
  intros Hi Hc. unfold MA.body. rewrite getitem_nat.
  destruct (lookup_lt_is_Some_2 mas i Hi) as [x ->].
  cbn [mbind result_bind]. destruct x as [ma|]; [|eauto].
  destruct (ltb _ _ && ltb 0 _); [|cbn; eauto].
  rewrite (truediv_Ok _ _ Hc). cbn. eauto.
Qed.

Lemma ma_body_ledger (mas : list (option Q)) (daily_budget : Q)
    (pre : list (nat * bar)) (item : nat * bar) (st st' : MA.state) :
  ledger_ok pre.*2 (ma_position st) →
  MA.body mas daily_budget st item = Ok st' →
  ledger_ok (pre ++ [item]).*2 (ma_position st').
Proof.
  destruct item as [i d]. intros Hl Hb.
  apply ma_body_Ok in Hb as (x & _ & Hv & Hb).
  rewrite fmap_app. cbn [fmap list_fmap snd].
  destruct (ma_signal _ _ _ _).
  - destruct Hb as (_ & _ & Hi & Hh & Ht).
    eapply ledger_ok_buy with (p := ma_position st); [done|..]; cbn.
    + by rewrite Ht, map_app.
    + done.
    + done.
    + done.
    + apply Hv.
  - destruct Hb as (_ & Hi & Hh & Ht).
    eapply ledger_ok_hold with (p := ma_position st); [done|..]; cbn.
    + done.
    + done.
    + by rewrite Ht.
    + apply Hv.
Qed.

Lemma ma_loop_ledger (mas : list (option Q)) (daily_budget : Q)
    (items : list (nat * bar)) (st : MA.state) :
  for_each (MA.body mas daily_budget) items MA.init = Ok st →
  ledger_ok items.*2 (ma_position st).
Proof.
  intros H.
  apply (for_each_invariant (MA.body mas daily_budget)
           (fun pre s => ledger_ok pre.*2 (ma_position s)))
    with (pre := []) in H; [done| |apply ledger_ok_init].
  intros pre x s s'. apply ma_body_ledger.
Qed.

(** ** The code after the loops *)

(** A guarded division: the guard [0 < b] keeps [/] from raising. *)
Lemma guarded_div (a b : Q) (k : Q → Q) :
  (if ltb 0 b then q ← truediv a b; Ok (k q) else Ok 0) =
  Ok (if ltb 0 b then k (a / b) else 0).
Proof.
  destruct (ltb 0 b) eqn:E; [|done]. apply ltb_lt in E.
  rewrite truediv_Ok; [done|]. intros Hz. rewrite Hz in E.
  by apply Qlt_irrefl in E.
Qed.

Lemma guarded_div_id (a b : Q) :
  (if ltb 0 b then truediv a b else Ok 0) =
  Ok (if ltb 0 b then a / b else 0).
Proof.
  destruct (ltb 0 b) eqn:E; [|done]. apply ltb_lt in E.
  rewrite truediv_Ok; [done|]. intros Hz. rewrite Hz in E.
  by apply Qlt_irrefl in E.
Qed.

Lemma dca_finish_eq (data : list bar) (daily_investment : Q)
    (st : DCA.state) :
  DCA.finish data daily_investment st =
  match last data with
  | None => Raise IndexError
  | Some d =>
      let final_value := DCA.total_bitcoin st * close d in
      let total_return := final_value - DCA.total_invested st in
      Ok (DCA.Summary (DCA.total_invested st) final_value total_return
            (if ltb 0 (DCA.total_invested st)
             then total_return / DCA.total_invested st * 100 else 0)
            (DCA.total_bitcoin st)
            (if ltb 0 (DCA.total_bitcoin st)
             then DCA.total_invested st / DCA.total_bitcoin st else 0)
            (close d) daily_investment (length data)
            (DCA.purchases st) (DCA.portfolio_values st))
  end.
Proof.
  unfold DCA.finish. rewrite getitem_last.
  destruct (last data) as [d|]; [|done]. cbn [mbind result_bind]. cbn zeta.
  rewrite (guarded_div _ _ (fun q => q * 100)). cbn [mbind result_bind].
  rewrite guarded_div_id. done.
Qed.

Lemma ath_finish_eq (data : list bar) (dip_percentage daily_budget : Q)
    (st : ATH.state) :
  ATH.finish data dip_percentage daily_budget st =
  match last data with
  | None => Raise IndexError
  | Some d =>
      let final_value :=
        ATH.accumulated_cash st + ATH.total_bitcoin st * close d in
      let total_return :=
        final_value - ATH.total_invested st - ATH.accumulated_cash st in
      Ok (ATH.Summary dip_percentage daily_budget (ATH.total_invested st)
            final_value total_return
            (if ltb 0 (ATH.total_invested st)
             then total_return / ATH.total_invested st * 100 else 0)
            (ATH.total_bitcoin st)
            (if ltb 0 (ATH.total_bitcoin st)
             then ATH.total_invested st / ATH.total_bitcoin st else 0)
            (close d) (ATH.all_time_high st) (ATH.accumulated_cash st)
            (length (ATH.purchases st)) (length data)
            (ATH.purchases st) (ATH.portfolio_values st))
  end.
Proof.
  unfold ATH.finish. rewrite getitem_last.
  destruct (last data) as [d|]; [|done]. cbn [mbind result_bind]. cbn zeta.
  rewrite (guarded_div _ _ (fun q => q * 100)). cbn [mbind result_bind].
  rewrite guarded_div_id. done.
Qed.

Lemma ma_finish_eq (data : list bar) (ma_window : Z) (daily_budget : Q)
    (st : MA.state) :
  MA.finish data ma_window daily_budget st =
  match last data with
  | None => Raise IndexError
  | Some d =>
      let final_value :=
        MA.accumulated_cash st + MA.bitcoin_held st * close d in
      Ok (MA.Summary (MA.total_invested st) final_value
            (final_value - MA.total_invested st)
            (if ltb 0 (MA.total_invested st)
             then (final_value - MA.total_invested st)
                  / MA.total_invested st * 100
             else 0)
            (MA.trades st) (MA.portfolio_values st) ma_window
            (MA.bitcoin_held st) (MA.accumulated_cash st) daily_budget
            (length data))
  end.
Proof.
  unfold MA.finish. rewrite getitem_last.
  destruct (last data) as [d|]; [|done]. cbn [mbind result_bind]. cbn zeta.
  rewrite (guarded_div _ _ (fun q => q * 100)). done.
Qed.

(** ** Runs and the positions they pass through *)

Lemma ma_state_after_Ok (data : list bar) (ma_window : Z) (daily_budget : Q)
    (k : nat) (st : MA.state) :
  MA.state_after data ma_window daily_budget k = Ok st ↔
  ∃ mas, MA.calculate_moving_average data ma_window = Ok mas ∧
         for_each (MA.body mas daily_budget) (take k (enumerate data))
           MA.init = Ok st.
Proof. unfold MA.state_after. apply bind_Ok. Qed.

Lemma take_enumerate_snd {A} (xs : list A) (k : nat) :
  (take k (enumerate xs)).*2 = take k xs.
Proof. by rewrite fmap_take, enumerate_snd. Qed.

(** After [k] bars the ledger invariant holds of the bars seen. *)
Lemma position_after_ledger (s : strategy) (data : list bar) (k : nat)
    (p : position) :
  position_after s data k = Ok p → ledger_ok (take k data) p.
Proof.
  destruct s as [inv|dip budget|W budget]; cbn [position_after]; intros H;
    apply bind_Ok in H as (st & Hst & [= <-]).
  - by apply dca_loop_ledger in Hst.
  - by apply ath_loop_ledger in Hst.
  - apply ma_state_after_Ok in Hst as (mas & _ & Hst).
    apply ma_loop_ledger in Hst. by rewrite take_enumerate_snd in Hst.
Qed.

(** What a completed run reports: the series was not empty, the position
    is the one held after the last bar, and the metrics are the formulas
    of the source on that position and on the last close. *)
Lemma run_Ok_inv (s : strategy) (data : list bar) (r : report) :
  run s data = Ok r →
  let p := final_position r in
  ∃ d, last data = Some d ∧
    position_after s data (length data) = Ok p ∧
    number_of_days r = length data ∧
    final_value r == accumulated_cash p + total_holding p * close d ∧
    total_return r =
      match s with
      | Dip_Below_Extreme _ _ =>
          final_value r - total_invested p - accumulated_cash p
      | _ => final_value r - total_invested p
      end ∧
    return_percentage r =
      (if ltb 0 (total_invested p)
       then total_return r / total_invested p * 100 else 0) ∧
    ∀ avg, average_cost_basis r = Some avg →
      avg = if ltb 0 (total_holding p)
            then total_invested p / total_holding p else 0.
Proof.
  destruct s as [inv|dip budget|W budget]; cbn [run position_after]; intros H;
    apply bind_Ok in H as (r0 & Hr & [= <-]).
  - unfold DCA.backtest_dca_strategy in Hr.
    apply bind_Ok in Hr as (st & Hst & Hr). rewrite dca_finish_eq in Hr.
    destruct (last data) as [d|]; [|done]. injection Hr as <-.
    exists d. unfold DCA.state_after. rewrite firstn_all, Hst. cbn.
    repeat split; try done.
    + ring.
    + by intros avg [= <-].
  - unfold ATH.backtest_ath_dip_strategy in Hr.
    apply bind_Ok in Hr as (st & Hst & Hr). rewrite ath_finish_eq in Hr.
    destruct (last data) as [d|]; [|done]. injection Hr as <-.
    exists d. unfold ATH.state_after. rewrite firstn_all, Hst. cbn.
    repeat split; try done. by intros avg [= <-].
  - unfold MA.backtest_moving_average_strategy in Hr.
    apply bind_Ok in Hr as (mas & Hmas & Hr).
    apply bind_Ok in Hr as (st & Hst & Hr). rewrite ma_finish_eq in Hr.
    destruct (last data) as [d|]; [|done]. injection Hr as <-.
    exists d. unfold MA.state_after. rewrite Hmas. cbn [mbind result_bind].
    rewrite <- (enumerate_length data), firstn_all, Hst. cbn.
    repeat split; done.
Qed.

(** The [i]-th valuation of a run is the mark-to-market value of the
    position held once bar [i] has been processed. *)
Lemma final_valuations (s : strategy) (data : list bar) (p : position) :
  position_after s data (length data) = Ok p →
  ∀ i d, data !! i = Some d →
    ∃ pi v, position_after s data (S i) = Ok pi ∧
            valuations p !! i = Some v ∧
            v == accumulated_cash pi + total_holding pi * close d.
Proof.
  destruct s as [inv|dip budget|W budget]; cbn [position_after]; intros H;
    apply bind_Ok in H as (st & Hst & [= <-]); intros i d Hd.
  - unfold DCA.state_after in *. rewrite firstn_all in Hst.
    destruct (for_each_log (DCA.body inv) DCA.portfolio_values
                (fun s' x v => v = DCA.total_bitcoin s' * close x))
      with (xs := data) (s0 := DCA.init) (s' := st) as [_ Hlog];
      [|done|done|].
    { intros s0 x s1 Hb. apply dca_body_Ok in Hb as (_ & _ & _ & _ & Hv).
      eauto. }
    destruct (Hlog i d Hd) as (si & v & Hsi & Hv & ->).
    exists (dca_position si), (DCA.total_bitcoin si * close d).
    rewrite Hsi. cbn. split; [done|]. split; [done|]. ring.
  - unfold ATH.state_after in *. rewrite firstn_all in Hst.
    destruct (for_each_log (ATH.body dip budget) ATH.portfolio_values
                (fun s' x v => ATH.v_portfolio_value v =
                   ATH.accumulated_cash s' + ATH.total_bitcoin s' * close x))
      with (xs := data) (s0 := ATH.init) (s' := st) as [_ Hlog];
      [|done|done|].
    { intros s0 x s1 Hb.
      apply ath_body_Ok in Hb as (_ & (v & Hv & _ & _ & Hpv) & _). eauto. }
    destruct (Hlog i d Hd) as (si & v & Hsi & Hv & Hpv).
    exists (ath_position si), (ATH.v_portfolio_value v).
    rewrite Hsi. cbn. rewrite list_lookup_fmap, Hv. cbn.
    split; [done|]. split; [done|]. by rewrite Hpv.
  - apply ma_state_after_Ok in Hst as (mas & Hmas & Hst).
    rewrite <- (enumerate_length data), firstn_all in Hst.
    destruct (for_each_log (MA.body mas budget) MA.portfolio_values
                (fun s' x v => v =
                   MA.accumulated_cash s' + MA.bitcoin_held s' * close x.2))
      with (xs := enumerate data) (s0 := MA.init) (s' := st) as [_ Hlog];
      [|done|done|].
    { intros s0 [j x] s1 Hb. apply ma_body_Ok in Hb as (_ & _ & Hv & _).
      eauto. }
    destruct (Hlog i (i, d) (enumerate_lookup _ _ _ Hd))
      as (si & v & Hsi & Hv & ->).
    exists (ma_position si),
      (MA.accumulated_cash si + MA.bitcoin_held si * close d).
    unfold MA.state_after. rewrite Hmas. cbn [mbind result_bind].
    rewrite Hsi. cbn. split; [done|]. split; [done|]. reflexivity.
Qed.

(** An exception on a prefix of the series is the outcome of the run. *)
Lemma position_after_Raise (s : strategy) (data : list bar) (k : nat)
    (e : exn) :
  position_after s data k = Raise e → run s data = Raise e.
Proof.
  destruct s as [inv|dip budget|W budget]; cbn [run position_after];
    intros H; apply bind_Raise.
  - destruct (DCA.state_after data inv k) as [st|e'] eqn:Hst;
      cbn in H; [done|].
    injection H as ->. apply bind_Raise.
    by apply (for_each_prefix_Raise _ _ _ k).
  - destruct (ATH.state_after data dip budget k) as [st|e'] eqn:Hst;
      cbn in H; [done|].
    injection H as ->. apply bind_Raise.
    by apply (for_each_prefix_Raise _ _ _ k).
  - destruct (MA.state_after data W budget k) as [st|e'] eqn:Hst;
      cbn in H; [done|].
    injection H as ->. unfold MA.state_after in Hst.
    unfold MA.backtest_moving_average_strategy.
    destruct (MA.calculate_moving_average data W) as [mas|];
      cbn [mbind result_bind] in *; [|by injection Hst as ->].
    apply bind_Raise. by apply (for_each_prefix_Raise _ _ _ k).
Qed.

(** ** The two trigger rules, bar by bar *)

Lemma pymax_le_l (a b : Q) : a <= pymax a b.
Proof.
  unfold pymax. destruct (ltb a b) eqn:E; [|apply Qle_refl].
  apply ltb_lt in E. by apply Qlt_le_weak.
Qed.

Lemma pymax_le_r (a b : Q) : b <= pymax a b.
Proof.
  unfold pymax. destruct (ltb a b) eqn:E; [apply Qle_refl|].
  by apply ltb_ge in E.
Qed.


Lemma ath_buys_true (dip_percentage daily_budget : Q) (st : ATH.state)
    (d : bar) :
  ath_buys dip_percentage daily_budget st d = true ↔
  close d <= pymax (ATH.all_time_high st) (high d)
             * (1 - dip_percentage / 100) ∧
  0 < pymax (ATH.all_time_high st) (high d) ∧
  0 < ATH.accumulated_cash st + daily_budget.
Proof.
  unfold ath_buys. cbn zeta.
  rewrite !andb_true_iff, leb_le, !ltb_lt. tauto.
Qed.

Lemma ma_buys_true (ma daily_budget : Q) (st : MA.state) (d : bar) :
  ma_buys ma daily_budget st d = true ↔
  close d < ma ∧ 0 < MA.accumulated_cash st + daily_budget.
Proof. unfold ma_buys. by rewrite andb_true_iff, !ltb_lt. Qed.

(** ** Guarded metrics *)

(** What [v = a if x > 0 else 0] says of [v], by the sign of [x]: the
    guard is [> 0], so a negative [x] gives 0 as well as a zero one. *)
Lemma guard_sign (x a v : Q) :
  v = (if ltb 0 x then a else 0) →
  (0 < x → v = a) ∧ (x <= 0 → v = 0).
Proof.
  intros ->. destruct (ltb 0 x) eqn:E.
  - apply ltb_lt in E. split; [done|]. intros Hle.
    by apply Qlt_not_le in E.
  - apply ltb_ge in E. split; [|done]. intros Hp.
    by apply Qlt_not_le in Hp.
Qed.

(** ** The trigger rules on binary64 *)

Section binary64.
Local Open Scope float_scope.

Lemma b64_truediv_Ok_inv (a b q : float) :
  B64.truediv a b = Ok q → (b =? 0) = false ∧ q = a / b.
Proof.
  unfold B64.truediv. destruct (b =? 0); [done|]. by intros [= <-].
Qed.

(** What one day of the dip loop does, by the branch it takes. *)
Lemma b64_ath_body_Ok (dip_percentage daily_budget : float)
    (st st' : B64.ATH.state) (d : B64.bar) :
  B64.ATH.body dip_percentage daily_budget st d = Ok st' →
  let cash := B64.ATH.accumulated_cash st + daily_budget in
  let ath := B64.pymax (B64.ATH.all_time_high st) (B64.high d) in
  B64.ATH.all_time_high st' = ath ∧
  if B64.ath_buys dip_percentage daily_budget st d
  then (B64.close d =? 0) = false ∧
       B64.ATH.accumulated_cash st' = 0 ∧
       B64.ATH.total_invested st' = B64.ATH.total_invested st + cash ∧
       B64.ATH.total_bitcoin st'
         = B64.ATH.total_bitcoin st + cash / B64.close d ∧
       ∃ e, B64.ATH.purchases st' = B64.ATH.purchases st ++ [e] ∧
            B64.ATH.p_date e = B64.date d ∧
            B64.ATH.p_price e = B64.close d ∧
            B64.ATH.p_amount_invested e = cash ∧
            B64.ATH.p_bitcoin_purchased e = cash / B64.close d ∧
            B64.ATH.p_all_time_high e = ath ∧
            B64.ATH.p_dip_percentage e = (ath - B64.close d) / ath * 100
  else B64.ATH.accumulated_cash st' = cash ∧
       B64.ATH.total_invested st' = B64.ATH.total_invested st ∧
       B64.ATH.total_bitcoin st' = B64.ATH.total_bitcoin st ∧
       B64.ATH.purchases st' = B64.ATH.purchases st.
Proof.
  unfold B64.ATH.body, B64.ath_buys. cbn zeta.
  destruct (_ && _ && _) eqn:E; intros H.
  - unfold B64.ATH.buy in H.
    cbn [B64.ATH.accumulated_cash B64.ATH.all_time_high] in H.
    apply bind_Ok in H as (st2 & H2 & H).
    apply bind_Ok in H2 as (q1 & Hq1 & H2).
    apply bind_Ok in H2 as (q2 & Hq2 & H2).
    apply b64_truediv_Ok_inv in Hq1 as [Hc ->].
    apply b64_truediv_Ok_inv in Hq2 as [_ ->].
    injection H2 as <-. injection H as <-. cbn.
    split; [done|]. split; [done|]. split; [done|]. split; [done|].
    split; [done|]. eexists; split; [done|]. done.
  - cbn in H. injection H as <-. cbn. done.
Qed.

(** Every purchase the dip loop has recorded was made on a passed test. *)
Lemma b64_ath_loop_dipped (dip_percentage daily_budget : float)
    (data : list B64.bar) (st : B64.ATH.state) :
  for_each (B64.ATH.body dip_percentage daily_budget) data B64.ATH.init
    = Ok st →
  Forall (B64.dipped dip_percentage) (B64.ATH.purchases st).
Proof.
  intros H.
  apply (for_each_invariant (B64.ATH.body dip_percentage daily_budget)
           (fun _ s => Forall (B64.dipped dip_percentage)
                         (B64.ATH.purchases s)))
    with (pre := []) in H; [done| |by constructor].
  clear. intros _ d s s' HF Hb.
  apply b64_ath_body_Ok in Hb as (_ & Hb). cbn zeta in Hb.
  destruct (B64.ath_buys _ _ _ _) eqn:E.
  - destruct Hb as (_ & _ & _ & _ & e & He & _ & Hp & _ & _ & Ha & Hd).
    rewrite He. apply Forall_app. split; [done|]. constructor; [|done].
    unfold B64.ath_buys in E. apply andb_true_iff in E as [E Hath].
    apply andb_true_iff in E as [Hle _].
    unfold B64.dipped. rewrite Hp, Ha, Hd. done.
  - destruct Hb as (_ & _ & _ & He). by rewrite He.
Qed.

(** The generator [data[j]["close"] for j in range(...)] on a range that
    lies inside the list. *)
Lemma b64_for_list_closes (data : list B64.bar) (lo : nat) (n a : nat) :
  (lo + a + n ≤ length data)%nat →
  for_list (fun j => d ← getitem data j; Ok (B64.close d))
    (map (fun k => (Z.of_nat lo + Z.of_nat k)%Z) (seq a n)) =
  Ok (map B64.close (take n (drop (lo + a) data))).
Proof.
  revert a. induction n as [|n IH]; intros a Hlen; [done|].
  cbn [seq map for_list].
  replace (Z.of_nat lo + Z.of_nat a)%Z with (Z.of_nat (lo + a)) by lia.
  rewrite getitem_nat.
  destruct (data !! (lo + a)%nat) as [d|] eqn:Hd.
  2:{ apply lookup_ge_None in Hd. lia. }
  cbn. rewrite IH by lia. cbn.
  rewrite (drop_S _ _ _ Hd). cbn.
  by replace (lo + S a)%nat with (S (lo + a)) by lia.
Qed.

Lemma b64_moving_average_at_early (builtin_sum : list float → float)
    (data : list B64.bar) (window : Z) (i : nat) :
  (Z.of_nat i < window - 1)%Z →
  B64.MA.moving_average_at builtin_sum data window i = Ok None.
Proof.
  intros H. unfold B64.MA.moving_average_at.
  by destruct (Z.ltb_spec (Z.of_nat i) (window - 1)); [|lia].
Qed.

(** Once the window is full an entry, if the division by the window gave
    one, is the sum of the [window] most recent closes, today's included,
    divided by the window. *)
Lemma b64_moving_average_at_full (builtin_sum : list float → float)
    (data : list B64.bar) (window : Z) (i : nat) (x : option float) :
  (0 < window)%Z → (window - 1 ≤ Z.of_nat i)%Z → (i < length data)%nat →
  B64.MA.moving_average_at builtin_sum data window i = Ok x →
  x = Some (builtin_sum (map B64.close
                           (B64.recent (Z.to_nat window) data i))
            / B64.of_int window).
Proof.
  intros HW Hi Hlen. unfold B64.MA.moving_average_at, B64.recent.
  destruct (Z.ltb_spec (Z.of_nat i) (window - 1)); [lia|].
  unfold range.
  replace (Z.of_nat i + 1 - (Z.of_nat i - window + 1))%Z with window by lia.
  replace (Z.of_nat i - window + 1)%Z
    with (Z.of_nat (S i - Z.to_nat window)) by lia.
  rewrite b64_for_list_closes by lia. cbn [mbind result_bind].
  rewrite Nat.add_0_r. intros Hx.
  apply bind_Ok in Hx as (avg & Havg & [= <-]).
  by apply b64_truediv_Ok_inv in Havg as [_ ->].
Qed.

(** [calculate_moving_average] returns one entry per bar, the [i]-th being
    [moving_average_at] at [i]. *)
Lemma b64_calculate_moving_average_Ok (builtin_sum : list float → float)
    (data : list B64.bar) (window : Z) (mas : list (option float)) :
  B64.MA.calculate_moving_average builtin_sum data window = Ok mas →
  Forall2
    (fun i x => B64.MA.moving_average_at builtin_sum data window i = Ok x)
    (seq 0 (length data)) mas.
Proof.
  unfold B64.MA.calculate_moving_average. intros H.
  eapply (for_each_invariant _
    (fun pre acc =>
       Forall2
         (fun i x =>
            B64.MA.moving_average_at builtin_sum data window i = Ok x)
         pre acc))
    with (pre := []) in H; [done| |done].
  intros pre i acc acc' HF Hb. apply bind_Ok in Hb as (x & Hx & [= <-]).
  apply Forall2_app; [done|]. by constructor.
Qed.

Lemma b64_calculate_moving_average_lookup
    (builtin_sum : list float → float) (data : list B64.bar) (window : Z)
    (mas : list (option float)) (i : nat) :
  B64.MA.calculate_moving_average builtin_sum data window = Ok mas →
  (i < length data)%nat →
  ∃ x, mas !! i = Some x ∧
       B64.MA.moving_average_at builtin_sum data window i = Ok x.
Proof.
  intros H Hlen. apply b64_calculate_moving_average_Ok in H.
  destruct (Forall2_lookup_l _ _ _ i i H) as (x & Hx & Hm); [|eauto].
  by apply lookup_seq_lt.
Qed.

(** What one day of the moving-average loop does, by the branch it
    takes. *)
Lemma b64_ma_body_Ok (mas : list (option float)) (daily_budget : float)
    (st st' : B64.MA.state) (i : nat) (d : B64.bar) :
  B64.MA.body mas daily_budget st (i, d) = Ok st' →
  ∃ x, mas !! i = Some x ∧
  let cash := B64.MA.accumulated_cash st + daily_budget in
  if B64.ma_signal x daily_budget st d
  then (B64.close d =? 0) = false ∧
       B64.MA.accumulated_cash st' = 0 ∧
       B64.MA.total_invested st' = B64.MA.total_invested st + cash ∧
       B64.MA.bitcoin_held st'
         = B64.MA.bitcoin_held st + cash / B64.close d ∧
       B64.MA.trades st' = B64.MA.trades st ++
         [ B64.MA.Trade (B64.date d) B64.MA.BUY (B64.close d)
             (cash / B64.close d) cash ]
  else B64.MA.accumulated_cash st' = cash ∧
       B64.MA.total_invested st' = B64.MA.total_invested st ∧
       B64.MA.bitcoin_held st' = B64.MA.bitcoin_held st ∧
       B64.MA.trades st' = B64.MA.trades st.
Proof.
  unfold B64.MA.body. rewrite getitem_nat.
  destruct (mas !! i) as [x|]; [|done]. cbn [mbind result_bind].
  intros H. exists x. split; [done|]. cbn zeta.
  destruct x as [ma|]; cbn [B64.ma_signal].
  - destruct (_ && _) eqn:E.
    + apply bind_Ok in H as (st2 & H2 & H).
      apply bind_Ok in H2 as (q & Hq & H2).
      apply b64_truediv_Ok_inv in Hq as [Hc ->].
      injection H2 as <-. injection H as <-. done.
    + cbn in H. injection H as <-. done.
  - injection H as <-. done.
Qed.



(** The code after the dip loop, with the guarded divisions left as the
    source has them. *)
Lemma b64_ath_finish_Ok (data : list B64.bar)
    (dip_percentage daily_budget : float) (st : B64.ATH.state)
    (r : B64.ATH.summary) :
  B64.ATH.finish data dip_percentage daily_budget st = Ok r →
  B64.ATH.r_purchases r = B64.ATH.purchases st.
Proof.
  unfold B64.ATH.finish. intros H.
  apply bind_Ok in H as (d & _ & H). cbn zeta in H.
  apply bind_Ok in H as (pct & _ & H).
  apply bind_Ok in H as (avg & _ & H). by injection H as <-.
Qed.

Lemma b64_ma_finish_Ok (data : list B64.bar) (ma_window : Z)
    (daily_budget : float) (st : B64.MA.state) (r : B64.MA.summary) :
  B64.MA.finish data ma_window daily_budget st = Ok r →
  B64.MA.r_trades r = B64.MA.trades st.
Proof.
  unfold B64.MA.finish. intros H.
  apply bind_Ok in H as (d & _ & H). cbn zeta in H.
  apply bind_Ok in H as (pct & _ & H). by injection H as <-.
Qed.





Lemma b64_ma_signal_true (ma daily_budget : float) (st : B64.MA.state)
    (d : B64.bar) :
  B64.ma_signal (Some ma) daily_budget st d = true ↔
  (B64.close d <? ma) = true ∧
  (0 <? B64.MA.accumulated_cash st + daily_budget) = true.
Proof. cbn. by rewrite andb_true_iff. Qed.

(** The two series on which rounding decides.  At a dip of 30 percent a
    close of 63 under a high of 90 is not bought: the threshold is
    62.99999999999999.  Three closes of 100.4 are traded on the third day
    when [sum] is a running total: their average is 100.40000000000002. *)
Lemma tie_at_thirty_is_not_bought :
  ∃ r, B64.ATH.backtest_ath_dip_strategy B64.tie_at_thirty 30 1 = Ok r ∧
       B64.ATH.r_purchases r = [] ∧ B64.ATH.r_accumulated_cash r = 2.
Proof. eexists. split; [vm_compute; reflexivity|]. done. Qed.

Lemma flat_at_100_4_is_traded :
  ∃ r t, B64.MA.backtest_moving_average_strategy B64.running_total
           B64.flat_at_100_4 3 1 = Ok r ∧
         B64.MA.r_trades r = [t] ∧
         B64.MA.t_date t = 3%Z ∧ B64.MA.t_cash_used t = 3.
Proof. eexists. eexists. split; [vm_compute; reflexivity|]. done. Qed.

End binary64.

(** * The claims *)

(** C1, as the code has it.  On the empty series every backtest raises
    [IndexError]: the loop runs zero times and leaves the zero-valued
    state with its empty sequences, and the lookup of the final price,
    [data[-1]], then fails.  No summary is returned. *)
Theorem empty_series_raises (s : strategy) :
  run s [] = Raise IndexError ∧
  ∀ k, position_after s [] k = Ok (Position 0 0 0 [] []).
Proof.
  destruct s as [inv|dip budget|W budget].
  - split; [done|]. by intros [|k].
  - split; [done|]. by intros [|k].
  - split; [done|]. by intros [|k].
Qed.

(** C1 as stated fails: the fixed-amount backtest on no bars returns no
    zero-valued summary. *)
Lemma empty_series_no_summary :
  ¬ ∃ r, DCA.backtest_dca_strategy [] 10 = Ok r ∧
         DCA.r_purchases r = [] ∧ DCA.r_portfolio_values r = [] ∧
         DCA.r_total_invested r == 0.
Proof. intros (r & H & _). discriminate H. Qed.

(** C2, as the code has it.  When a run reaches a bar on which it buys and
    that bar's close is exactly zero, the division raises
    [ZeroDivisionError]; the exception ends the run at that bar and is its
    whole outcome, so no summary and no partial sequences are returned.
    (No backtest tests the sign of a price: see the counterexample for a
    negative close.) *)
Theorem zero_close_fails_fast (s : strategy) (data : list bar) (k : nat)
    (d : bar) :
  data !! k = Some d → close d == 0 → deploys_at s data k = true →
  position_after s data (S k) = Raise ZeroDivisionError ∧
  run s data = Raise ZeroDivisionError.
Proof.
  intros Hd Hc Hk.
  assert (position_after s data (S k) = Raise ZeroDivisionError) as Hraise.
  2:{ split; [done|]. by eapply position_after_Raise. }
  revert Hk. unfold deploys_at. rewrite Hd.
  destruct s as [inv|dip budget|W budget]; cbn [position_after].
  - unfold DCA.state_after.
    destruct (for_each _ (take k data) _) as [st|] eqn:Hst; [|done].
    intros _. apply bind_Raise.
    rewrite (for_each_take_S _ _ _ _ _ Hd), Hst. cbn [mbind result_bind].
    unfold DCA.body. by rewrite (truediv_zero _ _ Hc).
  - unfold ATH.state_after.
    destruct (for_each _ (take k data) _) as [st|] eqn:Hst; [|done].
    intros Hbuy. apply bind_Raise.
    rewrite (for_each_take_S _ _ _ _ _ Hd), Hst. cbn [mbind result_bind].
    by apply ath_body_zero_close.
  - destruct (MA.state_after data W budget k) as [st|] eqn:Hst; [|done].
    destruct (MA.moving_average_at data W k) as [x|] eqn:Hx; [|done].
    intros Hbuy. apply ma_state_after_Ok in Hst as (mas & Hmas & Hst).
    apply bind_Raise. unfold MA.state_after.
    rewrite Hmas. cbn [mbind result_bind].
    rewrite (for_each_take_S _ _ _ _ _ (enumerate_lookup _ _ _ Hd)), Hst.
    cbn [mbind result_bind].
    destruct (calculate_moving_average_lookup data W mas k Hmas)
      as (x' & Hl & Hx'); [by eapply lookup_lt_Some|].
    rewrite Hx in Hx'. injection Hx' as <-.
    by eapply ma_body_zero_close.
Qed.

Lemma zero_close_fails_fast_witness :
  deploys_at (Dip_Below_Extreme 20 1) with_zero_close 1 = true ∧
  position_after (Dip_Below_Extreme 20 1) with_zero_close 2
    = Raise ZeroDivisionError ∧
  run (Dip_Below_Extreme 20 1) with_zero_close = Raise ZeroDivisionError.
Proof.
  split; [vm_compute; reflexivity|].
  apply (zero_close_fails_fast _ _ 1%nat zero_close_day);
    [reflexivity | reflexivity | vm_compute; reflexivity].
Defined.

(** C2 as stated fails: a negative close is divided by like any other, and
    the run completes with a summary. *)
Lemma negative_close_completes :
  deploys_at (Fixed_Amount 10) with_negative_close 0 = true ∧
  ∃ r, DCA.backtest_dca_strategy with_negative_close 10 = Ok r ∧
       DCA.r_total_bitcoin r == - (1 # 10).
Proof.
  split; [reflexivity|]. eexists. split; [vm_compute; reflexivity|].
  reflexivity.
Qed.

(** C3, as the code has it.  Every completed run reports
    [final_value = accumulated_cash + total_holding * last close].  The
    fixed-amount and moving-average backtests report
    [total_return = final_value - total_invested]; the dip backtest also
    takes the idle cash off:
    [total_return = final_value - total_invested - accumulated_cash]. *)
Theorem reported_return (s : strategy) (data : list bar) (r : report) :
  run s data = Ok r →
  let p := final_position r in
  ∃ d, last data = Some d ∧
    final_value r == accumulated_cash p + total_holding p * close d ∧
    total_return r ==
      match s with
      | Dip_Below_Extreme _ _ =>
          final_value r - total_invested p - accumulated_cash p
      | Fixed_Amount _ | Below_Moving_Average _ _ =>
          final_value r - total_invested p
      end.
Proof.
  intros H. apply run_Ok_inv in H as (d & Hd & _ & _ & Hv & Hr & _).
  exists d. split; [done|]. split; [done|]. rewrite Hr.
  destruct s; reflexivity.
Qed.

Lemma reported_return_witness :
  ∃ r, run (Dip_Below_Extreme 15 1) falling_week = Ok r ∧
  ∃ d, last falling_week = Some d ∧
    final_value r ==
      accumulated_cash (final_position r)
      + total_holding (final_position r) * close d ∧
    total_return r ==
      final_value r - total_invested (final_position r)
      - accumulated_cash (final_position r).
Proof.
  eexists. split; [vm_compute; reflexivity|].
  apply (reported_return (Dip_Below_Extreme 15 1) falling_week).
  vm_compute; reflexivity.
Defined.

(** C3 as stated fails on the dip backtest whenever cash is idle at the
    end: one bar, no dip, one dollar accrued. *)
Lemma dip_return_excludes_idle_cash :
  ∃ r, run (Dip_Below_Extreme 20 1) [flat_bar 1 100] = Ok r ∧
       ¬ total_return r == final_value r - total_invested (final_position r).
Proof.
  eexists. split; [vm_compute; reflexivity|]. cbn. intros H. discriminate H.
Qed.

(** C4.  After every processed bar, of every strategy, the capital invested
    is the sum of the amounts of the events emitted so far and the units
    held are the sum of their units: the same additions in the same order,
    so the equalities are exact. *)
Theorem conservation (s : strategy) (data : list bar) (k : nat)
    (p : position) :
  position_after s data k = Ok p →
  total_invested p = pysum (map a_amount (events p)) ∧
  total_holding p = pysum (map a_units (events p)).
Proof.
  intros H. apply position_after_ledger in H as [Hi Hh _ _]. done.
Qed.

Lemma conservation_witness :
  ∃ p, position_after (Dip_Below_Extreme 15 1) falling_week 4 = Ok p ∧
       total_invested p = pysum (map a_amount (events p)) ∧
       total_holding p = pysum (map a_units (events p)).
Proof.
  eexists. split; [vm_compute; reflexivity|].
  apply (conservation (Dip_Below_Extreme 15 1) falling_week 4).
  vm_compute; reflexivity.
Defined.





(** C7.  A completed run has one valuation per bar, the [i]-th being the
    value of the position right after bar [i]; its events are, by date and
    price, a subsequence of the bars, so there are at most as many. *)
Theorem one_snapshot_per_bar (s : strategy) (data : list bar) (r : report) :
  run s data = Ok r →
  let p := final_position r in
  length (valuations p) = length data ∧
  (∀ i d, data !! i = Some d →
     ∃ pi v, position_after s data (S i) = Ok pi ∧
             valuations p !! i = Some v ∧
             v == accumulated_cash pi + total_holding pi * close d) ∧
  map event_key (events p) `sublist_of` map bar_key data ∧
  (length (events p) ≤ length data)%nat.
Proof.
  intros H p. apply run_Ok_inv in H as (_ & _ & Hp & _).
  pose proof (position_after_ledger _ _ _ _ Hp) as [_ _ He Hv].
  rewrite firstn_all in He, Hv.
  split; [done|]. split; [by apply final_valuations|]. split; [done|].
  apply sublist_length in He. by rewrite !length_map in He.
Qed.

Lemma one_snapshot_per_bar_witness :
  ∃ r, run (Below_Moving_Average 2 1) falling_week = Ok r ∧
    length (valuations (final_position r)) = length falling_week ∧
    (∀ i d, falling_week !! i = Some d →
       ∃ pi v,
         position_after (Below_Moving_Average 2 1) falling_week (S i) = Ok pi ∧
         valuations (final_position r) !! i = Some v ∧
         v == accumulated_cash pi + total_holding pi * close d) ∧
    map event_key (events (final_position r))
      `sublist_of` map bar_key falling_week ∧
    (length (events (final_position r)) ≤ length falling_week)%nat.
Proof.
  eexists. split; [vm_compute; reflexivity|].
  apply (one_snapshot_per_bar (Below_Moving_Average 2 1) falling_week).
  vm_compute; reflexivity.
Defined.

(** C8, as the code has it.  Once the loop has completed on a series that
    is not empty, the code after it cannot raise: the run returns a
    report, on the position the loop ended in.  Its return percentage is
    [total_return / total_invested * 100] when the capital invested is
    positive and 0 otherwise; its average cost basis is
    [total_invested / total_holding] when the units held are positive
    and 0 otherwise.  The guards of the source test [> 0], so a negative
    total, too, reports 0.  (The moving-average backtest reports no
    average cost basis.) *)
Theorem zero_division_guards (s : strategy) (data : list bar)
    (p : position) :
  data ≠ [] → position_after s data (length data) = Ok p →
  ∃ r d, run s data = Ok r ∧ final_position r = p ∧ last data = Some d ∧
    final_value r == accumulated_cash p + total_holding p * close d ∧
    total_return r =
      match s with
      | Dip_Below_Extreme _ _ =>
          final_value r - total_invested p - accumulated_cash p
      | Fixed_Amount _ | Below_Moving_Average _ _ =>
          final_value r - total_invested p
      end ∧
    (0 < total_invested p →
       return_percentage r = total_return r / total_invested p * 100) ∧
    (total_invested p <= 0 → return_percentage r = 0) ∧
    match s with
    | Below_Moving_Average _ _ => average_cost_basis r = None
    | Fixed_Amount _ | Dip_Below_Extreme _ _ =>
        ∃ avg, average_cost_basis r = Some avg ∧
          (0 < total_holding p → avg = total_invested p / total_holding p) ∧
          (total_holding p <= 0 → avg = 0)
    end.
Proof.
  intros Hne Hp.
  assert (∃ d, last data = Some d) as [d Hd].
  { destruct data as [|x xs _] using rev_ind; [done|].
    rewrite last_snoc. eauto. }
  assert (∃ r, run s data = Ok r ∧
            match s with
            | Below_Moving_Average _ _ => average_cost_basis r = None
            | _ => ∃ avg, average_cost_basis r = Some avg
            end) as (r & Hr & Hsome).
  { destruct s as [inv|dip budget|W budget]; cbn [run position_after] in *;
      apply bind_Ok in Hp as (st & Hst & _).
    - unfold DCA.state_after in Hst. rewrite firstn_all in Hst.
      unfold DCA.backtest_dca_strategy. rewrite Hst. cbn [mbind result_bind].
      rewrite dca_finish_eq, Hd. cbn. eauto.
    - unfold ATH.state_after in Hst. rewrite firstn_all in Hst.
      unfold ATH.backtest_ath_dip_strategy. rewrite Hst.
      cbn [mbind result_bind]. rewrite ath_finish_eq, Hd. cbn. eauto.
    - apply ma_state_after_Ok in Hst as (mas & Hmas & Hst).
      rewrite <- (enumerate_length data), firstn_all in Hst.
      unfold MA.backtest_moving_average_strategy. rewrite Hmas.
      cbn [mbind result_bind]. rewrite Hst. cbn [mbind result_bind].
      rewrite ma_finish_eq, Hd. cbn. eauto. }
  destruct (run_Ok_inv s data r Hr)
    as (d' & Hd' & Hp' & _ & Hv & Hret & Hpct & Havg).
  rewrite Hd in Hd'. injection Hd' as <-.
  rewrite Hp in Hp'. injection Hp' as ->.
  exists r, d. split; [done|]. split; [done|]. split; [done|].
  split; [done|]. split; [by destruct s|].
  destruct (guard_sign _ _ _ Hpct) as [Hpos Hneg].
  split; [done|]. split; [done|].
  destruct s as [inv|dip budget|W budget]; [| |done].
  - destruct Hsome as [avg Ha]. exists avg. split; [done|].
    by apply guard_sign, Havg.
  - destruct Hsome as [avg Ha]. exists avg. split; [done|].
    by apply guard_sign, Havg.
Qed.

Lemma zero_division_guards_witness :
  ∃ p, position_after (Fixed_Amount 10) three_days (length three_days)
         = Ok p ∧
  ∃ r d, run (Fixed_Amount 10) three_days = Ok r ∧ final_position r = p ∧
    last three_days = Some d ∧
    final_value r == accumulated_cash p + total_holding p * close d ∧
    total_return r = final_value r - total_invested p ∧
    (0 < total_invested p →
       return_percentage r = total_return r / total_invested p * 100) ∧
    (total_invested p <= 0 → return_percentage r = 0) ∧
    ∃ avg, average_cost_basis r = Some avg ∧
      (0 < total_holding p → avg = total_invested p / total_holding p) ∧
      (total_holding p <= 0 → avg = 0).
Proof.
  eexists. split; [vm_compute; reflexivity|].
  apply (zero_division_guards (Fixed_Amount 10) three_days);
    [discriminate | vm_compute; reflexivity].
Defined.

(** C8 as stated fails on a total that is negative: it is not zero, and
    the metric is 0 all the same.  A fixed amount of -10 a day over closes
    of 100 and 50 invests -20 and holds -0.3 units, worth -15: a return of
    5, which is -25 percent of -20, and a cost of about 66.67 a unit. *)
Lemma negative_total_reports_zero :
  ∃ r, run (Fixed_Amount (-10)) [flat_bar 1 100; flat_bar 2 50] = Ok r ∧
    ¬ total_invested (final_position r) == 0 ∧
    return_percentage r == 0 ∧
    ¬ return_percentage r ==
        total_return r / total_invested (final_position r) * 100 ∧
    ¬ total_holding (final_position r) == 0 ∧
    average_cost_basis r = Some 0 ∧
    ¬ 0 == total_invested (final_position r)
           / total_holding (final_position r).
Proof.
  eexists. split; [vm_compute; reflexivity|]. cbn.
  repeat split; try reflexivity; intros H; discriminate H.
Qed.

(** C9.  Ten dollars a day over three days closing at 100, 50 and 200:
    30 invested, 10/100 + 10/50 + 10/200 = 0.35 units held, worth 70 at the
    last close, a return of 40. *)
Theorem three_day_scenario (data : list bar) :
  Forall2 (fun d c => close d == c) data [100; 50; 200] →
  ∃ r, DCA.backtest_dca_strategy data 10 = Ok r ∧
       DCA.r_total_invested r == 30 ∧
       DCA.r_total_bitcoin r == 10 / 100 + 10 / 50 + 10 / 200 ∧
       DCA.r_total_bitcoin r == 35 # 100 ∧
       DCA.r_final_value r == 70 ∧
       DCA.r_total_return r == 40.
Proof.
  intros H.
  destruct data as [|d1 [|d2 [|d3 [|d4 data]]]];
    repeat match goal with
    | H : Forall2 _ _ _ |- _ => inversion H; clear H; subst
    end.
  match goal with
  | H1 : close d1 == 100, H2 : close d2 == 50, H3 : close d3 == 200 |- _ =>
      rename H1 into E1, H2 into E2, H3 into E3
  end.
  unfold DCA.backtest_dca_strategy. cbn [for_each]. unfold DCA.body.
  repeat (rewrite truediv_Ok by (rewrite ?E1, ?E2, ?E3; done);
          cbn [mbind result_bind DCA.total_bitcoin DCA.total_invested]).
  rewrite dca_finish_eq. cbn [last]. cbn zeta.
  eexists. split; [reflexivity|].
  cbn [DCA.r_total_invested DCA.r_total_bitcoin DCA.r_final_value
       DCA.r_total_return DCA.total_bitcoin DCA.total_invested DCA.init].
  rewrite E1, E2, E3. repeat split; reflexivity.
Qed.

Lemma three_day_scenario_witness :
  ∃ r, DCA.backtest_dca_strategy three_days 10 = Ok r ∧
       DCA.r_total_invested r == 30 ∧
       DCA.r_total_bitcoin r == 10 / 100 + 10 / 50 + 10 / 200 ∧
       DCA.r_total_bitcoin r == 35 # 100 ∧
       DCA.r_final_value r == 70 ∧
       DCA.r_total_return r == 40.
Proof.
  apply (three_day_scenario three_days).
  repeat constructor; reflexivity.
Defined.

(** C10, as the code has it.  Every purchase the dip backtest records was
    made under a positive all-time high, at a price at or under the
    threshold [all_time_high * (1 - dip_percentage / 100)] as binary64
    rounds it, and its recorded dip is [(ATH - price) / ATH * 100] as
    binary64 rounds that.  Nothing orders the recorded dip and the
    configured one: see the counterexample. *)
Theorem recorded_dip (data : list B64.bar)
    (dip_percentage daily_budget : float) (r : B64.ATH.summary)
    (e : B64.ATH.purchase) :
  B64.ATH.backtest_ath_dip_strategy data dip_percentage daily_budget
    = Ok r →
  e ∈ B64.ATH.r_purchases r →
  (0 <? B64.ATH.p_all_time_high e)%float = true ∧
  (B64.ATH.p_price e
     <=? B64.ATH.p_all_time_high e * (1 - dip_percentage / 100))%float
    = true ∧
  B64.ATH.p_dip_percentage e =
    ((B64.ATH.p_all_time_high e - B64.ATH.p_price e)
     / B64.ATH.p_all_time_high e * 100)%float.
Proof.
  unfold B64.ATH.backtest_ath_dip_strategy. intros H He.
  apply bind_Ok in H as (st & Hst & H).
  apply b64_ath_finish_Ok in H. rewrite H in He.
  apply b64_ath_loop_dipped in Hst. rewrite Forall_forall in Hst.
  by apply Hst.
Qed.

Lemma recorded_dip_witness :
  ∃ r e,
    B64.ATH.backtest_ath_dip_strategy B64.one_then_point_eight 20 1 = Ok r ∧
    head (B64.ATH.r_purchases r) = Some e ∧
    (0 <? B64.ATH.p_all_time_high e)%float = true ∧
    (B64.ATH.p_price e
       <=? B64.ATH.p_all_time_high e * (1 - 20 / 100))%float = true ∧
    B64.ATH.p_dip_percentage e =
      ((B64.ATH.p_all_time_high e - B64.ATH.p_price e)
       / B64.ATH.p_all_time_high e * 100)%float.
Proof.
  eexists. eexists. split; [vm_compute; reflexivity|].
  split; [vm_compute; reflexivity|].
  eapply (recorded_dip B64.one_then_point_eight 20 1);
    [vm_compute; reflexivity|].
  apply list_elem_of_here.
Defined.

(** C10 as stated fails: after a high of 1, a close of 0.8 is at the
    threshold of a 20 percent dip and is bought, and the dip recorded for
    it, [(1 - 0.8) / 1 * 100], is 19.999999999999996. *)
Lemma recorded_dip_falls_short :
  ∃ r e,
    B64.ATH.backtest_ath_dip_strategy B64.one_then_point_eight 20 1 = Ok r ∧
    Forall (fun d => (0 <? B64.close d)%float = true)
      B64.one_then_point_eight ∧
    e ∈ B64.ATH.r_purchases r ∧
    (0 <? B64.ATH.p_all_time_high e)%float = true ∧
    (20 <=? B64.ATH.p_dip_percentage e)%float = false ∧
    (B64.ATH.p_dip_percentage e <? 20)%float = true.
Proof.
  eexists. eexists. split; [vm_compute; reflexivity|].
  split; [by repeat constructor|].
  split; [apply list_elem_of_here|]. by vm_compute.
Qed.

(** * Further properties

    Properties of the same code beyond the claims: of the loops day by
    day, of the records they keep, and of the functions that report and
    compare the runs. *)

(** ** Day by day *)

(** The position after [k + 1] bars comes from the position after [k]
    by one day on bar [k]. *)
Lemma position_after_S (s : strategy) (data : list bar) (k : nat) (d : bar)
    (p' : position) :
  data !! k = Some d → position_after s data (S k) = Ok p' →
  ∃ p, position_after s data k = Ok p ∧ day_step s d p p'.
Proof.
  intros Hd.
  destruct s as [inv|dip budget|W budget]; cbn [position_after]; intros H;
    apply bind_Ok in H as (st' & Hst' & [= <-]).
  - unfold DCA.state_after in *.
    rewrite (for_each_take_S _ _ _ _ _ Hd) in Hst'.
    apply bind_Ok in Hst' as (st & Hst & Hb). rewrite Hst.
    exists (dca_position st). split; [done|].
    apply dca_body_Ok in Hb as (Hc & Hi & Hh & Hp & Hv).
    split.
    + eexists. split; [apply Hv|]. cbn. ring.
    + left. split; [|by left]. eexists. cbn. rewrite Hp, map_app. cbn.
      split; [done|]. cbn. split; [done|]. split; [ring|].
      split; [done|]. split; [done|]. split; [done|]. done.
  - unfold ATH.state_after in *.
    rewrite (for_each_take_S _ _ _ _ _ Hd) in Hst'.
    apply bind_Ok in Hst' as (st & Hst & Hb). rewrite Hst.
    exists (ath_position st). split; [done|].
    apply ath_body_Ok in Hb as (_ & (v & Hv & _ & _ & Hpv) & Hb).
    split.
    + exists (ATH.v_portfolio_value v). cbn. rewrite Hv, map_app.
      split; [done|]. by rewrite Hpv.
    + destruct (ath_buys _ _ _ _) eqn:E.
      * destruct Hb
          as (Hc & Hcash & Hi & Hh & e & He & Hdt & Hpr & Ha & Hu & _).
        left. split.
        -- exists (ath_allocation e). cbn. rewrite He, map_app. cbn.
           unfold event_key, bar_key. cbn. rewrite Hdt, Hpr, Ha, Hu.
           split; [done|]. split; [done|]. split; [reflexivity|].
           split; [done|]. split; [done|]. split; [done|]. done.
        -- right. apply ath_buys_true in E as (_ & _ & Hpos). done.
      * destruct Hb as (Hcash & Hi & Hh & He). right.
        split; [|by intros []]. split; cbn; [by rewrite He|done].
  - apply ma_state_after_Ok in Hst' as (mas & Hmas & Hst').
    rewrite (for_each_take_S _ _ _ _ _ (enumerate_lookup _ _ _ Hd)) in Hst'.
    apply bind_Ok in Hst' as (st & Hst & Hb).
    unfold MA.state_after. rewrite Hmas. cbn [mbind result_bind].
    rewrite Hst. exists (ma_position st). split; [done|].
    apply ma_body_Ok in Hb as (x & _ & Hv & Hb). cbn zeta in Hb.
    split.
    + eexists. split; [apply Hv|]. reflexivity.
    + destruct (ma_signal _ _ _ _) eqn:E.
      * destruct Hb as (Hc & Hcash & Hi & Hh & Ht). left. split.
        -- eexists. cbn. rewrite Ht, map_app. cbn.
           split; [done|]. cbn. split; [done|]. split; [reflexivity|].
           split; [done|]. split; [done|]. split; [done|]. done.
        -- right. destruct x as [ma|]; [|done].
           apply ma_buys_true in E as [_ Hpos]. done.
      * destruct Hb as (Hcash & Hi & Hh & Ht). right.
        split; [|by intros []]. split; cbn; [by rewrite Ht|done].
Qed.

Lemma position_after_clamp (s : strategy) (data : list bar) (k : nat) :
  (length data ≤ k)%nat →
  position_after s data (S k) = position_after s data k.
Proof.
  intros Hk. destruct s as [inv|dip budget|W budget]; cbn [position_after].
  - unfold DCA.state_after. by rewrite !take_ge by lia.
  - unfold ATH.state_after. by rewrite !take_ge by lia.
  - unfold MA.state_after.
    by rewrite !(take_ge (enumerate data)) by (rewrite enumerate_length; lia).
Qed.

(** [n] more days of accrual add [n] daily amounts, one at a time. *)
Lemma accrued_S (n : nat) (daily : Q) :
  accrued (S n) daily = accrued n daily + daily.
Proof.
  unfold accrued. by rewrite replicate_S_end, pysum_snoc.
Qed.

(** The two steps of the invariant behind X1: a day that keeps the cash
    lengthens the idle run, a day that spends it closes the run as an
    event. *)
Lemma days_accounted_hold (daily : Q) (amounts : list Q) (cash : Q)
    (k : nat) :
  days_accounted daily amounts cash k →
  days_accounted daily amounts (cash + daily) (S k).
Proof.
  intros (days & idle & Ha & Hpos & Hc & Hk).
  exists days, (S idle). split; [done|]. split; [done|].
  split; [by rewrite accrued_S, Hc | lia].
Qed.

Lemma days_accounted_buy (daily : Q) (amounts : list Q) (cash : Q)
    (k : nat) :
  days_accounted daily amounts cash k →
  days_accounted daily (amounts ++ [cash + daily]) 0 (S k).
Proof.
  intros (days & idle & Ha & Hpos & Hc & Hk).
  exists (days ++ [S idle]), 0%nat. rewrite map_app, Ha. cbn [map].
  split; [by rewrite accrued_S, Hc|].
  split; [apply Forall_app; split; [done|]; constructor; [lia|done]|].
  split; [done|]. rewrite sum_list_with_app. cbn. lia.
Qed.

Lemma ath_loop_accounted (dip_percentage daily_budget : Q)
    (data : list bar) (st : ATH.state) :
  for_each (ATH.body dip_percentage daily_budget) data ATH.init = Ok st →
  days_accounted daily_budget (map ATH.p_amount_invested (ATH.purchases st))
    (ATH.accumulated_cash st) (length data).
Proof.
  intros H.
  apply (for_each_invariant (ATH.body dip_percentage daily_budget)
           (fun pre s =>
              days_accounted daily_budget
                (map ATH.p_amount_invested (ATH.purchases s))
                (ATH.accumulated_cash s) (length pre)))
    with (pre := []) in H; [done| |].
  - clear. intros pre d s s' Hacc Hb. rewrite length_app, Nat.add_1_r.
    apply ath_body_Ok in Hb as (_ & _ & Hb). cbn zeta in Hb.
    destruct (ath_buys _ _ _ _).
    + destruct Hb as (_ & -> & _ & _ & e & -> & _ & _ & Ha & _).
      rewrite map_app. cbn [map]. rewrite Ha.
      by apply days_accounted_buy.
    + destruct Hb as (-> & _ & _ & ->). by apply days_accounted_hold.
  - exists [], 0%nat. done.
Qed.

Lemma ma_loop_accounted (mas : list (option Q)) (daily_budget : Q)
    (items : list (nat * bar)) (st : MA.state) :
  for_each (MA.body mas daily_budget) items MA.init = Ok st →
  days_accounted daily_budget (map MA.t_cash_used (MA.trades st))
    (MA.accumulated_cash st) (length items).
Proof.
  intros H.
  apply (for_each_invariant (MA.body mas daily_budget)
           (fun pre s =>
              days_accounted daily_budget
                (map MA.t_cash_used (MA.trades s))
                (MA.accumulated_cash s) (length pre)))
    with (pre := []) in H; [done| |].
  - clear. intros pre [i d] s s' Hacc Hb. rewrite length_app, Nat.add_1_r.
    apply ma_body_Ok in Hb as (x & _ & _ & Hb). cbn zeta in Hb.
    destruct (ma_signal _ _ _ _).
    + destruct Hb as (_ & -> & _ & _ & ->).
      rewrite map_app. cbn [map MA.t_cash_used].
      by apply days_accounted_buy.
    + destruct Hb as (-> & _ & _ & ->). by apply days_accounted_hold.
  - exists [], 0%nat. done.
Qed.

(** X1.  Every day's amount is either idle or in exactly one event.  After
    [k] bars of the dip or of the moving-average backtest the days split
    into runs of consecutive days: one run per event, of at least one day,
    whose amount is the daily budget added up over the run, one day at a
    time from zero; and a last run, possibly empty, whose sum is the idle
    cash.  The sums are the additions of the source in their order, so the
    equalities hold as written whatever the rounding. *)
Theorem cash_accounting (s : strategy) (data : list bar) (k : nat)
    (p : position) :
  ¬ is_fixed_amount s → (k ≤ length data)%nat →
  position_after s data k = Ok p →
  ∃ (days : list nat) (idle : nat),
    map a_amount (events p)
      = map (fun n => accrued n (daily_amount s)) days ∧
    Forall (fun n => (0 < n)%nat) days ∧
    accumulated_cash p = accrued idle (daily_amount s) ∧
    (sum_list days + idle = k)%nat.
Proof.
  intros Hs Hk.
  destruct s as [inv|dip budget|W budget]; [by destruct Hs| |];
    cbn [position_after daily_amount]; intros H;
    apply bind_Ok in H as (st & Hst & [= <-]).
  - apply ath_loop_accounted in Hst.
    rewrite length_take_le in Hst by done.
    cbn [events accumulated_cash ath_position].
    rewrite map_map.
    by erewrite map_ext; [apply Hst|].
  - apply ma_state_after_Ok in Hst as (mas & _ & Hst).
    apply ma_loop_accounted in Hst.
    rewrite length_take_le in Hst by (by rewrite enumerate_length).
    cbn [events accumulated_cash ma_position].
    rewrite map_map.
    by erewrite map_ext; [apply Hst|].
Qed.

Lemma cash_accounting_witness :
  ∃ p, position_after (Dip_Below_Extreme 15 1) falling_week 4 = Ok p ∧
  ∃ (days : list nat) (idle : nat),
    map a_amount (events p) = map (fun n => accrued n 1) days ∧
    Forall (fun n => (0 < n)%nat) days ∧
    accumulated_cash p = accrued idle 1 ∧
    (sum_list days + idle = 4)%nat.
Proof.
  eexists. split; [vm_compute; reflexivity|].
  apply (cash_accounting (Dip_Below_Extreme 15 1) falling_week 4);
    [by intros [] | vm_compute; lia | vm_compute; reflexivity].
Defined.

(** One day only appends: events and valuations grow at the end, and the
    capital invested does not shrink when the amounts are not negative. *)
Lemma day_step_grows (s : strategy) (d : bar) (p p' : position) :
  day_step s d p p' →
  events p `prefix_of` events p' ∧
  valuations p `prefix_of` valuations p' ∧
  (well_formed s → total_invested p <= total_invested p').
Proof.
  intros [(v & Hv & _) Hstep]. split; [|split].
  - destruct Hstep as [[(e & He & _) _]|[(He & _) _]]; rewrite He.
    + by apply prefix_app_r.
    + done.
  - rewrite Hv. by apply prefix_app_r.
  - intros Hs.
    destruct Hstep as [[(e & _ & _ & Ha & _ & Hi & _) Hpos]|[(_ & Hi & _) _]];
      rewrite Hi; [|apply Qle_refl].
    assert (0 <= a_amount e) as Hnn; [|lra].
    rewrite Ha. destruct Hpos as [[Hf Hc]|Hpos]; [|by apply Qlt_le_weak].
    rewrite Hc. destruct s; try done. cbn in *. lra.
Qed.

(** X2.  The history of a run is append-only.  The events and valuations
    recorded after [k] bars are a prefix of those recorded after any later
    bar, and the capital invested never decreases (for the fixed-amount
    backtest: when the daily amount is not negative). *)
Theorem history_append_only (s : strategy) (data : list bar) (k k' : nat)
    (p p' : position) :
  (k ≤ k')%nat →
  position_after s data k = Ok p → position_after s data k' = Ok p' →
  events p `prefix_of` events p' ∧
  valuations p `prefix_of` valuations p' ∧
  (well_formed s → total_invested p <= total_invested p').
Proof.
  intros Hk Hp. revert p'. induction Hk as [|k' Hk IH]; intros p' Hp'.
  - rewrite Hp in Hp'. injection Hp' as <-.
    split; [done|]. split; [done|]. intros _. apply Qle_refl.
  - destruct (decide (k' < length data)%nat) as [Hlt|Hge].
    + destruct (lookup_lt_is_Some_2 data k' Hlt) as [d Hd].
      destruct (position_after_S s data k' d p' Hd Hp') as (p0 & Hp0 & Hstep).
      destruct (IH p0 Hp0) as (He & Hv & Hi).
      destruct (day_step_grows s d p0 p' Hstep) as (He' & Hv' & Hi').
      split; [by etrans|]. split; [by etrans|].
      intros Hs. eapply Qle_trans; [by apply Hi | by apply Hi'].
    + rewrite position_after_clamp in Hp' by lia. by apply IH.
Qed.

Lemma history_append_only_witness :
  ∃ p p',
    position_after (Below_Moving_Average 2 1) falling_week 2 = Ok p ∧
    position_after (Below_Moving_Average 2 1) falling_week 5 = Ok p' ∧
    events p `prefix_of` events p' ∧
    valuations p `prefix_of` valuations p' ∧
    (well_formed (Below_Moving_Average 2 1) →
     total_invested p <= total_invested p').
Proof.
  eexists. eexists. split; [vm_compute; reflexivity|].
  split; [vm_compute; reflexivity|].
  apply (history_append_only (Below_Moving_Average 2 1) falling_week 2 5);
    [lia | vm_compute; reflexivity | vm_compute; reflexivity].
Defined.

(** ** What a run can raise *)

Lemma bind_Raise_inv {A B} (f : A → result B) (m : result A) (e : exn) :
  m ≫= f = Raise e → m = Raise e ∨ ∃ a, m = Ok a ∧ f a = Raise e.
Proof. destruct m as [a|e']; cbn; [eauto | intros [= ->]; by left]. Qed.

(** The exception of a loop is an exception of its body on some item. *)
Lemma for_each_Raise {S A} (body : S → A → result S) (xs : list A) (s : S)
    (e : exn) :
  for_each body xs s = Raise e → ∃ s1 x, x ∈ xs ∧ body s1 x = Raise e.
Proof.
  revert s. induction xs as [|x xs IH]; intros s; [done|].
  cbn. destruct (body s x) as [s1|e'] eqn:Hb; cbn.
  - intros H. destruct (IH _ H) as (s2 & y & Hy & Hr).
    exists s2, y. split; [by right | done].
  - intros [= ->]. exists s, x. split; [by left | done].
Qed.

Lemma truediv_Raise (a b : Q) (e : exn) :
  truediv a b = Raise e → e = ZeroDivisionError ∧ b == 0.
Proof.
  unfold truediv. destruct (Qeq_bool b 0) eqn:E; [|done].
  intros [= <-]. split; [done|]. by apply Qeq_bool_iff.
Qed.

Lemma dca_body_Raise (daily_investment : Q) (st : DCA.state) (d : bar)
    (e : exn) :
  DCA.body daily_investment st d = Raise e →
  e = ZeroDivisionError ∧ close d == 0.
Proof.
  unfold DCA.body. intros H.
  apply bind_Raise_inv in H as [H|(q & _ & H)]; [|done].
  by apply truediv_Raise in H.
Qed.

Lemma ath_body_Raise (dip_percentage daily_budget : Q) (st : ATH.state)
    (d : bar) (e : exn) :
  ATH.body dip_percentage daily_budget st d = Raise e →
  e = ZeroDivisionError ∧ close d == 0.
Proof.
  intros H. destruct (Qeq_bool (close d) 0) eqn:E.
  - apply Qeq_bool_iff in E. split; [|done].
    unfold ATH.body in H. cbn zeta in H.
    destruct (leb _ _ && ltb 0 _ && ltb 0 _); [|done].
    unfold ATH.buy in H. cbn [ATH.accumulated_cash] in H.
    rewrite (truediv_zero _ _ E) in H. cbn in H. congruence.
  - apply Qeq_bool_neq in E.
    destruct (ath_body_progress dip_percentage daily_budget st d E)
      as [st' Hst']. congruence.
Qed.

Lemma ma_body_Raise (mas : list (option Q)) (daily_budget : Q)
    (st : MA.state) (i : nat) (d : bar) (e : exn) :
  (i < length mas)%nat →
  MA.body mas daily_budget st (i, d) = Raise e →
  e = ZeroDivisionError ∧ close d == 0.
Proof.
  intros Hi H. destruct (Qeq_bool (close d) 0) eqn:E.
  - apply Qeq_bool_iff in E. split; [|done].
    unfold MA.body in H. rewrite getitem_nat in H.
    destruct (lookup_lt_is_Some_2 mas i Hi) as [x Hx]. rewrite Hx in H.
    cbn [mbind result_bind] in H. destruct x as [ma|]; [|done].
    destruct (ltb _ _ && ltb 0 _); [|done].
    rewrite (truediv_zero _ _ E) in H. cbn in H. congruence.
  - apply Qeq_bool_neq in E.
    destruct (ma_body_progress mas daily_budget st i d Hi E) as [st' Hst'].
    congruence.
Qed.

(** [calculate_moving_average] raises only by dividing by a zero window,
    and only when there is a bar to compute an average for. *)
Lemma calculate_moving_average_Raise (data : list bar) (window : Z)
    (e : exn) :
  MA.calculate_moving_average data window = Raise e →
  e = ZeroDivisionError ∧ window = 0%Z ∧ data ≠ [].
Proof.
  unfold MA.calculate_moving_average. intros H.
  apply for_each_Raise in H as (acc & i & Hi & H).
  apply elem_of_seq in Hi.
  assert (data ≠ []) as Hne by (intros ->; cbn in Hi; lia).
  destruct (MA.moving_average_at data window i) as [x|e'] eqn:Hx; [done|].
  cbn in H. injection H as ->.
  destruct (decide (window = 0%Z)) as [->|HW].
  - rewrite moving_average_at_nonpos in Hx by done.
    change (inject_Z 0) with 0 in Hx.
    rewrite truediv_zero in Hx by reflexivity. cbn in Hx.
    by injection Hx as <-.
  - destruct (moving_average_at_progress data window i HW) as [y Hy]; [lia|].
    congruence.
Qed.

(** X3.  The only ways a run fails.  A run that raises either was given no
    bars and raises [IndexError], or was given bars and raises
    [ZeroDivisionError]; the latter needs a bar whose close is zero, or a
    moving-average window of zero. *)
Theorem run_raises (s : strategy) (data : list bar) (e : exn) :
  run s data = Raise e →
  (data = [] ∧ e = IndexError) ∨
  (data ≠ [] ∧ e = ZeroDivisionError ∧
   (Exists (fun d => close d == 0) data ∨
    ∃ daily_budget, s = Below_Moving_Average 0 daily_budget)).
Proof.
  assert (∀ d, d ∈ data → close d == 0 →
            data ≠ [] ∧ Exists (fun d => close d == 0) data) as Hzero.
  { intros d Hd Hc. split; [by intros ->; apply elem_of_nil in Hd|].
    apply Exists_exists. eauto. }
  assert (last data = None → data = []) as Hlast.
  { destruct data as [|x xs _] using rev_ind; [done|].
    by rewrite last_snoc. }
  destruct s as [inv|dip budget|W budget]; cbn [run]; intros H;
    apply bind_Raise_inv in H as [H|(r & _ & H)]; try done.
  - unfold DCA.backtest_dca_strategy in H.
    apply bind_Raise_inv in H as [H|(st & _ & H)].
    + apply for_each_Raise in H as (s1 & d & Hd & H).
      apply dca_body_Raise in H as [-> Hc].
      destruct (Hzero d Hd Hc). right. eauto.
    + rewrite dca_finish_eq in H.
      destruct (last data) eqn:El; [done|]. injection H as <-.
      left. eauto.
  - unfold ATH.backtest_ath_dip_strategy in H.
    apply bind_Raise_inv in H as [H|(st & _ & H)].
    + apply for_each_Raise in H as (s1 & d & Hd & H).
      apply ath_body_Raise in H as [-> Hc].
      destruct (Hzero d Hd Hc). right. eauto.
    + rewrite ath_finish_eq in H.
      destruct (last data) eqn:El; [done|]. injection H as <-.
      left. eauto.
  - unfold MA.backtest_moving_average_strategy in H.
    apply bind_Raise_inv in H as [H|(mas & Hmas & H)].
    { apply calculate_moving_average_Raise in H as (-> & -> & Hne).
      right. eauto 6. }
    apply bind_Raise_inv in H as [H|(st & _ & H)].
    + apply for_each_Raise in H as (s1 & [i d] & Hd & H).
      apply list_elem_of_lookup in Hd as [k Hk].
      apply enumerate_lookup_inv in Hk as [-> Hk].
      apply ma_body_Raise in H as [-> Hc].
      * destruct (Hzero d) as [Hne Hex]; [|done|right; eauto].
        apply list_elem_of_lookup. eauto.
      * apply calculate_moving_average_Ok, Forall2_length in Hmas.
        rewrite length_seq in Hmas. rewrite <- Hmas.
        by eapply lookup_lt_Some.
    + rewrite ma_finish_eq in H.
      destruct (last data) eqn:El; [done|]. injection H as <-.
      left. eauto.
Qed.

Lemma run_raises_witness :
  (with_zero_close = [] ∧ ZeroDivisionError = IndexError) ∨
  (with_zero_close ≠ [] ∧ ZeroDivisionError = ZeroDivisionError ∧
   (Exists (fun d => close d == 0) with_zero_close ∨
    ∃ daily_budget,
      Dip_Below_Extreme 20 1 = Below_Moving_Average 0 daily_budget)).
Proof.
  apply (run_raises (Dip_Below_Extreme 20 1) with_zero_close).
  vm_compute; reflexivity.
Defined.

(** ** The fixed-amount backtest, record by record *)

(** The fixed-amount loop divides by every close and by nothing else. *)
Lemma dca_loop_Ok_iff (data : list bar) (daily_investment : Q) :
  (∃ st, for_each (DCA.body daily_investment) data DCA.init = Ok st) ↔
  Forall (fun d => ¬ close d == 0) data.
Proof.
  split.
  - intros (st & Hst).
    apply (for_each_invariant (DCA.body daily_investment)
             (fun pre _ => Forall (fun d => ¬ close d == 0) pre))
      with (pre := []) in Hst; [done| |done].
    intros pre d s s' HF Hb. apply dca_body_Ok in Hb as (Hc & _).
    apply Forall_app. split; [done|]. by constructor.
  - intros HF.
    destruct (for_each_progress (DCA.body daily_investment)
                (fun _ _ => True) (fun d => ¬ close d == 0))
      with (xs := data) (pre := @nil bar) (s := DCA.init)
      as (st & Hst & _); [|done|done|eauto].
    intros _ d st _ Hc. unfold DCA.body. rewrite (truediv_Ok _ _ Hc).
    cbn. eauto.
Qed.

Lemma dca_loop_Ok_iff_nonzero (data : list bar) (daily_investment : Q)
    (st : DCA.state) :
  for_each (DCA.body daily_investment) data DCA.init = Ok st →
  Forall (fun d => ¬ close d == 0) data.
Proof. intros H. apply (dca_loop_Ok_iff data daily_investment). eauto. Qed.

(** X4.  The fixed-amount backtest returns a summary exactly when the series
    is not empty and no close is zero, whatever the daily amount. *)
Theorem dca_completes_iff (data : list bar) (daily_investment : Q) :
  (∃ r, DCA.backtest_dca_strategy data daily_investment = Ok r) ↔
  data ≠ [] ∧ Forall (fun d => ¬ close d == 0) data.
Proof.
  rewrite <- dca_loop_Ok_iff. unfold DCA.backtest_dca_strategy. split.
  - intros (r & H). apply bind_Ok in H as (st & Hst & H).
    rewrite dca_finish_eq in H. split; [|eauto].
    intros ->. done.
  - intros [Hne (st & Hst)]. rewrite Hst. cbn [mbind result_bind].
    rewrite dca_finish_eq.
    destruct data as [|x xs _] using rev_ind; [done|].
    rewrite last_snoc. eauto.
Qed.

Lemma dca_completes_iff_witness :
  ∃ r, DCA.backtest_dca_strategy three_days 10 = Ok r.
Proof.
  apply (proj2 (dca_completes_iff three_days 10)).
  split; [discriminate|]. repeat constructor; discriminate.
Defined.

(** Records that carry a running total: appending one whose total is the
    sum so far plus its own amount keeps every total the sum of the
    amounts up to its record. *)
Lemma running_totals_snoc {A} (amount total : A → Q) (l : list A) (x : A) :
  (∀ i p, l !! i = Some p → total p = pysum (map amount (take (S i) l))) →
  total x = pysum (map amount l) + amount x →
  ∀ i p, (l ++ [x]) !! i = Some p →
         total p = pysum (map amount (take (S i) (l ++ [x]))).
Proof.
  intros Hl Hx i p Hi. destruct (decide (i < length l)%nat) as [Hlt|Hge].
  - rewrite lookup_app_l in Hi by done. rewrite take_app_le by lia. eauto.
  - assert (i = length l) as ->.
    { apply lookup_lt_Some in Hi. rewrite length_app in Hi. cbn in Hi. lia. }
    rewrite list_lookup_middle in Hi by done. injection Hi as <-.
    rewrite take_ge by (rewrite length_app; cbn; lia).
    rewrite map_app. change (map amount [x]) with [amount x].
    by rewrite pysum_snoc.
Qed.

Lemma dca_loop_records (daily_investment : Q) (data : list bar)
    (st : DCA.state) :
  for_each (DCA.body daily_investment) data DCA.init = Ok st →
  dca_records daily_investment data st.
Proof.
  intros H. pose proof H as Hrun.
  apply (for_each_invariant (DCA.body daily_investment)
           (fun pre s => ledger_ok pre (dca_position s) ∧
                         dca_records daily_investment pre s))
    with (pre := []) in H; [by destruct H| |].
  - clear. intros pre d s s' [Hl [Hd Hp Ha Hi Hb Hv]] Hstep.
    split; [by eapply dca_body_ledger|].
    destruct Hl as [Li Lh _ _]. cbn in Li, Lh.
    rewrite !map_map in Li, Lh. cbn in Li, Lh.
    apply dca_body_Ok in Hstep as (_ & Ei & Eh & Ep & Ev).
    split; rewrite ?Ep, ?Ev.
    + by rewrite !map_app, Hd.
    + by rewrite !map_app, Hp.
    + apply Forall_app. split; [done|]. by constructor.
    + apply running_totals_snoc; [done|]. cbn. by rewrite Li.
    + apply running_totals_snoc; [done|]. cbn. by rewrite Lh.
    + rewrite map_app, Hv. cbn. by rewrite Eh.
  - split; [apply ledger_ok_init|]. split; try done.
    all: intros i p [=].
Qed.

(** X5.  What the fixed-amount backtest records.  A completed run has one
    purchase per bar, dated and priced as the bar, of the daily amount,
    buying [amount / price] units; each purchase carries the totals
    invested and held up to and including itself, and the day's valuation
    is the units held so far at the day's close. *)
Theorem dca_purchase_records (data : list bar) (daily_investment : Q)
    (r : DCA.summary) :
  DCA.backtest_dca_strategy data daily_investment = Ok r →
  let ps := DCA.r_purchases r in
  map DCA.p_date ps = map date data ∧
  map DCA.p_price ps = map close data ∧
  DCA.r_number_of_days r = length ps ∧
  ∀ i p, ps !! i = Some p →
    DCA.p_amount_invested p = daily_investment ∧
    DCA.p_bitcoin_purchased p = daily_investment / DCA.p_price p ∧
    DCA.p_total_invested p =
      pysum (map DCA.p_amount_invested (take (S i) ps)) ∧
    DCA.p_total_bitcoin p =
      pysum (map DCA.p_bitcoin_purchased (take (S i) ps)) ∧
    DCA.r_portfolio_values r !! i
      = Some (DCA.p_total_bitcoin p * DCA.p_price p).
Proof.
  unfold DCA.backtest_dca_strategy. intros H.
  apply bind_Ok in H as (st & Hst & H). rewrite dca_finish_eq in H.
  destruct (last data); [|done]. injection H as <-. cbn.
  apply dca_loop_records in Hst as [Hd Hp Ha Hi Hb Hv].
  split; [done|]. split; [done|].
  split; [by rewrite <- (length_map DCA.p_date), Hd, length_map|].
  intros i p Hip. rewrite Forall_lookup in Ha.
  destruct (Ha i p Hip) as [Ha1 Ha2].
  split; [done|]. split; [done|]. split; [by apply Hi|].
  split; [by apply Hb|]. by rewrite Hv, list_lookup_fmap, Hip.
Qed.

Lemma dca_purchase_records_witness :
  ∃ r, DCA.backtest_dca_strategy three_days 10 = Ok r ∧
    map DCA.p_date (DCA.r_purchases r) = map date three_days ∧
    map DCA.p_price (DCA.r_purchases r) = map close three_days ∧
    DCA.r_number_of_days r = length (DCA.r_purchases r) ∧
    ∀ i p, DCA.r_purchases r !! i = Some p →
      DCA.p_amount_invested p = 10 ∧
      DCA.p_bitcoin_purchased p = 10 / DCA.p_price p ∧
      DCA.p_total_invested p =
        pysum (map DCA.p_amount_invested (take (S i) (DCA.r_purchases r))) ∧
      DCA.p_total_bitcoin p =
        pysum (map DCA.p_bitcoin_purchased
                 (take (S i) (DCA.r_purchases r))) ∧
      DCA.r_portfolio_values r !! i
        = Some (DCA.p_total_bitcoin p * DCA.p_price p).
Proof.
  eexists. split; [vm_compute; reflexivity|].
  apply (dca_purchase_records three_days 10). vm_compute; reflexivity.
Defined.

(** ** Two runs side by side *)

(** Two loops over the same items stay related when one step keeps them
    related, and the second completes when the first does. *)
Lemma for_each_lockstep {S1 S2 A} (body1 : S1 → A → result S1)
    (body2 : S2 → A → result S2) (R : S1 → S2 → Prop) :
  (∀ s1 s2 x s1', R s1 s2 → body1 s1 x = Ok s1' →
     ∃ s2', body2 s2 x = Ok s2' ∧ R s1' s2') →
  ∀ xs s1 s2 s1',
    R s1 s2 → for_each body1 xs s1 = Ok s1' →
    ∃ s2', for_each body2 xs s2 = Ok s2' ∧ R s1' s2'.
Proof.
  intros Hstep xs. induction xs as [|x xs IH]; intros s1 s2 s1' HR Hrun.
  - cbn in Hrun. injection Hrun as <-. exists s2. done.
  - cbn in Hrun. apply bind_Ok in Hrun as (t1 & Hb & Hrun).
    destruct (Hstep _ _ _ _ HR Hb) as (t2 & Hb2 & HR2).
    destruct (IH _ _ _ HR2 Hrun) as (s2' & Hrun2 & HR').
    exists s2'. cbn. rewrite Hb2. done.
Qed.

Lemma ltb_scale (c x y : Q) : 0 < c → y == c * x → ltb 0 y = ltb 0 x.
Proof.
  intros Hc Hy. destruct (ltb 0 x) eqn:E.
  - apply ltb_lt in E. apply ltb_lt. rewrite Hy.
    by apply Qmult_lt_0_compat.
  - apply ltb_ge in E. apply ltb_ge. rewrite Hy. nra.
Qed.

(** A guarded quotient of two totals is the same when both are scaled by
    a positive factor. *)
Lemma guarded_ratio_scale (c x y x' y' k : Q) :
  0 < c → x' == c * x → y' == c * y →
  (if ltb 0 y' then x' / y' * k else 0)
  == (if ltb 0 y then x / y * k else 0).
Proof.
  intros Hc Hx Hy. rewrite (ltb_scale c y y' Hc Hy).
  destruct (ltb 0 y) eqn:E; [|reflexivity].
  apply ltb_lt in E. rewrite Hx, Hy. field. split; lra.
Qed.

(** ** The comparison tables *)

Lemma for_list_Ok {A B} (f : A → result B) (xs : list A) (ys : list B) :
  for_list f xs = Ok ys ↔ Forall2 (fun x y => f x = Ok y) xs ys.
Proof.
  revert ys. induction xs as [|x xs IH]; intros ys; cbn.
  - split; [intros [= <-]; constructor | by intros ->%Forall2_nil_inv_l].
  - split.
    + intros H. apply bind_Ok in H as (y & Hy & H).
      apply bind_Ok in H as (ys' & Hys & [= <-]).
      constructor; [done|]. by apply IH.
    + intros H. apply Forall2_cons_inv_l in H as (y & ys' & Hy & Hys & ->).
      apply IH in Hys. by rewrite Hy, Hys.
Qed.

(** A list comprehension that raises does so on one of its items. *)
Lemma for_list_Raise {A B} (f : A → result B) (xs : list A) (e : exn) :
  for_list f xs = Raise e → ∃ x, x ∈ xs ∧ f x = Raise e.
Proof.
  induction xs as [|x xs IH]; [done|]. cbn.
  destruct (f x) as [y|e'] eqn:Hx; cbn.
  - destruct (for_list f xs) as [ys|e'']; cbn; [done|].
    intros [= ->]. destruct IH as (x' & Hx' & Hr); [done|].
    exists x'. split; [by right | done].
  - intros [= ->]. exists x. split; [by left | done].
Qed.

(** Whether the fixed-amount backtest completes, and how it fails, is
    decided by the series alone. *)
Lemma dca_backtest_Ok (data : list bar) (daily_investment : Q)
    (r : DCA.summary) :
  DCA.backtest_dca_strategy data daily_investment = Ok r →
  data ≠ [] ∧ Forall (fun d => ¬ close d == 0) data.
Proof.
  unfold DCA.backtest_dca_strategy. intros H.
  apply bind_Ok in H as (st & Hst & H). rewrite dca_finish_eq in H.
  split; [by intros ->|]. by eapply dca_loop_Ok_iff_nonzero.
Qed.

Lemma dca_backtest_Raise (data : list bar) (daily_investment : Q)
    (e : exn) :
  DCA.backtest_dca_strategy data daily_investment = Raise e →
  data = [] ∧ e = IndexError ∨
  data ≠ [] ∧ e = ZeroDivisionError ∧ Exists (fun d => close d == 0) data.
Proof.
  unfold DCA.backtest_dca_strategy. intros H.
  apply bind_Raise_inv in H as [H|(st & _ & H)].
  - apply for_each_Raise in H as (s1 & d & Hd & H).
    apply dca_body_Raise in H as [-> Hc]. right.
    split; [by intros ->; apply elem_of_nil in Hd|]. split; [done|].
    apply Exists_exists. eauto.
  - rewrite dca_finish_eq in H.
    destruct data as [|x xs _] using rev_ind; [|by rewrite last_snoc in H].
    injection H as <-. by left.
Qed.

(** X7.  When [compare_investment_amounts] completes.  Given no amounts
    it returns an empty table, whatever the series, an empty one
    included.  Given amounts it returns one row per amount, in order and
    with the figures of that amount's backtest, exactly when the series
    is not empty and has no close of zero; otherwise it raises what the
    backtest of an amount raises on that series: [IndexError] on no bars,
    [ZeroDivisionError] on a close of zero. *)
Theorem compare_investment_amounts_rows (data : list bar)
    (amounts : list Q) :
  match compare_investment_amounts data amounts with
  | Ok rows =>
      (amounts = [] ∨
       data ≠ [] ∧ Forall (fun d => ¬ close d == 0) data) ∧
      Forall2
        (fun amount row =>
           ir_amount row = amount ∧
           ∃ r, DCA.backtest_dca_strategy data amount = Ok r ∧
                ir_total_return row = DCA.r_total_return r ∧
                ir_return_percentage row = DCA.r_return_percentage r ∧
                ir_final_value row = DCA.r_final_value r)
        amounts rows
  | Raise e =>
      amounts ≠ [] ∧
      (data = [] ∧ e = IndexError ∨
       data ≠ [] ∧ e = ZeroDivisionError ∧
       Exists (fun d => close d == 0) data)
  end.
Proof.
  unfold compare_investment_amounts.
  destruct (for_list _ amounts) as [rows|e] eqn:H.
  - apply for_list_Ok in H.
    assert (Forall2
              (fun amount row =>
                 ir_amount row = amount ∧
                 ∃ r, DCA.backtest_dca_strategy data amount = Ok r ∧
                      ir_total_return row = DCA.r_total_return r ∧
                      ir_return_percentage row = DCA.r_return_percentage r ∧
                      ir_final_value row = DCA.r_final_value r)
              amounts rows) as Hrows.
    { eapply Forall2_impl; [apply H|]. cbn. intros a row Hrow.
      apply bind_Ok in Hrow as (r & Hr & [= <-]). cbn. eauto 6. }
    split; [|done].
    destruct Hrows as [|a row amounts' rows' (_ & r & Hr & _) _];
      [by left|].
    right. by eapply dca_backtest_Ok.
  - apply for_list_Raise in H as (a & Ha & H).
    split; [by intros ->; apply elem_of_nil in Ha|].
    apply bind_Raise_inv in H as [H|(r & _ & H)]; [|done].
    by eapply dca_backtest_Raise.
Qed.

(** ** The dip backtest, record by record *)

(** The state a day of the dip backtest ends in, written out. *)
Lemma ath_body_cases (dip_percentage daily_budget : Q) (st st' : ATH.state)
    (d : bar) :
  ATH.body dip_percentage daily_budget st d = Ok st' →
  let cash := ATH.accumulated_cash st + daily_budget in
  let ath := pymax (ATH.all_time_high st) (high d) in
  if ath_buys dip_percentage daily_budget st d
  then
    ¬ close d == 0 ∧
    st' = ATH.record_value
            {| ATH.all_time_high := ath;
               ATH.accumulated_cash := 0;
               ATH.total_invested := ATH.total_invested st + cash;
               ATH.total_bitcoin := ATH.total_bitcoin st + cash / close d;
               ATH.purchases := ATH.purchases st ++
                 [ ATH.Purchase (date d) (close d) cash (cash / close d) ath
                     ((ath - close d) / ath * 100)
                     (ATH.total_bitcoin st + cash / close d)
                     (ATH.total_invested st + cash)
                     (ATH.purchase_count st + 1) ];
               ATH.portfolio_values := ATH.portfolio_values st;
               ATH.purchase_count := (ATH.purchase_count st + 1)%nat |} d
  else
    st' = ATH.record_value
            {| ATH.all_time_high := ath;
               ATH.accumulated_cash := cash;
               ATH.total_invested := ATH.total_invested st;
               ATH.total_bitcoin := ATH.total_bitcoin st;
               ATH.purchases := ATH.purchases st;
               ATH.portfolio_values := ATH.portfolio_values st;
               ATH.purchase_count := ATH.purchase_count st |} d.
Proof.
  unfold ATH.body, ath_buys. cbn zeta.
  destruct (leb _ _ && ltb 0 _ && ltb 0 _) eqn:E; intros H.
  - unfold ATH.buy in H. cbn [ATH.accumulated_cash ATH.all_time_high] in H.
    apply bind_Ok in H as (st2 & H2 & H).
    apply bind_Ok in H2 as (q1 & Hq1 & H2).
    apply bind_Ok in H2 as (q2 & Hq2 & H2).
    apply truediv_Ok_inv in Hq1 as [Hc ->].
    apply truediv_Ok_inv in Hq2 as [_ ->].
    injection H2 as <-. injection H as <-. done.
  - cbn in H. by injection H as <-.
Qed.

Lemma foldl_pymax_ge (a : Q) (xs : list Q) :
  a <= foldl pymax a xs ∧ ∀ x, x ∈ xs → x <= foldl pymax a xs.
Proof.
  revert a. induction xs as [|y xs IH]; intros a; cbn.
  - split; [apply Qle_refl|]. intros x Hx. by apply elem_of_nil in Hx.
  - destruct (IH (pymax a y)) as [Ha Hxs]. split.
    + eapply Qle_trans; [apply pymax_le_l | apply Ha].
    + intros x [->|Hx]%elem_of_cons; [|by apply Hxs].
      eapply Qle_trans; [apply pymax_le_r | apply Ha].
Qed.

(** The running maximum over a longer prefix is not smaller. *)
Lemma running_max_mono (xs : list Q) (i j : nat) :
  (i ≤ j)%nat →
  foldl pymax 0 (take i xs) <= foldl pymax 0 (take j xs).
Proof.
  intros Hij. replace j with (i + (j - i))%nat by lia.
  rewrite <- take_take_drop, foldl_app.
  apply (proj1 (foldl_pymax_ge _ _)).
Qed.

(** A property of every entry of a list, by position, extends to the
    list with one more entry. *)
Lemma lookup_snoc_ind {B} (P : nat → B → Prop) (l : list B) (x : B) :
  (∀ i y, l !! i = Some y → P i y) → P (length l) x →
  ∀ i y, (l ++ [x]) !! i = Some y → P i y.
Proof.
  intros Hl Hx i y Hi. destruct (decide (i < length l)%nat) as [Hlt|Hge].
  - rewrite lookup_app_l in Hi by done. eauto.
  - assert (i = length l) as ->.
    { apply lookup_lt_Some in Hi. rewrite length_app in Hi. cbn in Hi. lia. }
    rewrite list_lookup_middle in Hi by done. by injection Hi as <-.
Qed.

Lemma ath_loop_records (dip_percentage daily_budget : Q) (data : list bar)
    (st : ATH.state) :
  for_each (ATH.body dip_percentage daily_budget) data ATH.init = Ok st →
  ath_records data st.
Proof.
  intros H.
  apply (for_each_invariant (ATH.body dip_percentage daily_budget)
           (fun pre s => ledger_ok pre (ath_position s) ∧ ath_records pre s))
    with (pre := []) in H; [by destruct H| |].
  - clear. intros pre d s s' [Hl [Hh Hd Hp Ha Hc Hn Hi Hb]] Hstep.
    split; [by eapply ath_body_ledger|].
    destruct Hl as [Li Lh _ _]. cbn in Li, Lh.
    rewrite !map_map in Li, Lh. cbn in Li, Lh.
    assert (length (ATH.portfolio_values s) = length pre) as Hlen.
    { by rewrite <- (length_map ATH.v_date), Hd, length_map. }
    assert (pymax (ATH.all_time_high s) (high d)
            = foldl pymax 0 (map high (pre ++ [d]))) as Hmax.
    { by rewrite map_app, foldl_app, Hh. }
    assert (∀ v0, ATH.v_ath v0 = pymax (ATH.all_time_high s) (high d) →
              ∀ i v, (ATH.portfolio_values s ++ [v0]) !! i = Some v →
                ATH.v_ath v
                = foldl pymax 0 (map high (take (S i) (pre ++ [d]))))
      as Hath.
    { intros v0 Hv0 i v Hv.
      destruct (decide (i < length (ATH.portfolio_values s))%nat).
      - rewrite lookup_app_l in Hv by done.
        rewrite take_app_le by lia. eauto.
      - assert (i = length (ATH.portfolio_values s)) as ->.
        { apply lookup_lt_Some in Hv. rewrite length_app in Hv.
          cbn in Hv. lia. }
        rewrite list_lookup_middle in Hv by done.
        rewrite take_ge by (rewrite length_app; cbn; lia).
        rewrite <- Hmax. injection Hv as <-. done. }
    apply ath_body_cases in Hstep. cbn zeta in Hstep.
    destruct (ath_buys _ _ _ _) eqn:E.
    + destruct Hstep as [Hcl ->]. apply ath_buys_true in E as (_ & _ & Hpos).
      split; cbn.
      * done.
      * by rewrite map_app, Hd, map_app.
      * by rewrite map_app, Hp, map_app.
      * by apply Hath.
      * rewrite length_app, Hc. done.
      * apply lookup_snoc_ind; [done|]. cbn. rewrite Hc.
        split; [lia|]. done.
      * apply running_totals_snoc; [done|]. cbn. by rewrite Li.
      * apply running_totals_snoc; [done|]. cbn. by rewrite Lh.
    + subst s'. split; cbn; try done.
      * by rewrite map_app, Hd, map_app.
      * by rewrite map_app, Hp, map_app.
      * by apply Hath.
  - split; [apply ledger_ok_init|]. split; try done.
    all: intros i p [=].
Qed.

(** X8.  The all-time high is the running maximum of the highs.  A completed
    dip backtest dates and prices its daily records as the bars; the high
    it records on a day is the largest [high] up to that day (or 0 if none
    is positive), so it never decreases, and the final one bounds every
    [high] of the series. *)
Theorem ath_daily_records (data : list bar) (dip_percentage daily_budget : Q)
    (r : ATH.summary) :
  ATH.backtest_ath_dip_strategy data dip_percentage daily_budget = Ok r →
  let vs := ATH.r_portfolio_values r in
  ATH.r_final_ath r = foldl pymax 0 (map high data) ∧
  0 <= ATH.r_final_ath r ∧
  (∀ d, d ∈ data → high d <= ATH.r_final_ath r) ∧
  map ATH.v_date vs = map date data ∧
  map ATH.v_price vs = map close data ∧
  (∀ i v, vs !! i = Some v →
     ATH.v_ath v = foldl pymax 0 (map high (take (S i) data))) ∧
  (∀ i j vi vj, (i ≤ j)%nat → vs !! i = Some vi → vs !! j = Some vj →
     ATH.v_ath vi <= ATH.v_ath vj).
Proof.
  unfold ATH.backtest_ath_dip_strategy. intros H.
  apply bind_Ok in H as (st & Hst & H). rewrite ath_finish_eq in H.
  destruct (last data); [|done]. injection H as <-. cbn.
  apply ath_loop_records in Hst as [Hh Hd Hp Ha _ _ _ _].
  destruct (foldl_pymax_ge 0 (map high data)) as [H0 Hall].
  split; [done|]. split; [by rewrite Hh|]. split.
  { intros d Hd'. rewrite Hh. apply Hall. by apply list_elem_of_fmap_2. }
  split; [done|]. split; [done|]. split; [done|].
  intros i j vi vj Hij Hi Hj.
  rewrite (Ha i vi Hi), (Ha j vj Hj), <- !firstn_map.
  apply running_max_mono. lia.
Qed.

Lemma ath_daily_records_witness :
  ∃ r, ATH.backtest_ath_dip_strategy falling_week 15 1 = Ok r ∧
    ATH.r_final_ath r = foldl pymax 0 (map high falling_week) ∧
    0 <= ATH.r_final_ath r ∧
    (∀ d, d ∈ falling_week → high d <= ATH.r_final_ath r) ∧
    map ATH.v_date (ATH.r_portfolio_values r) = map date falling_week ∧
    map ATH.v_price (ATH.r_portfolio_values r) = map close falling_week ∧
    (∀ i v, ATH.r_portfolio_values r !! i = Some v →
       ATH.v_ath v = foldl pymax 0 (map high (take (S i) falling_week))) ∧
    (∀ i j vi vj, (i ≤ j)%nat →
       ATH.r_portfolio_values r !! i = Some vi →
       ATH.r_portfolio_values r !! j = Some vj →
       ATH.v_ath vi <= ATH.v_ath vj).
Proof.
  eexists. split; [vm_compute; reflexivity|].
  apply (ath_daily_records falling_week 15 1). vm_compute; reflexivity.
Defined.

(** X9.  What the dip backtest records of its purchases.  In a completed
    run the purchases are numbered 1, 2, ... in order; each spends a
    positive amount on [amount / price] units and carries the totals
    invested and held up to and including itself. *)
Theorem ath_purchase_records (data : list bar)
    (dip_percentage daily_budget : Q) (r : ATH.summary) :
  ATH.backtest_ath_dip_strategy data dip_percentage daily_budget = Ok r →
  let ps := ATH.r_purchases r in
  ATH.r_number_of_purchases r = length ps ∧
  ∀ i e, ps !! i = Some e →
    ATH.p_purchase_number e = S i ∧
    0 < ATH.p_amount_invested e ∧
    ATH.p_bitcoin_purchased e = ATH.p_amount_invested e / ATH.p_price e ∧
    ATH.p_total_invested e =
      pysum (map ATH.p_amount_invested (take (S i) ps)) ∧
    ATH.p_total_bitcoin e =
      pysum (map ATH.p_bitcoin_purchased (take (S i) ps)).
Proof.
  unfold ATH.backtest_ath_dip_strategy. intros H.
  apply bind_Ok in H as (st & Hst & H). rewrite ath_finish_eq in H.
  destruct (last data); [|done]. injection H as <-. cbn.
  apply ath_loop_records in Hst as [_ _ _ _ _ Hn Hi Hb].
  split; [done|]. intros i e He.
  destruct (Hn i e He) as (Hnum & Hpos & Hu).
  split; [done|]. split; [done|]. split; [done|].
  split; [by apply Hi | by apply Hb].
Qed.

Lemma ath_purchase_records_witness :
  ∃ r, ATH.backtest_ath_dip_strategy falling_week 15 1 = Ok r ∧
    ATH.r_number_of_purchases r = length (ATH.r_purchases r) ∧
    ∀ i e, ATH.r_purchases r !! i = Some e →
      ATH.p_purchase_number e = S i ∧
      0 < ATH.p_amount_invested e ∧
      ATH.p_bitcoin_purchased e = ATH.p_amount_invested e / ATH.p_price e ∧
      ATH.p_total_invested e =
        pysum (map ATH.p_amount_invested (take (S i) (ATH.r_purchases r))) ∧
      ATH.p_total_bitcoin e =
        pysum (map ATH.p_bitcoin_purchased
                 (take (S i) (ATH.r_purchases r))).
Proof.
  eexists. split; [vm_compute; reflexivity|].
  apply (ath_purchase_records falling_week 15 1). vm_compute; reflexivity.
Defined.

(** ** Deeper dips buy less *)

(** A day on which the dip backtest does not buy cannot fail. *)
Lemma ath_body_withholds (dip_percentage daily_budget : Q) (st : ATH.state)
    (d : bar) :
  ath_buys dip_percentage daily_budget st d = false →
  ∃ st', ATH.body dip_percentage daily_budget st d = Ok st'.
Proof.
  unfold ATH.body, ath_buys. cbn zeta. intros ->. cbn. eauto.
Qed.

(** With a positive budget and the all-time high of a shallower run, a
    run that buys on a deeper dip buys on the shallower one too. *)
Lemma ath_buys_deeper (dip1 dip2 daily_budget : Q) (s1 s2 : ATH.state)
    (d : bar) :
  dip1 <= dip2 → 0 < daily_budget →
  ATH.all_time_high s2 = ATH.all_time_high s1 →
  0 <= ATH.accumulated_cash s1 →
  ath_buys dip2 daily_budget s2 d = true →
  ath_buys dip1 daily_budget s1 d = true.
Proof.
  intros Hdip Hb Hath Hcash H2.
  apply ath_buys_true in H2 as (Hle & Hpos & _). rewrite Hath in Hle, Hpos.
  apply ath_buys_true. split; [|split; [done|lra]].
  eapply Qle_trans; [apply Hle|].
  set (ath := pymax _ _) in *. clearbody ath.
  apply Qmult_le_l; [done|].
  assert (dip1 / 100 <= dip2 / 100); [|lra].
  apply Qmult_le_compat_r; [done|]. discriminate.
Qed.

Lemma ath_loop_deeper (data : list bar) (dip1 dip2 daily_budget : Q)
    (st1 : ATH.state) :
  dip1 <= dip2 → 0 < daily_budget →
  for_each (ATH.body dip1 daily_budget) data ATH.init = Ok st1 →
  ∃ st2, for_each (ATH.body dip2 daily_budget) data ATH.init = Ok st2 ∧
         dips_deeper st1 st2.
Proof.
  intros Hdip Hb Hst1.
  apply (for_each_lockstep (ATH.body dip1 daily_budget)
           (ATH.body dip2 daily_budget) dips_deeper)
    with (s1 := ATH.init); [| |done].
  - clear st1 Hst1. intros s1 s2 d s1' (Hath & Hc0 & Hc & Hsub) Hstep.
    apply ath_body_cases in Hstep. cbn zeta in Hstep.
    destruct (ath_buys dip2 daily_budget s2 d) eqn:E2.
    + rewrite (ath_buys_deeper dip1 dip2 daily_budget s1 s2 d) in Hstep
        by done.
      destruct Hstep as [Hcl ->].
      destruct (ath_body_progress dip2 daily_budget s2 d Hcl) as [s2' Hs2].
      exists s2'. split; [done|].
      apply ath_body_cases in Hs2. cbn zeta in Hs2. rewrite E2 in Hs2.
      destruct Hs2 as [_ ->]. unfold dips_deeper. cbn.
      rewrite Hath, !map_app. cbn.
      split; [done|]. split; [apply Qle_refl|]. split; [apply Qle_refl|].
      by apply sublist_app.
    + destruct (ath_body_withholds dip2 daily_budget s2 d E2) as [s2' Hs2].
      exists s2'. split; [done|].
      apply ath_body_cases in Hs2. cbn zeta in Hs2. rewrite E2 in Hs2.
      subst s2'.
      destruct (ath_buys dip1 daily_budget s1 d).
      * destruct Hstep as [_ ->]. unfold dips_deeper. cbn.
        rewrite Hath, !map_app.
        split; [done|]. split; [apply Qle_refl|]. split; [lra|].
        by apply sublist_inserts_r.
      * subst s1'. unfold dips_deeper. cbn. rewrite Hath.
        split; [done|]. split; [lra|]. split; [lra|]. done.
  - unfold dips_deeper. cbn.
    split; [done|]. split; [apply Qle_refl|]. split; [apply Qle_refl|].
    done.
Qed.

(** X10.  A deeper dip buys less.  With a positive daily budget, if the dip
    backtest completes for one threshold it completes for every larger
    one; the run on the larger threshold buys on a subset of the days,
    so it makes no more purchases and ends with no less idle cash, under
    the same all-time high. *)
Theorem deeper_dip_buys_less (data : list bar) (dip1 dip2 daily_budget : Q)
    (r1 : ATH.summary) :
  dip1 <= dip2 → 0 < daily_budget →
  ATH.backtest_ath_dip_strategy data dip1 daily_budget = Ok r1 →
  ∃ r2, ATH.backtest_ath_dip_strategy data dip2 daily_budget = Ok r2 ∧
    map ATH.p_date (ATH.r_purchases r2)
      `sublist_of` map ATH.p_date (ATH.r_purchases r1) ∧
    (ATH.r_number_of_purchases r2 ≤ ATH.r_number_of_purchases r1)%nat ∧
    ATH.r_accumulated_cash r1 <= ATH.r_accumulated_cash r2 ∧
    ATH.r_final_ath r2 = ATH.r_final_ath r1.
Proof.
  intros Hdip Hb. unfold ATH.backtest_ath_dip_strategy. intros H.
  apply bind_Ok in H as (st1 & Hst1 & H). rewrite ath_finish_eq in H.
  destruct (ath_loop_deeper data dip1 dip2 daily_budget st1 Hdip Hb Hst1)
    as (st2 & Hst2 & Hath & Hc0 & Hc & Hsub).
  rewrite Hst2. cbn [mbind result_bind]. rewrite ath_finish_eq.
  destruct (last data) as [d|]; [|done]. injection H as <-.
  eexists. split; [done|]. cbn.
  split; [done|]. split; [|done].
  apply sublist_length in Hsub. by rewrite !length_map in Hsub.
Qed.

Lemma deeper_dip_buys_less_witness :
  ∃ r1, ATH.backtest_ath_dip_strategy falling_week 15 1 = Ok r1 ∧
  ∃ r2, ATH.backtest_ath_dip_strategy falling_week 25 1 = Ok r2 ∧
    map ATH.p_date (ATH.r_purchases r2)
      `sublist_of` map ATH.p_date (ATH.r_purchases r1) ∧
    (ATH.r_number_of_purchases r2 ≤ ATH.r_number_of_purchases r1)%nat ∧
    ATH.r_accumulated_cash r1 <= ATH.r_accumulated_cash r2 ∧
    ATH.r_final_ath r2 = ATH.r_final_ath r1.
Proof.
  eexists. split; [vm_compute; reflexivity|].
  apply (deeper_dip_buys_less falling_week 15 25 1);
    [discriminate | reflexivity | vm_compute; reflexivity].
Defined.

(** X11.  The table of [compare_dip_thresholds].  It has one row per
    threshold, in order, and between any two rows the one with the larger
    threshold shows no more purchases. *)
Theorem compare_dip_thresholds_rows (data : list bar) (thresholds : list Q)
    (rows : list threshold_row) :
  compare_dip_thresholds data thresholds = Ok rows →
  map tr_threshold rows = thresholds ∧
  ∀ row row', row ∈ rows → row' ∈ rows →
    tr_threshold row <= tr_threshold row' →
    (tr_number_of_purchases row' ≤ tr_number_of_purchases row)%nat.
Proof.
  unfold compare_dip_thresholds. intros H. apply for_list_Ok in H.
  split.
  { induction H as [|a row thresholds rows Hrow _ IH]; [done|].
    apply bind_Ok in Hrow as (r & _ & [= <-]). cbn. by rewrite IH. }
  assert (∀ row, row ∈ rows →
            ∃ st, for_each (ATH.body (tr_threshold row) 1) data ATH.init
                  = Ok st ∧
                  tr_number_of_purchases row = length (ATH.purchases st))
    as Hrows.
  { intros row Hrow. apply list_elem_of_lookup in Hrow as [i Hi].
    destruct (Forall2_lookup_r _ _ _ _ _ H Hi) as (a & _ & Ha).
    apply bind_Ok in Ha as (r & Hr & [= <-]). cbn.
    unfold ATH.backtest_ath_dip_strategy in Hr.
    apply bind_Ok in Hr as (st & Hst & Hr). rewrite ath_finish_eq in Hr.
    destruct (last data) as [d|]; [|done]. injection Hr as <-.
    exists st. done. }
  intros row row' Hrow Hrow' Hle.
  destruct (Hrows row Hrow) as (st & Hst & ->).
  destruct (Hrows row' Hrow') as (st' & Hst' & ->).
  destruct (ath_loop_deeper data _ _ 1 st Hle ltac:(reflexivity) Hst)
    as (st'' & Hst'' & _ & _ & _ & Hsub).
  rewrite Hst' in Hst''. injection Hst'' as <-.
  apply sublist_length in Hsub. by rewrite !length_map in Hsub.
Qed.

Lemma compare_dip_thresholds_rows_witness :
  ∃ rows, compare_dip_thresholds falling_week [10; 20; 30] = Ok rows ∧
    map tr_threshold rows = [10; 20; 30] ∧
    ∀ row row', row ∈ rows → row' ∈ rows →
      tr_threshold row <= tr_threshold row' →
      (tr_number_of_purchases row' ≤ tr_number_of_purchases row)%nat.
Proof.
  eexists. split; [vm_compute; reflexivity|].
  apply (compare_dip_thresholds_rows falling_week [10; 20; 30]).
  vm_compute; reflexivity.
Defined.

(** ** The two ends of the dip threshold *)

(** X12.  A dip of 100 percent or more never triggers.  On a non-empty series
    of positive closes such a run completes without a single purchase: it
    invests nothing, holds nothing, and its final value is its idle
    cash. *)
Theorem full_dip_never_buys (data : list bar)
    (dip_percentage daily_budget : Q) :
  100 <= dip_percentage → positive_closes data → data ≠ [] →
  ∃ r, ATH.backtest_ath_dip_strategy data dip_percentage daily_budget = Ok r ∧
    ATH.r_purchases r = [] ∧
    ATH.r_total_invested r = 0 ∧
    ATH.r_total_bitcoin r = 0 ∧
    ATH.r_return_percentage r = 0 ∧
    ATH.r_average_purchase_price r = 0 ∧
    ATH.r_total_return r == 0 ∧
    ATH.r_final_value r == ATH.r_accumulated_cash r.
Proof.
  intros Hdip Hpos Hne.
  destruct (for_each_progress (ATH.body dip_percentage daily_budget)
              (fun _ st => ATH.purchases st = [] ∧
                           ATH.total_invested st = 0 ∧
                           ATH.total_bitcoin st = 0 ∧
                           0 <= ATH.all_time_high st)
              (fun d => 0 < close d))
    with (xs := data) (pre := @nil bar) (s := ATH.init)
    as (st & Hst & Hp & Hi & Hh & _); [| |done|].
  { intros _ d st (Hp & Hi & Hh & Hath) Hc.
    assert (ath_buys dip_percentage daily_budget st d = false) as E.
    { apply not_true_iff_false. intros E.
      apply ath_buys_true in E as (Hle & Hmax & _).
      set (ath := pymax _ _) in *. clearbody ath.
      assert (dip_percentage / 100 >= 1) as Hd.
      { apply Qle_shift_div_l; [reflexivity|]. lra. }
      assert (ath * (1 - dip_percentage / 100) <= 0); [|lra].
      rewrite <- (Qmult_0_r ath). apply Qmult_le_l; [done|]. lra. }
    destruct (ath_body_withholds _ _ _ _ E) as [st' Hst'].
    exists st'. split; [done|].
    apply ath_body_cases in Hst'. cbn zeta in Hst'. rewrite E in Hst'.
    subst st'. cbn. split; [done|]. split; [done|]. split; [done|].
    eapply Qle_trans; [apply Hath | apply pymax_le_l]. }
  { cbn. split; [done|]. split; [done|]. split; [done|]. apply Qle_refl. }
  unfold ATH.backtest_ath_dip_strategy. rewrite Hst.
  cbn [mbind result_bind]. rewrite ath_finish_eq.
  destruct data as [|x xs _] using rev_ind; [done|]. rewrite last_snoc.
  eexists. split; [done|]. cbn. rewrite Hp, Hi, Hh. cbn.
  split; [done|]. split; [done|]. split; [done|]. split; [done|].
  split; [done|]. split; ring.
Qed.

Lemma full_dip_never_buys_witness :
  ∃ r, ATH.backtest_ath_dip_strategy falling_week 100 1 = Ok r ∧
    ATH.r_purchases r = [] ∧
    ATH.r_total_invested r = 0 ∧
    ATH.r_total_bitcoin r = 0 ∧
    ATH.r_return_percentage r = 0 ∧
    ATH.r_average_purchase_price r = 0 ∧
    ATH.r_total_return r == 0 ∧
    ATH.r_final_value r == ATH.r_accumulated_cash r.
Proof.
  apply (full_dip_never_buys falling_week 100 1).
  - discriminate.
  - repeat constructor.
  - discriminate.
Defined.

(** Two loops in lockstep over items that satisfy [G]. *)
Lemma for_each_lockstep_on {S1 S2 A} (body1 : S1 → A → result S1)
    (body2 : S2 → A → result S2) (R : S1 → S2 → Prop) (G : A → Prop) :
  (∀ s1 s2 x s1', R s1 s2 → G x → body1 s1 x = Ok s1' →
     ∃ s2', body2 s2 x = Ok s2' ∧ R s1' s2') →
  ∀ xs s1 s2 s1',
    Forall G xs → R s1 s2 → for_each body1 xs s1 = Ok s1' →
    ∃ s2', for_each body2 xs s2 = Ok s2' ∧ R s1' s2'.
Proof.
  intros Hstep xs. induction xs as [|x xs IH]; intros s1 s2 s1' HG HR Hrun.
  - cbn in Hrun. injection Hrun as <-. exists s2. done.
  - apply Forall_cons in HG as [Hx HG].
    cbn in Hrun. apply bind_Ok in Hrun as (t1 & Hb & Hrun).
    destruct (Hstep _ _ _ _ HR Hx Hb) as (t2 & Hb2 & HR2).
    destruct (IH _ _ _ HG HR2 Hrun) as (s2' & Hrun2 & HR').
    exists s2'. cbn. rewrite Hb2. done.
Qed.

(** X13.  With a dip of zero the dip strategy is dollar-cost averaging.  On
    bars whose close is positive and not above their high, with a positive
    budget and a threshold of zero or less, the dip backtest buys every
    day and reports the totals, value, return and ratios of the
    fixed-amount backtest run with the budget as its daily amount. *)
Theorem zero_dip_is_dca (data : list bar) (dip_percentage daily_budget : Q)
    (r0 : DCA.summary) :
  dip_percentage <= 0 → 0 < daily_budget →
  positive_closes data → Forall (fun d => close d <= high d) data →
  DCA.backtest_dca_strategy data daily_budget = Ok r0 →
  ∃ r, ATH.backtest_ath_dip_strategy data dip_percentage daily_budget = Ok r ∧
    map ATH.p_date (ATH.r_purchases r) = map date data ∧
    ATH.r_accumulated_cash r = 0 ∧
    ATH.r_total_invested r == DCA.r_total_invested r0 ∧
    ATH.r_total_bitcoin r == DCA.r_total_bitcoin r0 ∧
    ATH.r_final_value r == DCA.r_final_value r0 ∧
    ATH.r_total_return r == DCA.r_total_return r0 ∧
    ATH.r_return_percentage r == DCA.r_return_percentage r0 ∧
    ATH.r_average_purchase_price r == DCA.r_average_purchase_price r0.
Proof.
  intros Hdip Hb Hpos Hhigh. unfold DCA.backtest_dca_strategy. intros H.
  apply bind_Ok in H as (st0 & Hst0 & H). rewrite dca_finish_eq in H.
  destruct (for_each_lockstep_on (DCA.body daily_budget)
              (ATH.body dip_percentage daily_budget)
              (fun s0 s =>
                 ATH.accumulated_cash s = 0 ∧
                 ATH.total_invested s == DCA.total_invested s0 ∧
                 ATH.total_bitcoin s == DCA.total_bitcoin s0 ∧
                 0 <= ATH.all_time_high s ∧
                 map ATH.p_date (ATH.purchases s)
                 = map DCA.p_date (DCA.purchases s0))
              (fun d => 0 < close d ∧ close d <= high d))
    with (xs := data) (s1 := DCA.init) (s2 := ATH.init) (s1' := st0)
    as (st & Hst & Hc & Hi & Hh & _ & Hd); [| | |done|].
  { intros s0 s d s0' (Hc & Hi & Hh & Hath & Hd) [Hcl Hch] Hstep.
    apply dca_body_Ok in Hstep as (Hnz & Ei & Eh & Ep & _).
    destruct (ath_body_progress dip_percentage daily_budget s d Hnz)
      as [s' Hs'].
    exists s'. split; [done|].
    apply ath_body_cases in Hs'. cbn zeta in Hs'.
    assert (ath_buys dip_percentage daily_budget s d = true) as E.
    { apply ath_buys_true. rewrite Hc.
      pose proof (pymax_le_r (ATH.all_time_high s) (high d)) as Hmax.
      set (ath := pymax _ _) in *. clearbody ath.
      split; [|split; lra].
      assert (ath * 1 <= ath * (1 - dip_percentage / 100)); [|lra].
      apply Qmult_le_l; [lra|].
      assert (dip_percentage / 100 <= 0); [|lra].
      unfold Qdiv. rewrite <- (Qmult_0_l (/ 100)).
      apply Qmult_le_compat_r; [done|]. discriminate. }
    rewrite E in Hs'. destruct Hs' as [_ ->]. unfold ATH.record_value.
    cbn [ATH.accumulated_cash ATH.total_invested ATH.total_bitcoin
         ATH.all_time_high ATH.purchases].
    split; [done|]. split; [rewrite Ei, Hc, Hi; ring|].
    split; [rewrite Eh, Hc, Hh; unfold Qdiv; ring|].
    split; [eapply Qle_trans; [apply Hath | apply pymax_le_l]|].
    rewrite Ep, !map_app, Hd. done. }
  { unfold positive_closes in Hpos. rewrite Forall_forall in Hpos, Hhigh.
    apply Forall_forall. intros d Hd. split; [by apply Hpos | by apply Hhigh]. }
  { cbn. split; [done|]. split; [reflexivity|]. split; [reflexivity|].
    split; [apply Qle_refl | done]. }
  unfold ATH.backtest_ath_dip_strategy. rewrite Hst.
  cbn [mbind result_bind]. rewrite ath_finish_eq.
  destruct (last data) as [d|]; [|done]. injection H as <-.
  eexists. split; [done|]. cbn.
  apply dca_loop_records in Hst0 as [Hdates _ _ _ _ _].
  split; [by rewrite Hd|]. split; [done|]. split; [done|]. split; [done|].
  rewrite Hc.
  split; [rewrite Hh; ring|]. split; [rewrite Hh, Hi; ring|]. split.
  - apply (guarded_ratio_scale 1); [reflexivity| |by rewrite Hi; ring].
    rewrite Hh, Hi. ring.
  - rewrite (ltb_scale 1 (DCA.total_bitcoin st0) (ATH.total_bitcoin st))
      by (reflexivity || (rewrite Hh; ring)).
    destruct (ltb 0 (DCA.total_bitcoin st0)); [|reflexivity].
    by rewrite Hi, Hh.
Qed.

Lemma zero_dip_is_dca_witness :
  ∃ r0, DCA.backtest_dca_strategy three_days 10 = Ok r0 ∧
  ∃ r, ATH.backtest_ath_dip_strategy three_days 0 10 = Ok r ∧
    map ATH.p_date (ATH.r_purchases r) = map date three_days ∧
    ATH.r_accumulated_cash r = 0 ∧
    ATH.r_total_invested r == DCA.r_total_invested r0 ∧
    ATH.r_total_bitcoin r == DCA.r_total_bitcoin r0 ∧
    ATH.r_final_value r == DCA.r_final_value r0 ∧
    ATH.r_total_return r == DCA.r_total_return r0 ∧
    ATH.r_return_percentage r == DCA.r_return_percentage r0 ∧
    ATH.r_average_purchase_price r == DCA.r_average_purchase_price r0.
Proof.
  eexists. split; [vm_compute; reflexivity|].
  apply (zero_dip_is_dca three_days 0 10).
  - discriminate.
  - reflexivity.
  - repeat constructor.
  - repeat constructor; discriminate.
  - vm_compute; reflexivity.
Defined.

(** ** The moving average and its trades *)

(** X14.  What [calculate_moving_average] returns.  It fails only on a
    window of zero with at least one bar, by dividing by the window.
    Otherwise it returns one entry per bar: [None] before index
    [window - 1]; from there, for a positive window, the mean of the
    [window] closes ending at the bar; and for a negative window a zero
    mean at every index. *)
Theorem calculate_moving_average_entries (data : list bar) (window : Z) :
  match MA.calculate_moving_average data window with
  | Raise e => e = ZeroDivisionError ∧ window = 0%Z ∧ data ≠ []
  | Ok mas =>
      (window ≠ 0%Z ∨ data = []) ∧
      length mas = length data ∧
      ∀ i x, mas !! i = Some x →
        ((Z.of_nat i < window - 1)%Z → x = None) ∧
        ((0 < window ≤ Z.of_nat i + 1)%Z →
           x = Some (pysum (map close (recent (Z.to_nat window) data i))
                     / inject_Z window)) ∧
        ((window < 0)%Z → ∃ q, x = Some q ∧ q == 0)
  end.
Proof.
  destruct (MA.calculate_moving_average data window) as [mas|e] eqn:H.
  2:{ by apply calculate_moving_average_Raise. }
  pose proof (calculate_moving_average_Ok _ _ _ H) as HF.
  assert (length mas = length data) as Hlen.
  { apply Forall2_length in HF. by rewrite length_seq in HF. }
  assert (∀ i x, mas !! i = Some x →
            (i < length data)%nat ∧ MA.moving_average_at data window i = Ok x)
    as Hat.
  { intros i x Hx. pose proof (lookup_lt_Some _ _ _ Hx) as Hlt.
    rewrite Hlen in Hlt. split; [done|].
    destruct (calculate_moving_average_lookup data window mas i H Hlt)
      as (x' & Hx' & Hm). congruence. }
  split; [|split; [done|]].
  - destruct (decide (window = 0%Z)) as [->|]; [|by left]. right.
    destruct data as [|d data]; [done|].
    destruct (lookup_lt_is_Some_2 mas 0) as [x Hx]; [rewrite Hlen; cbn; lia|].
    destruct (Hat 0%nat x Hx) as [_ Hm].
    rewrite moving_average_at_nonpos in Hm by done. done.
  - intros i x Hx. destruct (Hat i x Hx) as [Hlt Hm]. split; [|split].
    + intros Hi. rewrite moving_average_at_early in Hm by done. congruence.
    + intros [HW Hi]. rewrite moving_average_at_full in Hm by lia.
      congruence.
    + intros HW. rewrite moving_average_at_nonpos in Hm by lia.
      rewrite truediv_Ok in Hm by (unfold Qeq; cbn; lia).
      cbn in Hm. injection Hm as <-. eexists. split; [done|].
      unfold Qdiv. ring.
Qed.

(** A loop invariant over items that satisfy [G]. *)
Lemma for_each_invariant_on {S A} (body : S → A → result S) (P : S → Prop)
    (G : A → Prop) :
  (∀ x s s', P s → G x → body s x = Ok s' → P s') →
  ∀ xs s s', Forall G xs → P s → for_each body xs s = Ok s' → P s'.
Proof.
  intros Hstep xs. induction xs as [|x xs IH]; intros s s' HG HP Hrun.
  - cbn in Hrun. by injection Hrun as <-.
  - apply Forall_cons in HG as [Hx HG].
    cbn in Hrun. apply bind_Ok in Hrun as (s1 & Hb & Hrun).
    eapply IH; [done| |done]. eauto.
Qed.

(** X15.  Every trade of the moving-average backtest is made under the
    average the code computed.  With a window of at least one bar, each
    trade of a completed run is dated and priced as a bar at index
    [window - 1] or later, spends a positive amount on [amount / price]
    units, and its price is under the [sum] of the [window] closes ending
    at that bar divided by the window, as binary64 rounds them.  (That
    rounded average can exceed every close of the window: on three closes
    of 100.4 it is 100.40000000000002, and the run trades.) *)
Theorem ma_trades_below_average (builtin_sum : list float → float)
    (data : list B64.bar) (ma_window : Z) (daily_budget : float)
    (r : B64.MA.summary) (t : B64.MA.trade) :
  (0 < ma_window < 2 ^ 1023)%Z →
  B64.MA.backtest_moving_average_strategy builtin_sum data ma_window
    daily_budget = Ok r →
  t ∈ B64.MA.r_trades r →
  B64.traded_below_average builtin_sum data ma_window t.
Proof.
  intros [HW _] H Ht. unfold B64.MA.backtest_moving_average_strategy in H.
  apply bind_Ok in H as (mas & Hmas & H).
  apply bind_Ok in H as (st & Hst & H).
  apply b64_ma_finish_Ok in H. rewrite H in Ht. clear r H.
  revert t Ht. apply Forall_forall.
  apply (for_each_invariant_on (B64.MA.body mas daily_budget)
           (fun s => Forall (B64.traded_below_average builtin_sum data
                               ma_window)
                       (B64.MA.trades s))
           (fun item => data !! item.1 = Some item.2))
    with (xs := enumerate data) (s := B64.MA.init); [| |by constructor|done].
  - clear st Hst. intros [k d] s s' HF Hk Hb. cbn in Hk.
    apply b64_ma_body_Ok in Hb as (x & Hx & Hb). cbn zeta in Hb.
    destruct (B64.ma_signal x daily_budget s d) eqn:E.
    2:{ destruct Hb as (_ & _ & _ & ->). done. }
    destruct Hb as (Hcl & _ & _ & _ & ->).
    apply Forall_app. split; [done|]. constructor; [|done].
    destruct x as [ma|]; [|done].
    apply b64_ma_signal_true in E as [Hlt Hpos].
    pose proof (lookup_lt_Some _ _ _ Hk) as Hklen.
    destruct (b64_calculate_moving_average_lookup builtin_sum data
                ma_window mas k Hmas Hklen) as (x' & Hx' & Hat).
    rewrite Hx in Hx'. injection Hx' as <-.
    destruct (Z.ltb_spec (Z.of_nat k) (ma_window - 1)) as [Hearly|Hfull].
    { rewrite b64_moving_average_at_early in Hat by done. done. }
    apply b64_moving_average_at_full in Hat; [|done|done|done].
    injection Hat as ->.
    exists k, d. cbn. split; [done|]. split; [lia|]. done.
  - apply Forall_lookup. intros k [i d] Hk.
    by apply enumerate_lookup_inv in Hk as [-> Hd].
Qed.

Lemma ma_trades_below_average_witness :
  ∃ r t,
    B64.MA.backtest_moving_average_strategy B64.running_total
      B64.flat_at_100_4 3 1 = Ok r ∧
    head (B64.MA.r_trades r) = Some t ∧
    B64.traded_below_average B64.running_total B64.flat_at_100_4 3 t.
Proof.
  eexists. eexists. split; [vm_compute; reflexivity|].
  split; [vm_compute; reflexivity|].
  eapply (ma_trades_below_average B64.running_total B64.flat_at_100_4 3 1);
    [split; reflexivity | vm_compute; reflexivity | apply list_elem_of_here].
Defined.

(** ** The reports *)

(** X16.  [analyze_dca_performance] cannot fail on the summary of a completed
    backtest, and the appreciation it compares the return with is that of
    the close from the first bar to the last. *)
Theorem analyze_after_backtest (data : list bar) (daily_investment : Q)
    (r : DCA.summary) :
  DCA.backtest_dca_strategy data daily_investment = Ok r →
  ∃ d0 dn, head data = Some d0 ∧ last data = Some dn ∧
    let bitcoin_appreciation := (close dn - close d0) / close d0 * 100 in
    analyze_dca_performance r
    = Ok (bitcoin_appreciation,
          DCA.r_return_percentage r - bitcoin_appreciation).
Proof.
  unfold DCA.backtest_dca_strategy. intros H.
  apply bind_Ok in H as (st & Hst & H). rewrite dca_finish_eq in H.
  destruct (last data) as [dn|] eqn:Hlast; [|done]. injection H as <-.
  pose proof (dca_loop_records _ _ _ Hst) as [_ Hp _ _ _ _].
  destruct data as [|d0 data]; [done|]. exists d0, dn.
  split; [done|]. split; [done|].
  apply dca_loop_Ok_iff_nonzero in Hst. apply Forall_cons in Hst as [Hnz _].
  unfold analyze_dca_performance. cbn [DCA.r_purchases].
  destruct (DCA.purchases st) as [|p0 ps]; [done|]. injection Hp as Hp0 _.
  change (getitem (p0 :: ps) 0) with (getitem (p0 :: ps) (Z.of_nat 0)).
  rewrite getitem_nat. cbn. rewrite Hp0, (truediv_Ok _ _ Hnz). done.
Qed.

Lemma analyze_after_backtest_witness :
  ∃ r, DCA.backtest_dca_strategy three_days 10 = Ok r ∧
  ∃ d0 dn, head three_days = Some d0 ∧ last three_days = Some dn ∧
    analyze_dca_performance r
    = Ok ((close dn - close d0) / close d0 * 100,
          DCA.r_return_percentage r
          - (close dn - close d0) / close d0 * 100).
Proof.
  eexists. split; [vm_compute; reflexivity|].
  apply (analyze_after_backtest three_days 10). vm_compute; reflexivity.
Defined.

(** A left fold keeps what each of its steps keeps, stated on the items
    folded so far. *)
Lemma foldl_invariant {A B} (f : B → A → B) (P : list A → B → Prop) :
  (∀ pre b y, P pre b → P (pre ++ [y]) (f b y)) →
  ∀ l pre b, P pre b → P (pre ++ l) (foldl f b l).
Proof.
  intros Hstep l. induction l as [|y l IH]; intros pre b HP.
  - by rewrite app_nil_r.
  - cbn. rewrite (cons_middle y pre l), app_assoc. by apply IH, Hstep.
Qed.

Lemma min_by_first_best {A} (key : A → Q) (x : A) (rest : list A) :
  first_best Qlt Qle key (x :: rest) (min_by key x rest).
Proof.
  unfold min_by.
  apply (foldl_invariant _ (first_best Qlt Qle key)) with (pre := [x]).
  - intros pre b y (i & Hi & Hall & Hbefore).
    destruct (ltb (key y) (key b)) eqn:E.
    + apply ltb_lt in E. exists (length pre). split; [|split].
      * by rewrite list_lookup_middle.
      * apply lookup_snoc_ind; [|apply Qle_refl].
        intros j z Hz. apply Qlt_le_weak.
        eapply Qlt_le_trans; [apply E | by eapply Hall].
      * intros j z Hj Hz. rewrite lookup_app_l in Hz by done.
        eapply Qlt_le_trans; [apply E | by eapply Hall].
    + apply ltb_ge in E. exists i.
      pose proof (lookup_lt_Some _ _ _ Hi) as Hlt. split; [|split].
      * by rewrite lookup_app_l.
      * apply lookup_snoc_ind; [done|done].
      * intros j z Hj Hz. rewrite lookup_app_l in Hz by lia. eauto.
  - exists 0%nat. split; [done|]. split.
    + intros [|j] y [=]. subst. apply Qle_refl.
    + intros j y Hj. lia.
Qed.

Lemma max_by_first_best {A} (key : A → Q) (x : A) (rest : list A) :
  first_best (fun a b => b < a) (fun a b => b <= a) key (x :: rest)
    (max_by key x rest).
Proof.
  unfold max_by.
  apply (foldl_invariant _
           (first_best (fun a b => b < a) (fun a b => b <= a) key))
    with (pre := [x]).
  - intros pre b y (i & Hi & Hall & Hbefore).
    destruct (ltb (key b) (key y)) eqn:E.
    + apply ltb_lt in E. exists (length pre). split; [|split].
      * by rewrite list_lookup_middle.
      * apply lookup_snoc_ind; [|apply Qle_refl].
        intros j z Hz. apply Qlt_le_weak.
        eapply Qle_lt_trans; [by eapply Hall | apply E].
      * intros j z Hj Hz. rewrite lookup_app_l in Hz by done.
        eapply Qle_lt_trans; [by eapply Hall | apply E].
    + apply ltb_ge in E. exists i.
      pose proof (lookup_lt_Some _ _ _ Hi) as Hlt. split; [|split].
      * by rewrite lookup_app_l.
      * apply lookup_snoc_ind; [done|done].
      * intros j z Hj Hz. rewrite lookup_app_l in Hz by lia. eauto.
  - exists 0%nat. split; [done|]. split.
    + intros [|j] y [=]. subst. apply Qle_refl.
    + intros j y Hj. lia.
Qed.

(** X17.  The best and the worst purchase of the dip report.  There is none
    exactly when there was no purchase.  Otherwise the best is a purchase
    at the lowest price and the worst one at the highest price, and of
    several purchases at that price each is the earliest. *)
Theorem best_and_worst_purchase (purchases : list ATH.purchase) :
  match best_and_worst purchases with
  | None => purchases = []
  | Some (best, worst) =>
      ∃ i j, purchases !! i = Some best ∧ purchases !! j = Some worst ∧
        (∀ e, e ∈ purchases →
           ATH.p_price best <= ATH.p_price e <= ATH.p_price worst) ∧
        (∀ k e, (k < i)%nat → purchases !! k = Some e →
           ATH.p_price best < ATH.p_price e) ∧
        (∀ k e, (k < j)%nat → purchases !! k = Some e →
           ATH.p_price e < ATH.p_price worst)
  end.
Proof.
  destruct purchases as [|x rest]; [done|]. cbn [best_and_worst].
  destruct (min_by_first_best ATH.p_price x rest) as (i & Hi & Hmin & Hfirst).
  destruct (max_by_first_best ATH.p_price x rest) as (j & Hj & Hmax & Hlast).
  exists i, j. split; [done|]. split; [done|]. split; [|split; [done|done]].
  intros e He. apply list_elem_of_lookup in He as [k Hk].
  split; [by eapply Hmin | by eapply Hmax].
Qed.




(** X19.  The final value is the last daily valuation.  In a completed run
    of any strategy the value reported in the summary is the one recorded
    for the last bar. *)
Theorem final_value_is_last_valuation (s : strategy) (data : list bar)
    (r : report) :
  run s data = Ok r →
  ∃ v, last (valuations (final_position r)) = Some v ∧ v == final_value r.
Proof.
  intros H. apply run_Ok_inv in H as (d & Hd & Hp & _ & Hv & _).
  pose proof (position_after_ledger _ _ _ _ Hp) as [_ _ _ Hlen].
  rewrite firstn_all in Hlen.
  rewrite last_lookup in Hd.
  destruct (final_valuations s data _ Hp _ d Hd) as (pi & v & Hpi & Hv' & Hval).
  assert (S (Init.Nat.pred (length data)) = length data) as Hn.
  { apply lookup_lt_Some in Hd. lia. }
  rewrite Hn, Hp in Hpi. injection Hpi as <-.
  exists v. split; [by rewrite last_lookup, Hlen|].
  by rewrite Hval, Hv.
Qed.

Lemma final_value_is_last_valuation_witness :
  ∃ r, run (Below_Moving_Average 2 1) falling_week = Ok r ∧
  ∃ v, last (valuations (final_position r)) = Some v ∧ v == final_value r.
Proof.
  eexists. split; [vm_compute; reflexivity|].
  apply (final_value_is_last_valuation (Below_Moving_Average 2 1)
           falling_week).
  vm_compute; reflexivity.
Defined.
